(** * fast_bert/learner_lm.py: the masked-language-model learner

    A shallow embedding of [BertLMLearner] (construction, [fit],
    [training_step], [validate]) and the properties of its step
    accounting, logging and validation results.

    Python integers are [Z] ([//] and [%] are [Z.div] and [Z.modulo], which
    round towards minus infinity like Python's, and raise on a zero divisor).
    Python floats and torch scalars are kept abstract behind [FloatOps]: no
    theorem below uses an arithmetic law, so each holds for IEEE doubles as
    well as for the reals.  What the code asks of torch, the data bunch and
    the base class [Learner] is kept abstract behind [TorchOps].  Moving
    tensors between devices and creating directories are left out. *)

From Stdlib Require Import ZArith List String Lia Reals.
From stdpp Require Import base option list gmap strings.

Open Scope Z_scope.

(** ** Exceptions and outcomes *)

Inductive exn : Type :=
| ZeroDivisionError   (* [//], [%] or [/] by zero *)
| TypeError           (* subscripting [None] *)
| AttributeError      (* a method of [None] *)
| NameError           (* [autocast] when the import was skipped *)
| KeyError            (* [MODEL_CLASSES[model_type]] *)
| OSError.            (* [from_pretrained] on a missing checkpoint *)

Inductive Outcome (A : Type) : Type :=
| Returns (a : A)
| Raises (e : exn).
Arguments Returns {A} a.
Arguments Raises {A} e.

Definition returned {A} (o : Outcome A) : option A :=
  match o with Returns a => Some a | Raises _ => None end.

(** ** Numbers *)

(** [F] is a Python float, [T] a torch scalar tensor (a loss). *)
Class FloatOps (F T : Type) := {
  of_int : Z -> F;               (* float(n); [0.0] is [of_int 0] *)
  fadd : F -> F -> F;            (* x + y *)
  fsub : F -> F -> F;            (* x - y *)
  fdiv : F -> F -> F;            (* x / y, y not zero *)
  torch_exp : F -> F;            (* float(torch.exp(torch.tensor(x))) *)
  item : T -> F;                 (* t.item() *)
  tensor_mean : T -> T;          (* t.mean() *)
  tensor_div : T -> Z -> T       (* t / n *)
}.

(** Python's [a // b] and [a % b] on integers. *)
Definition py_floordiv (a b : Z) : Outcome Z :=
  if b =? 0 then Raises ZeroDivisionError else Returns (a / b).

Definition py_mod (a b : Z) : Outcome Z :=
  if b =? 0 then Raises ZeroDivisionError else Returns (a mod b).

(** Python's [x / n] for a float (or the integer 0) [x] and an integer [n]. *)
Definition py_truediv {F T} `{FloatOps F T} (x : F) (n : Z) : Outcome F :=
  if n =? 0 then Raises ZeroDivisionError else Returns (fdiv x (of_int n)).

(** ** Data *)

Inductive ConfigClass : Type :=
| BertConfig | RobertaConfig | DistilBertConfig | CamembertConfig | ElectraConfig.

Inductive ModelClass : Type :=
| BertForMaskedLM | RobertaForMaskedLM | DistilBertForMaskedLM
| CamembertForMaskedLM | ElectraForMaskedLM.

Definition MODEL_CLASSES : gmap string (ConfigClass * ModelClass) :=
  <["electra" := (ElectraConfig, ElectraForMaskedLM)]>
  (<["camembert-base" := (CamembertConfig, CamembertForMaskedLM)]>
  (<["distilbert" := (DistilBertConfig, DistilBertForMaskedLM)]>
  (<["roberta" := (RobertaConfig, RobertaForMaskedLM)]>
  (<["bert" := (BertConfig, BertForMaskedLM)]> ∅)))).

(** A metric is a dict with a ["name"] (its function is never called here). *)
Record Metric : Type := { name : string }.

(** [torch.cuda.amp.GradScaler()] and the Neptune run are objects of which
    only presence matters: both attributes may be [None]. *)
Inductive GradScaler : Type := MkGradScaler.
Inductive NeptuneRun : Type := MkNeptuneRun.

Record DataBunch (Batch : Type) : Type := {
  train_dl : list Batch;          (* the batches of one pass *)
  val_dl : list Batch;
  train_num_examples : Z;         (* len(train_dl.dataset) *)
  val_num_examples : Z;           (* len(val_dl.dataset) *)
  train_batch_size : Z;
  val_batch_size : Z;
  data_model_type : string
}.
Arguments train_dl {Batch} _.
Arguments val_dl {Batch} _.
Arguments train_num_examples {Batch} _.
Arguments val_num_examples {Batch} _.
Arguments train_batch_size {Batch} _.
Arguments val_batch_size {Batch} _.
Arguments data_model_type {Batch} _.

(** The attributes of [self] that no method assigns after [__init__]
    ([max_steps] is set to -1 there and only a caller can change it). *)
Record Learner (Batch : Type) : Type := {
  data : DataBunch Batch;
  metrics : list Metric;
  multi_gpu : bool;
  is_fp16 : bool;
  warmup_steps : Z;
  grad_accumulation_steps : Z;
  n_gpu : Z;
  logging_steps : Z;
  max_steps : Z;
  model_type : string;
  scaler : option GradScaler;
  neptune_run : option NeptuneRun
}.
Arguments data {Batch} _.
Arguments metrics {Batch} _.
Arguments multi_gpu {Batch} _.
Arguments is_fp16 {Batch} _.
Arguments warmup_steps {Batch} _.
Arguments grad_accumulation_steps {Batch} _.
Arguments n_gpu {Batch} _.
Arguments logging_steps {Batch} _.
Arguments max_steps {Batch} _.
Arguments model_type {Batch} _.
Arguments scaler {Batch} _.
Arguments neptune_run {Batch} _.

(** What [self] and torch hold that the methods change: [self.model] (wrapped
    in [DataParallel] or not, in training or evaluation mode), [self.epochs]
    (assigned by [fit] only), and the tensors, optimiser, scheduler and
    random generator behind [store]. *)
Record World (Store : Type) : Type := {
  model_wrapped : bool;
  model_training : bool;
  self_epochs : option Z;
  store : Store
}.
Arguments model_wrapped {Store} _.
Arguments model_training {Store} _.
Arguments self_epochs {Store} _.
Arguments store {Store} _.

(** ** What the code calls but does not define

    [mask_tokens] draws random masks and the training-mode forward pass may
    draw dropout masks, so both thread the store.  In evaluation mode a
    forward pass reads the store and leaves it as it is.  [get_optimizer] and
    [get_scheduler] are methods of the base class [Learner].
    [load_pretrained] is [config_class.from_pretrained], then
    [model_class.from_pretrained] and [model.to(device)]: it raises when the
    checkpoint cannot be loaded. *)
Class TorchOps (F T Batch Store : Type) := {
  mask_tokens : Batch -> Store -> (Batch * Batch) * Store;
  forward_train : bool -> Batch -> Batch -> Store -> T * Store;
  forward_eval : bool -> Batch -> Batch -> Store -> T;
  backward : bool -> T -> Store -> Store;
  clip_grad_norm : Store -> Store;
  scaler_unscale : Store -> Store;
  scaler_step : Store -> Store;
  scaler_update : Store -> Store;
  optimizer_step : Store -> Store;
  scheduler_step : Store -> Store;
  zero_grad : Store -> Store;
  scheduler_get_lr : Store -> F;
  get_optimizer : F -> string -> Store -> Store;
  get_scheduler : Z -> string -> Store -> Store;
  load_pretrained : ConfigClass -> ModelClass -> string -> Outcome Store
}.

Section LearnerLM.

Context {F T Batch Store : Type}.
Context {float_ops : FloatOps F T}.
Context {torch_ops : TorchOps F T Batch Store}.

(** [IS_AMP_AVAILABLE]: whether torch is at least 1.6, decided at import;
    [autocast] is imported only then. *)
Variable IS_AMP_AVAILABLE : bool.

(** [torch.cuda.device_count()]. *)
Variable cuda_device_count : Z.

(** ** Observable calls

    Every call on the logger, the tensorboard writer, the Neptune run, the
    optimiser, the scaler and the scheduler is recorded, in order. *)

Inductive LogMsg : Type :=
| RunningTraining
| NumExamples (n : Z)
| NumEpochs (epochs : Z)
| TotalTrainBatchSize (n : Z)
| GradientAccumulationSteps (n : Z)
| TotalOptimizationSteps (t_total : Z)
| EvalAfterStep (key : string) (global_step : Z) (value : F)
| LrAfterStep (global_step : Z) (lr : F)
| TrainLossAfterStep (global_step : Z) (value : F)
| EvalAfterEpoch (key : string) (epoch : Z) (value : F)
| LrAfterEpoch (epoch : Z) (lr : F)
| TrainLossAfterEpoch (epoch : Z) (value : F)
| Newline
| RunningEvaluation
| NumExamplesEvaluated (n : Z)
| ValidationBatchSize (n : Z).

Inductive Event : Type :=
| LoggerInfo (msg : LogMsg)
| LoggerDebug (msg : string)
| TbOpen                                               (* SummaryWriter(dir) *)
| TbAddScalar (tag : string) (value : F) (global_step : Z)
| TbClose
| NeptuneLogTensor (channel : string) (value : T)      (* run[channel].log(t) *)
| NeptuneLogFloat (channel : string) (value : F)       (* run[channel].log(x) *)
| NeptuneAssign (channel : string) (value : gmap string F)
| GetOptimizer (lr : F) (optimizer_type : string)
| GetScheduler (t_total : Z) (schedule_type : string)
| ClipGradNorm
| ScalerUnscale
| ScalerStep                                           (* scaler.step(optimizer) *)
| ScalerUpdate
| OptimizerStep                                        (* optimizer.step() *)
| SchedulerStep
| ZeroGrad
| EmptyCache.

(** ** The monad of a method body: world in, outcome, world and calls out.
    A raise keeps the world and the calls made before it. *)

Definition M (A : Type) : Type :=
  World Store -> Outcome A * World Store * list Event.

Definition ret {A} (a : A) : M A := fun w => (Returns a, w, []).

Definition bind {A B} (c : M A) (k : A -> M B) : M B :=
  fun w =>
    match c w with
    | (Returns a, w1, e1) =>
        match k a w1 with
        | (o, w2, e2) => (o, w2, e1 ++ e2)
        end
    | (Raises x, w1, e1) => (Raises x, w1, e1)
    end.

Definition raise {A} (x : exn) : M A := fun w => (Raises x, w, []).

Definition lift {A} (o : Outcome A) : M A := fun w => (o, w, []).

Definition emit (ev : Event) : M unit := fun w => (Returns tt, w, [ev]).

Definition get_world : M (World Store) := fun w => (Returns w, w, []).

Definition put_world (w' : World Store) : M unit := fun _ => (Returns tt, w', []).

(** A call that reads and updates the torch store. *)
Definition with_store {A} (f : Store -> A * Store) : M A :=
  fun w =>
    let '(a, s) := f (store w) in
    (Returns a,
     {| model_wrapped := model_wrapped w; model_training := model_training w;
        self_epochs := self_epochs w; store := s |}, []).

Definition on_store (f : Store -> Store) : M unit :=
  with_store (fun s => (tt, f s)).

Definition read_store {A} (f : Store -> A) : M A :=
  with_store (fun s => (f s, s)).

Notation "'let*' x ':=' c 'in' k" := (bind c (fun x => k))
  (at level 10, x pattern, c at level 100, k at level 200,
   format "'[v' 'let*'  x  ':='  c  'in' '/' k ']'").

Notation "c ';;' k" := (bind c (fun _ => k))
  (at level 100, k at level 200, right associativity, only parsing).

(** [for x in xs: acc = body(acc, x)]. *)
Fixpoint for_each {A S} (xs : list A) (acc : S) (body : S -> A -> M S) : M S :=
  match xs with
  | [] => ret acc
  | x :: xs' => let* acc' := body acc x in for_each xs' acc' body
  end.

(** [enumerate(xs)], counting from [i]. *)
Fixpoint enumerate_from {A} (i : Z) (xs : list A) : list (Z * A) :=
  match xs with
  | [] => []
  | x :: xs' => (i, x) :: enumerate_from (i + 1) xs'
  end.

Definition enumerate {A} (xs : list A) : list (Z * A) := enumerate_from 0 xs.

(** [range(n)]. *)
Definition range (n : Z) : list Z := map Z.of_nat (seq 0 (Z.to_nat n)).

(** [len(xs)]. *)
Definition len {A} (xs : list A) : Z := Z.of_nat (length xs).

(** ** Small steps shared by the methods *)

Definition set_training (b : bool) : M unit :=
  let* w := get_world in
  put_world {| model_wrapped := model_wrapped w; model_training := b;
               self_epochs := self_epochs w; store := store w |}.

Definition set_wrapped (b : bool) : M unit :=
  let* w := get_world in
  put_world {| model_wrapped := b; model_training := model_training w;
               self_epochs := self_epochs w; store := store w |}.

Definition set_self_epochs (n : Z) : M unit :=
  let* w := get_world in
  put_world {| model_wrapped := model_wrapped w; model_training := model_training w;
               self_epochs := Some n; store := store w |}.

(** [self.model(inputs, masked_lm_labels=labels)[0]]; the flag tells whether
    the call is made under [autocast()]. *)
Definition call_model (autocast : bool) (inputs labels : Batch) : M T :=
  let* w := get_world in
  if model_training w then with_store (forward_train autocast inputs labels)
  else read_store (forward_eval autocast inputs labels).

(** [self.neptune_run[channel]...]: subscripting [None] raises. *)
Definition neptune (self : Learner Batch) (ev : Event) : M unit :=
  match neptune_run self with
  | Some _ => emit ev
  | None => raise TypeError
  end.

(** [self.scaler.method(...)]: a method of [None] raises. *)
Definition with_scaler (self : Learner Batch) (evs : list Event)
    (f : Store -> Store) : M unit :=
  match scaler self with
  | Some _ => for_each evs tt (fun _ ev => emit ev);; on_store f
  | None => raise AttributeError
  end.

(** [with autocast():] the name is bound only if the import ran. *)
Definition enter_autocast : M unit :=
  if IS_AMP_AVAILABLE then ret tt else raise NameError.

(** ** [training_step] *)

Definition training_step (self : Learner Batch) (batch : Batch) : M T :=
  let* (inputs, labels) := with_store (mask_tokens batch) in
  set_training true;;
  let* outputs :=
    if is_fp16 self then
      enter_autocast;;
      call_model true inputs labels
    else call_model false inputs labels in
  let loss := outputs in
  let loss := if n_gpu self >? 1 then tensor_mean loss else loss in
  neptune self (NeptuneLogTensor "Fine_tune/fine_tune_batch_loss" loss);;
  let loss :=
    if grad_accumulation_steps self >? 1
    then tensor_div loss (grad_accumulation_steps self) else loss in
  (if is_fp16 self then with_scaler self [] (backward true loss)
   else on_store (backward false loss));;
  ret loss.

(** ** [validate] *)

(** [{metric["name"]: 0.0 for metric in self.metrics}]. *)
Definition validation_scores (self : Learner Batch) : gmap string F :=
  foldl (fun scores metric => <[name metric := of_int 0]> scores) ∅ (metrics self).

(** The body of the loop over [self.data.val_dl]: the state is
    [(eval_loss, nb_eval_steps)]. *)
Definition validate_batch (acc : F * Z) (batch : Batch) : M (F * Z) :=
  let '(eval_loss, nb_eval_steps) := acc in
  set_training false;;
  let* outputs := call_model false batch batch in
  let tmp_eval_loss := outputs in
  let eval_loss := fadd eval_loss (item (tensor_mean tmp_eval_loss)) in
  emit EmptyCache;;
  ret (eval_loss, nb_eval_steps + 1).

(** The two Neptune calls written after [return results] are never reached
    and are left out. *)
Definition validate (self : Learner Batch) : M (gmap string F) :=
  emit (LoggerInfo RunningEvaluation);;
  emit (LoggerInfo (NumExamplesEvaluated (val_num_examples (data self))));;
  emit (LoggerInfo (ValidationBatchSize (val_batch_size (data self))));;
  let eval_loss := of_int 0 in
  let nb_eval_steps := 0 in
  let validation_scores := validation_scores self in
  let* (eval_loss, nb_eval_steps) :=
    for_each (val_dl (data self)) (eval_loss, nb_eval_steps) validate_batch in
  let* eval_loss := lift (py_truediv eval_loss nb_eval_steps) in
  let perplexity := torch_exp eval_loss in
  let results : gmap string F :=
    <["perplexity" := perplexity]> (<["loss" := eval_loss]> ∅) in
  neptune self (NeptuneLogFloat "Fine_tune/fine_tune_eval_loss" eval_loss);;
  neptune self (NeptuneAssign "Fine_tune/fine_tune_metrics" results);;
  (* results.update(validation_scores) *)
  let results := validation_scores ∪ results in
  ret results.

(** ** [fit] *)

(** The local variables of [fit] that live across iterations. *)
Record Loop : Type := {
  global_step : Z;
  epoch_step : Z;
  tr_loss : F;
  logging_loss : F;
  epoch_loss : F
}.

(** A Python dict iterates in insertion order.  [validate] builds its
    mapping as [{"loss": .., "perplexity": ..}] and updates it with the
    metric scores, whose keys were inserted in the order of [self.metrics]:
    the keys come as "loss", "perplexity", then the metric names, each at
    its first occurrence. *)
Fixpoint insertion_order (seen keys : list string) : list string :=
  match keys with
  | [] => []
  | key :: rest =>
      if bool_decide (key ∈ seen) then insertion_order seen rest
      else key :: insertion_order (key :: seen) rest
  end.

Definition result_keys (self : Learner Batch) : list string :=
  insertion_order [] ("loss" :: "perplexity" :: map name (metrics self)).

(** [results.items()] for the mapping [validate] returned. *)
Definition dict_items (self : Learner Batch) (results : gmap string F)
    : list (string * F) :=
  omap (fun key => (fun value => (key, value)) <$> results !! key)
       (result_keys self).

(** Lines 249-281: the logging block, entered with the counters already
    advanced; it ends with [logging_loss = tr_loss]. *)
Definition log_step (self : Learner Batch) (validate_flag : bool)
    (global_step : Z) (tr_loss logging_loss : F) : M F :=
  (if validate_flag then
     let* results := validate self in
     for_each (dict_items self results) tt (fun _ kv =>
       let '(key, value) := kv in
       emit (TbAddScalar (String.append "eval_" key) value global_step);;
       emit (LoggerInfo (EvalAfterStep key global_step value)))
   else ret tt);;
  let* lr := read_store scheduler_get_lr in
  emit (LoggerInfo (LrAfterStep global_step lr));;
  emit (LoggerInfo (TrainLossAfterStep global_step
          (fdiv (fsub tr_loss logging_loss) (of_int (logging_steps self)))));;
  let* lr := read_store scheduler_get_lr in
  emit (TbAddScalar "lr" lr global_step);;
  emit (TbAddScalar "loss"
          (fdiv (fsub tr_loss logging_loss) (of_int (logging_steps self)))
          global_step);;
  ret tr_loss.

(** Lines 228-246: the optimiser step at an accumulation boundary. *)
Definition apply_gradients (self : Learner Batch) : M unit :=
  emit ClipGradNorm;;
  on_store clip_grad_norm;;
  (if is_fp16 self then with_scaler self [ScalerUnscale] scaler_unscale
   else ret tt);;
  (if is_fp16 self then
     with_scaler self [ScalerStep] scaler_step;;
     with_scaler self [ScalerUpdate] scaler_update
   else
     emit OptimizerStep;;
     on_store optimizer_step);;
  emit SchedulerStep;;
  on_store scheduler_step;;
  emit ZeroGrad;;
  on_store zero_grad.

(** Lines 215-281: the body of the loop over the batches of an epoch. *)
Definition micro_step (self : Learner Batch) (validate_flag : bool)
    (st : Loop) (step_batch : Z * Batch) : M Loop :=
  let '(step, batch) := step_batch in
  let* _ := with_store (mask_tokens batch) in
  let* loss := training_step self batch in
  let tr_loss := fadd (tr_loss st) (item loss) in
  let epoch_loss := fadd (epoch_loss st) (item loss) in
  emit EmptyCache;;
  let* r := lift (py_mod (step + 1) (grad_accumulation_steps self)) in
  if r =? 0 then
    apply_gradients self;;
    let global_step := global_step st + 1 in
    let epoch_step := epoch_step st + 1 in
    let* logging_loss :=
      if (logging_steps self >? 0) && (global_step mod logging_steps self =? 0)
      then log_step self validate_flag global_step tr_loss (logging_loss st)
      else ret (logging_loss st) in
    ret {| global_step := global_step; epoch_step := epoch_step;
           tr_loss := tr_loss; logging_loss := logging_loss;
           epoch_loss := epoch_loss |}
  else
    ret {| global_step := global_step st; epoch_step := epoch_step st;
           tr_loss := tr_loss; logging_loss := logging_loss st;
           epoch_loss := epoch_loss |}.

(** Lines 283-300: what follows the batches of an epoch. *)
Definition epoch_end (self : Learner Batch) (validate_flag : bool)
    (epoch : Z) (st : Loop) : M unit :=
  (if validate_flag then
     let* results := validate self in
     for_each (dict_items self results) tt (fun _ kv =>
       let '(key, value) := kv in
       emit (LoggerInfo (EvalAfterEpoch key (epoch + 1) value)))
   else ret tt);;
  let* lr := read_store scheduler_get_lr in
  emit (LoggerInfo (LrAfterEpoch (epoch + 1) lr));;
  let* avg := lift (py_truediv (epoch_loss st) (epoch_step st)) in
  emit (LoggerInfo (TrainLossAfterEpoch (epoch + 1) avg));;
  emit (LoggerInfo Newline).

(** Lines 211-300: the body of the loop over the epochs. *)
Definition run_epoch (self : Learner Batch) (validate_flag : bool)
    (st : Loop) (epoch : Z) : M Loop :=
  let st := {| global_step := global_step st; epoch_step := 0;
               tr_loss := tr_loss st; logging_loss := logging_loss st;
               epoch_loss := of_int 0 |} in
  let* st := for_each (enumerate (train_dl (data self))) st
               (micro_step self validate_flag) in
  epoch_end self validate_flag epoch st;;
  ret st.

(** Lines 166-174: [t_total], and [self.epochs] when [max_steps] is set. *)
Definition total_steps (self : Learner Batch) (epochs : Z) : M Z :=
  let train_dataloader := train_dl (data self) in
  if max_steps self >? 0 then
    let t_total := max_steps self in
    let* q := lift (py_floordiv (max_steps self) (len train_dataloader)) in
    let* q := lift (py_floordiv q (grad_accumulation_steps self)) in
    set_self_epochs (q + 1);;
    ret t_total
  else
    let* q := lift (py_floordiv (len train_dataloader)
                      (grad_accumulation_steps self)) in
    ret (q * epochs).

Definition fit (self : Learner Batch) (epochs : Z) (lr : F)
    (validate_flag : bool) (schedule_type optimizer_type : string)
    : M (Z * F) :=
  emit TbOpen;;
  let* t_total := total_steps self epochs in
  emit (GetOptimizer lr optimizer_type);;
  on_store (get_optimizer lr optimizer_type);;
  let* w := get_world in
  (if model_wrapped w then set_wrapped false else ret tt);;
  emit (GetScheduler t_total schedule_type);;
  on_store (get_scheduler t_total schedule_type);;
  (if multi_gpu self then set_wrapped true else ret tt);;
  emit (LoggerInfo RunningTraining);;
  emit (LoggerInfo (NumExamples (train_num_examples (data self))));;
  emit (LoggerInfo (NumEpochs epochs));;
  emit (LoggerInfo (TotalTrainBatchSize
          (train_batch_size (data self) * grad_accumulation_steps self)));;
  emit (LoggerInfo (GradientAccumulationSteps (grad_accumulation_steps self)));;
  emit (LoggerInfo (TotalOptimizationSteps t_total));;
  let st := {| global_step := 0; epoch_step := 0; tr_loss := of_int 0;
               logging_loss := of_int 0; epoch_loss := of_int 0 |} in
  emit ZeroGrad;;
  on_store zero_grad;;
  let* st := for_each (range epochs) st (run_epoch self validate_flag) in
  emit TbClose;;
  let* mean_loss := lift (py_truediv (tr_loss st) (global_step st)) in
  ret (global_step st, mean_loss).

(** [learner.max_steps = n], an assignment by the caller between
    construction and [fit]. *)
Definition set_max_steps (self : Learner Batch) (n : Z) : Learner Batch :=
  {| data := data self; metrics := metrics self; multi_gpu := multi_gpu self;
     is_fp16 := is_fp16 self; warmup_steps := warmup_steps self;
     grad_accumulation_steps := grad_accumulation_steps self;
     n_gpu := n_gpu self; logging_steps := logging_steps self;
     max_steps := n; model_type := model_type self; scaler := scaler self;
     neptune_run := neptune_run self |}.

(** ** Construction *)

(** The keyword arguments of [__init__] and [from_pretrained_model] that the
    methods read. *)
Record Options : Type := {
  opt_neptune_run : option NeptuneRun;
  opt_multi_gpu : bool;
  opt_is_fp16 : bool;
  opt_warmup_steps : Z;
  opt_grad_accumulation_steps : Z;
  opt_logging_steps : Z
}.

(** Their defaults in both signatures. *)
Definition default_options : Options :=
  {| opt_neptune_run := None; opt_multi_gpu := true; opt_is_fp16 := true;
     opt_warmup_steps := 0; opt_grad_accumulation_steps := 1;
     opt_logging_steps := 100 |}.

Definition init (data : DataBunch Batch) (metrics : list Metric)
    (o : Options) : Learner Batch :=
  {| data := data;
     metrics := metrics;
     multi_gpu := opt_multi_gpu o;
     is_fp16 := opt_is_fp16 o;
     warmup_steps := opt_warmup_steps o;
     grad_accumulation_steps := opt_grad_accumulation_steps o;
     n_gpu := if opt_multi_gpu o then cuda_device_count else 0;
     logging_steps := opt_logging_steps o;
     max_steps := -1;
     model_type := data_model_type data;
     scaler := if opt_is_fp16 o then Some MkGradScaler else None;
     neptune_run := opt_neptune_run o |}.

Definition with_is_fp16 (o : Options) (b : bool) : Options :=
  {| opt_neptune_run := opt_neptune_run o; opt_multi_gpu := opt_multi_gpu o;
     opt_is_fp16 := b; opt_warmup_steps := opt_warmup_steps o;
     opt_grad_accumulation_steps := opt_grad_accumulation_steps o;
     opt_logging_steps := opt_logging_steps o |}.

(** The result: the learner and the world its model starts in, or the raise,
    and the calls made on the logger. *)
Definition from_pretrained_model (dataBunch : DataBunch Batch)
    (pretrained_path : string) (metrics : list Metric) (o : Options)
    : Outcome (Learner Batch * World Store) * list Event :=
  let '(is_fp16, evs) :=
    if opt_is_fp16 o && negb IS_AMP_AVAILABLE
    then (false, [LoggerDebug "Apex not installed. switching off FP16 training"])
    else (opt_is_fp16 o, []) in
  let model_type := data_model_type dataBunch in
  match MODEL_CLASSES !! model_type with
  | None => (Raises KeyError, evs)
  | Some (config_class, model_class) =>
      match load_pretrained config_class model_class pretrained_path with
      | Raises err => (Raises err, evs)
      | Returns model =>
          (Returns (init dataBunch metrics (with_is_fp16 o is_fp16),
                    {| model_wrapped := false; model_training := false;
                       self_epochs := None; store := model |}),
           evs)
      end
  end.

End LearnerLM.

(** ** Reading a run

    What the statements below say about the outcome of a method and about the
    list of calls it made. *)
Section Reading.

Context {F T Batch Store : Type}.
Context {float_ops : FloatOps F T}.
Context {torch_ops : TorchOps F T Batch Store}.

(** [Q] holds of what [c] does from [w]. *)
Definition sat {A} (c : @M F T Store A) (w : World Store)
    (Q : Outcome A -> World Store -> list (@Event F T) -> Prop) : Prop :=
  match c w with
  | (o, w', evs) => Q o w' evs
  end.

(** An optimiser step is [optimizer.step()], or [scaler.step(optimizer)]
    under mixed precision. *)
Definition is_optimizer_step (ev : @Event F T) : bool :=
  match ev with
  | OptimizerStep | ScalerStep => true
  | _ => false
  end.

Definition is_scheduler_step (ev : @Event F T) : bool :=
  match ev with
  | SchedulerStep => true
  | _ => false
  end.

Fixpoint count_events (p : @Event F T -> bool) (evs : list (@Event F T)) : Z :=
  match evs with
  | [] => 0
  | ev :: evs' => (if p ev then 1 else 0) + count_events p evs'
  end.

Definition optimizer_steps (evs : list (@Event F T)) : Z :=
  count_events is_optimizer_step evs.

Definition scheduler_steps (evs : list (@Event F T)) : Z :=
  count_events is_scheduler_step evs.

(** The totals handed to [get_scheduler], in order. *)
Fixpoint scheduler_totals (evs : list (@Event F T)) : list Z :=
  match evs with
  | [] => []
  | GetScheduler t_total _ :: evs' => t_total :: scheduler_totals evs'
  | _ :: evs' => scheduler_totals evs'
  end.

(** The loss of a validation batch, the sum [validate] accumulates over the
    batches in order, and their mean. *)
Definition batch_eval_loss (s : Store) (batch : Batch) : F :=
  item (tensor_mean (forward_eval false batch batch s)).

Definition eval_loss_sum (s : Store) (batches : list Batch) (start : F) : F :=
  fold_left (fun acc batch => fadd acc (batch_eval_loss s batch)) batches start.

Definition mean_eval_loss (s : Store) (batches : list Batch) : F :=
  fdiv (eval_loss_sum s batches (of_int 0)) (of_int (len batches)).

(** Calls that are neither a step of the optimiser or the scheduler, nor a
    record of a training loss. *)
Definition quiet (ev : @Event F T) : Prop :=
  match ev with
  | OptimizerStep | ScalerStep | SchedulerStep => False
  | NeptuneLogTensor _ _ => False
  | GetScheduler _ _ => False
  | TbAddScalar tag _ _ => tag <> "loss"
  | LoggerInfo (TrainLossAfterStep _ _) => False
  | _ => True
  end.

(** The mapping [validate] builds before merging the metric scores. *)
Definition loss_and_perplexity (l : F) : gmap string F :=
  <["perplexity" := torch_exp l]> (<["loss" := l]> ∅).

(** *** Training losses, read from the calls

    [training_step] records every micro-batch loss on the Neptune run before
    dividing it by the accumulation factor [k]; [fit] adds the divided loss
    to [tr_loss]. *)
Definition batch_loss (k : Z) (ev : @Event F T) : option F :=
  match ev with
  | NeptuneLogTensor channel raw =>
      if String.eqb channel "Fine_tune/fine_tune_batch_loss"
      then Some (item (if k >? 1 then tensor_div raw k else raw))
      else None
  | _ => None
  end.

(** The float sum of the micro-batch losses of [evs], in order, on top of
    [start]. *)
Definition cumulative_loss_from (k : Z) (start : F) (evs : list (@Event F T)) : F :=
  fold_left (fun acc ev =>
               match batch_loss k ev with
               | Some x => fadd acc x
               | None => acc
               end) evs start.

Definition cumulative_loss (k : Z) (evs : list (@Event F T)) : F :=
  cumulative_loss_from k (of_int 0) evs.

(** The calls up to and including optimiser step number [g] (none for
    [g <= 0]). *)
Fixpoint upto_step (evs : list (@Event F T)) (g : Z) : list (@Event F T) :=
  match evs with
  | [] => []
  | ev :: evs' =>
      if g <=? 0 then []
      else ev :: upto_step evs' (if is_optimizer_step ev then g - 1 else g)
  end.

(** The cumulative training loss at global step [g]: the sum of the losses
    of the micro-batches run when step [g] is taken. *)
Definition cumulative_loss_at (k : Z) (evs : list (@Event F T)) (g : Z) : F :=
  cumulative_loss k (upto_step evs g).

(** The training loss a call logs, with its global step: the tensorboard
    scalar "loss" and the logger's "train_loss after step". *)
Definition logged_train_loss (ev : @Event F T) : option (Z * F) :=
  match ev with
  | TbAddScalar tag v g => if String.eqb tag "loss" then Some (g, v) else None
  | LoggerInfo (TrainLossAfterStep g v) => Some (g, v)
  | _ => None
  end.

(** Every training loss logged in [evs] is the windowed average over the
    last [L] steps. *)
Definition windowed_logs (k L : Z) (evs : list (@Event F T)) : Prop :=
  forall ev g v, ev ∈ evs -> logged_train_loss ev = Some (g, v) ->
    0 < L /\ g mod L = 0 /\ 0 < g <= optimizer_steps evs /\
    v = fdiv (fsub (cumulative_loss_at k evs g) (cumulative_loss_at k evs (g - L)))
             (of_int L).

(** *** What lets a run go through

    Nothing that the methods subscript or call is [None] or unbound, the
    accumulation factor is not zero, and validation, if asked for, has
    batches. *)
Definition healthy (amp : bool) (self : Learner Batch) (validate_flag : bool)
    : Prop :=
  neptune_run self <> None /\
  (is_fp16 self = true -> amp = true /\ scaler self <> None) /\
  grad_accumulation_steps self <> 0 /\
  (validate_flag = true -> val_dl (data self) <> []).

(** The calls of [apply_gradients]. *)
Definition gradient_events (self : Learner Batch) : list (@Event F T) :=
  ClipGradNorm ::
  (if is_fp16 self then [ScalerUnscale; ScalerStep; ScalerUpdate]
   else [OptimizerStep]) ++ [SchedulerStep; ZeroGrad].

(** What holds between the iterations of [fit], of the calls made so far and
    the loop variables. *)
Definition loop_inv (self : Learner Batch) (evs : list (@Event F T))
    (st : @Loop F) : Prop :=
  let k := grad_accumulation_steps self in
  let L := logging_steps self in
  global_step st = optimizer_steps evs /\
  scheduler_steps evs = optimizer_steps evs /\
  tr_loss st = cumulative_loss k evs /\
  (0 < L -> logging_loss st = cumulative_loss_at k evs (global_step st / L * L)) /\
  windowed_logs k L evs.

(** What one returning iteration of the batch loop does: [m] are its calls,
    [st] and [st'] the loop variables before and after. *)
Definition micro_post (self : Learner Batch) (step : Z) (st st' : @Loop F)
    (m : list (@Event F T)) : Prop :=
  let k := grad_accumulation_steps self in
  let L := logging_steps self in
  let boundary := (step + 1) mod k =? 0 in
  let b := if boundary then 1 else 0 in
  let logs := boundary && (L >? 0) && ((global_step st + 1) mod L =? 0) in
  exists x,
    tr_loss st' = fadd (tr_loss st) x /\
    epoch_loss st' = fadd (epoch_loss st) x /\
    (forall acc, cumulative_loss_from k acc m = fadd acc x) /\
    (boundary = true ->
       forall acc, cumulative_loss_from k acc (upto_step m 1) = fadd acc x) /\
    global_step st' = global_step st + b /\
    epoch_step st' = epoch_step st + b /\
    optimizer_steps m = b /\
    scheduler_steps m = b /\
    scheduler_totals m = [] /\
    (if logs then
       logging_loss st' = tr_loss st' /\
       forall ev g v, ev ∈ m -> logged_train_loss ev = Some (g, v) ->
         g = global_step st' /\
         v = fdiv (fsub (tr_loss st') (logging_loss st)) (of_int L)
     else
       logging_loss st' = logging_loss st /\
       forall ev, ev ∈ m -> logged_train_loss ev = None).

(** The calls of [fit] before its first epoch. *)
Definition prologue_events (self : Learner Batch) (epochs : Z) (lr : F)
    (schedule_type optimizer_type : string) (t_total : Z) : list (@Event F T) :=
  [TbOpen; GetOptimizer lr optimizer_type; GetScheduler t_total schedule_type;
   LoggerInfo RunningTraining;
   LoggerInfo (NumExamples (train_num_examples (data self)));
   LoggerInfo (NumEpochs epochs);
   LoggerInfo (TotalTrainBatchSize
                 (train_batch_size (data self) * grad_accumulation_steps self));
   LoggerInfo (GradientAccumulationSteps (grad_accumulation_steps self));
   LoggerInfo (TotalOptimizationSteps t_total);
   ZeroGrad].

(** [fit] returns [epochs * (n // k)] after that many optimiser steps and
    scheduler steps, the total it handed to the scheduler factory; and an
    iteration over one of the last [n mod k] batches of an epoch takes no
    optimiser step. *)
Definition fit_steps_claim (amp : bool) (self : Learner Batch) (epochs : Z)
    (lr : F) (validate_flag : bool) (schedule_type optimizer_type : string)
    (w : World Store) : Prop :=
  let k := grad_accumulation_steps self in
  let n := len (train_dl (data self)) in
  let total := epochs * (n / k) in
  (exists mean_loss w' evs,
     fit amp self epochs lr validate_flag schedule_type optimizer_type w
     = (Returns (total, mean_loss), w', evs) /\
     optimizer_steps evs = total /\
     scheduler_steps evs = total /\
     scheduler_totals evs = [total]) /\
  (forall st step batch w1,
     k * (n / k) <= step < n ->
     optimizer_steps (micro_step amp self validate_flag st (step, batch) w1).2 = 0).

(** *** Mixed precision asked for on a runtime without AMP

    [fallback_claim]: the learner is built with [is_fp16] false and its
    training steps do not raise, whether it is constructed by [__init__] or
    by [from_pretrained_model]. *)
Definition trains_without_raising (amp : bool) (self : Learner Batch) : Prop :=
  forall batch (w : World Store),
    exists loss w' e, training_step amp self batch w = (Returns loss, w', e).

Definition fallback_claim (cuda_device_count : Z) (d : DataBunch Batch)
    (pretrained_path : string) (ms : list Metric) (o : Options) : Prop :=
  opt_is_fp16 o = true ->
  (is_fp16 (init cuda_device_count d ms o) = false /\
   trains_without_raising false (init cuda_device_count d ms o)) /\
  (exists self w0 evs,
     from_pretrained_model false cuda_device_count d pretrained_path ms o
     = (Returns (self, w0), evs) /\
     is_fp16 self = false /\ trains_without_raising false self).

(** *** The shape of a run of [fit] *)

(** The loop variables at the first epoch. *)
Definition loop_start : @Loop F :=
  {| global_step := 0; epoch_step := 0; tr_loss := of_int 0;
     logging_loss := of_int 0; epoch_loss := of_int 0 |}.

(** The world at the first epoch: optimiser and scheduler built, the model
    unwrapped and wrapped again if [multi_gpu], its gradients zeroed. *)
Definition after_prologue (self : Learner Batch) (lr : F)
    (schedule_type optimizer_type : string) (t_total : Z) (w : World Store)
    : World Store :=
  {| model_wrapped := multi_gpu self;
     model_training := model_training w;
     self_epochs := self_epochs w;
     store := zero_grad (get_scheduler t_total schedule_type
                           (get_optimizer lr optimizer_type (store w))) |}.

(** The training losses logged on tensorboard. *)
Definition is_loss_scalar (ev : @Event F T) : bool :=
  match ev with
  | TbAddScalar tag _ _ => String.eqb tag "loss"
  | _ => false
  end.

Definition loss_scalars (evs : list (@Event F T)) : Z :=
  count_events is_loss_scalar evs.

(** What of the world only [fit]'s prologue changes: the wrapping of the
    model and [self.epochs]. *)
Definition same_frame (w w' : World Store) : Prop :=
  model_wrapped w' = model_wrapped w /\ self_epochs w' = self_epochs w.

(** The exception [training_step] raises when it raises: the unbound
    [autocast] comes first, then the absent Neptune run, then the absent
    scaler. *)
Definition training_step_error (amp : bool) (self : Learner Batch) : exn :=
  if is_fp16 self && negb amp then NameError
  else match neptune_run self with
       | None => TypeError
       | Some _ => AttributeError
       end.

(** [t_total], the total [fit] hands to the scheduler factory. *)
Definition scheduler_total (self : Learner Batch) (epochs : Z) : Z :=
  if max_steps self >? 0 then max_steps self
  else len (train_dl (data self)) / grad_accumulation_steps self * epochs.

(** [self.epochs] once [fit] has computed its total: set when [max_steps]
    is, as it was otherwise. *)
Definition epochs_after (self : Learner Batch) (w : World Store) : option Z :=
  if max_steps self >? 0
  then Some (max_steps self / len (train_dl (data self))
             / grad_accumulation_steps self + 1)
  else self_epochs w.

End Reading.

Arguments gradient_events {F T Batch} self : simpl never.

(** ** A concrete instance

    Losses are real numbers with the real exponential; a batch is an integer
    and its loss is that integer, whatever the weights; the store counts the
    optimiser steps taken. *)
Module Example.

#[export] Instance real_ops : FloatOps R R := {|
  of_int := IZR;
  fadd := Rplus;
  fsub := Rminus;
  fdiv := Rdiv;
  torch_exp := exp;
  item := fun t => t;
  tensor_mean := fun t => t;
  tensor_div := fun t n => Rdiv t (IZR n)
|}.

#[export] Instance counting_torch : TorchOps R R Z Z := {|
  mask_tokens := fun batch s => ((batch, batch), s);
  forward_train := fun _ inputs _ s => (IZR inputs, s);
  forward_eval := fun _ inputs _ _ => IZR inputs;
  backward := fun _ _ s => s;
  clip_grad_norm := fun s => s;
  scaler_unscale := fun s => s;
  scaler_step := fun s => s + 1;
  scaler_update := fun s => s;
  optimizer_step := fun s => s + 1;
  scheduler_step := fun s => s;
  zero_grad := fun s => s;
  scheduler_get_lr := fun _ => IZR 0;
  get_optimizer := fun _ _ s => s;
  get_scheduler := fun _ _ s => s;
  load_pretrained := fun _ _ path =>
    if String.eqb path "missing" then Raises OSError else Returns 0
|}.

Definition bunch (train val : list Z) : DataBunch Z :=
  {| train_dl := train; val_dl := val;
     train_num_examples := len train; val_num_examples := len val;
     train_batch_size := 1; val_batch_size := 1;
     data_model_type := "bert" |}.

(** Full precision on one device, with a Neptune run. *)
Definition options (k logging : Z) : Options :=
  {| opt_neptune_run := Some MkNeptuneRun; opt_multi_gpu := false;
     opt_is_fp16 := false; opt_warmup_steps := 0;
     opt_grad_accumulation_steps := k; opt_logging_steps := logging |}.

(** The defaults of the signatures, with a Neptune run. *)
Definition options_with_run : Options :=
  {| opt_neptune_run := Some MkNeptuneRun; opt_multi_gpu := true;
     opt_is_fp16 := true; opt_warmup_steps := 0;
     opt_grad_accumulation_steps := 1; opt_logging_steps := 100 |}.

Definition learner (train val : list Z) (metrics : list Metric)
    (k logging : Z) : Learner Z :=
  init 1 (bunch train val) metrics (options k logging).

Definition world0 : World Z :=
  {| model_wrapped := false; model_training := false;
     self_epochs := None; store := 0 |}.

End Example.

(** * Properties *)

Section Properties.

Context {F T Batch Store : Type}.
Context {float_ops : FloatOps F T}.
Context {torch_ops : TorchOps F T Batch Store}.
Variable IS_AMP_AVAILABLE : bool.

Implicit Types (w : World Store) (self : Learner Batch).
Implicit Types (evs : list (@Event F T)).

(** ** Running a body *)

Lemma sat_run {A} (c : @M F T Store A) w Q o w' evs :
  sat c w Q -> c w = (o, w', evs) -> Q o w' evs.
Proof. unfold sat. intros Hs Hc. now rewrite Hc in Hs. Qed.

Lemma sat_mono {A} (c : @M F T Store A) w (Q Q' : _ -> _ -> _ -> Prop) :
  sat c w Q -> (forall o w' evs, Q o w' evs -> Q' o w' evs) -> sat c w Q'.
Proof. unfold sat. destruct (c w) as [[o w'] evs]. auto. Qed.

Lemma sat_bind {A B} (c : @M F T Store A) (k : A -> @M F T Store B) w Q :
  sat c w (fun o w1 e1 =>
    match o with
    | Returns a => sat (k a) w1 (fun o2 w2 e2 => Q o2 w2 (e1 ++ e2))
    | Raises x => Q (Raises x) w1 e1
    end) ->
  sat (bind c k) w Q.
Proof.
  unfold sat, bind. destruct (c w) as [[[a|x] w1] e1]; [|auto].
  destruct (k a w1) as [[o2 w2] e2]. auto.
Qed.

(** A loop keeps [P], stated over the items left, the loop state, the world
    and the calls made since the loop began; a raise ends it in [E]. *)
Lemma sat_for_each_from {A S} (body : S -> A -> @M F T Store S)
    (P : list A -> S -> World Store -> list (@Event F T) -> Prop)
    (E : exn -> World Store -> list (@Event F T) -> Prop) :
  (forall x xs acc w pre, P (x :: xs) acc w pre ->
     sat (body acc x) w (fun o w' e =>
       match o with
       | Returns acc' => P xs acc' w' (pre ++ e)
       | Raises err => E err w' (pre ++ e)
       end)) ->
  forall xs acc w pre, P xs acc w pre ->
    sat (for_each xs acc body) w (fun o w' e =>
      match o with
      | Returns acc' => P [] acc' w' (pre ++ e)
      | Raises err => E err w' (pre ++ e)
      end).
Proof.
  intros Hbody. induction xs as [|x xs IH]; intros acc w pre HP.
  - unfold sat. cbn. now rewrite app_nil_r.
  - cbn [for_each]. apply sat_bind.
    eapply sat_mono; [apply (Hbody _ _ _ _ _ HP)|].
    intros [acc'|err] w' e H; cbn in *.
    + eapply sat_mono; [apply (IH _ _ _ H)|].
      intros [acc''|err] w'' e' H'; now rewrite app_assoc.
    + exact H.
Qed.

Lemma sat_for_each {A S} (body : S -> A -> @M F T Store S)
    (P : list A -> S -> World Store -> list (@Event F T) -> Prop)
    (E : exn -> World Store -> list (@Event F T) -> Prop) xs acc w :
  P xs acc w [] ->
  (forall x xs acc w pre, P (x :: xs) acc w pre ->
     sat (body acc x) w (fun o w' e =>
       match o with
       | Returns acc' => P xs acc' w' (pre ++ e)
       | Raises err => E err w' (pre ++ e)
       end)) ->
  sat (for_each xs acc body) w (fun o w' e =>
    match o with
    | Returns acc' => P [] acc' w' e
    | Raises err => E err w' e
    end).
Proof.
  intros HP Hbody.
  exact (sat_for_each_from body P E Hbody xs acc w [] HP).
Qed.

(** ** [validate] *)

Ltac unfold_monad :=
  unfold sat, call_model, neptune, with_scaler, enter_autocast, set_training,
    set_wrapped, set_self_epochs, on_store, read_store, with_store, bind, ret,
    raise, lift, emit, get_world, put_world in *.

Lemma validation_scores_fold_in (ms : list Metric) (m0 : gmap string F) key :
  (exists m, m ∈ ms /\ name m = key) ->
  foldl (fun scores metric => <[name metric := of_int 0]> scores) m0 ms !! key
  = Some (of_int 0).
Proof.
  induction ms as [|m ms IH] using rev_ind; intros [m' [Hin Hname]].
  - inversion Hin.
  - rewrite foldl_app. cbn [foldl].
    destruct (decide (name m = key)) as [<-|Hne]; [apply lookup_insert_eq|].
    rewrite lookup_insert_ne by exact Hne. apply IH.
    apply elem_of_app in Hin as [Hin|Hin]; [eauto|].
    apply list_elem_of_singleton in Hin. subst m'. contradiction.
Qed.

Lemma validation_scores_fold_out (ms : list Metric) (m0 : gmap string F) key :
  (forall m, m ∈ ms -> name m <> key) ->
  foldl (fun scores metric => <[name metric := of_int 0]> scores) m0 ms !! key
  = m0 !! key.
Proof.
  revert m0. induction ms as [|m ms IH]; intros m0 Hout; [reflexivity|].
  cbn [foldl]. rewrite IH.
  - apply lookup_insert_ne. apply Hout. left.
  - intros m' Hin. apply Hout. now right.
Qed.

Lemma validation_scores_in self key :
  (exists m, m ∈ metrics self /\ name m = key) ->
  validation_scores self !! key = Some (of_int 0).
Proof. apply validation_scores_fold_in. Qed.

Lemma validation_scores_out self key :
  (forall m, m ∈ metrics self -> name m <> key) ->
  validation_scores self !! key = None.
Proof.
  intros Hout. unfold validation_scores.
  rewrite validation_scores_fold_out by exact Hout. apply lookup_empty.
Qed.

(** The loop over the validation batches: it always returns, leaves the
    store alone, and accumulates [eval_loss_sum]. *)
Lemma validate_loop_spec (batches : list Batch) (acc : F * Z) w :
  sat (for_each batches acc validate_batch) w (fun o w' evs =>
    o = Returns (eval_loss_sum (store w) batches acc.1, acc.2 + len batches) /\
    store w' = store w /\ model_wrapped w' = model_wrapped w /\
    self_epochs w' = self_epochs w /\ Forall quiet evs).
Proof.
  revert acc w. induction batches as [|batch batches IH]; intros [eval_loss nb] w.
  - unfold_monad. cbn. rewrite Z.add_0_r. repeat split. constructor.
  - cbn [for_each]. apply sat_bind. unfold validate_batch at 1.
    unfold_monad. cbn.
    specialize (IH (fadd eval_loss (batch_eval_loss (store w) batch), nb + 1)
      {| model_wrapped := model_wrapped w; model_training := false;
         self_epochs := self_epochs w; store := store w |}).
    unfold sat in IH. cbn in IH.
    destruct (for_each batches _ validate_batch _) as [[o w'] evs].
    destruct IH as (-> & Hs & Hw & He & Hq). cbn.
    repeat split; try assumption.
    + f_equal. f_equal. unfold len. cbn [length]. lia.
    + constructor; [exact I|exact Hq].
Qed.

(** What [validate] does, in full: it raises on an empty validation set and
    on an absent Neptune run, and otherwise returns the scores merged over
    loss and perplexity; the store is never changed. *)
Lemma validate_spec self w :
  sat (validate self) w (fun o w' evs =>
    store w' = store w /\ model_wrapped w' = model_wrapped w /\
    self_epochs w' = self_epochs w /\ Forall quiet evs /\
    o = match val_dl (data self), neptune_run self with
        | [], _ => Raises ZeroDivisionError
        | _ :: _, None => Raises TypeError
        | _ :: _, Some _ =>
            Returns (validation_scores self ∪
                     loss_and_perplexity
                       (mean_eval_loss (store w) (val_dl (data self))))
        end).
Proof.
  unfold validate.
  pose proof (validate_loop_spec (val_dl (data self)) (of_int 0, 0) w) as Hloop.
  unfold mean_eval_loss.
  destruct (val_dl (data self)) as [|batch batches] eqn:Hval.
  - unfold_monad. cbn. repeat split. repeat constructor.
  - unfold sat in Hloop. unfold_monad. cbn -[for_each len].
    destruct (for_each (batch :: batches) _ validate_batch w) as [[o w'] evs].
    destruct Hloop as (-> & Hs & Hw & He & Hq). cbn -[len eval_loss_sum].
    unfold py_truediv.
    assert (Hlen : (0 + len (batch :: batches) =? 0) = false).
    { apply Z.eqb_neq. unfold len. cbn [length]. lia. }
    rewrite Hlen. rewrite Z.add_0_l.
    destruct (neptune_run self); cbn -[len eval_loss_sum];
      repeat split; try assumption;
      repeat (apply Forall_cons; split; [exact I|]);
      apply Forall_app; split; try assumption; repeat constructor.
Qed.

Lemma validate_returns self w :
  neptune_run self <> None -> val_dl (data self) <> [] ->
  exists w' evs,
    validate self w
    = (Returns (validation_scores self ∪
                loss_and_perplexity
                  (mean_eval_loss (store w) (val_dl (data self)))), w', evs) /\
    store w' = store w /\ model_wrapped w' = model_wrapped w /\
    self_epochs w' = self_epochs w /\ Forall quiet evs.
Proof.
  intros Hsink Hval. pose proof (validate_spec self w) as Hspec.
  unfold sat in Hspec. destruct (validate self w) as [[o w'] evs].
  destruct Hspec as (Hs & Hw & He & Hq & Ho).
  destruct (val_dl (data self)) as [|batch batches]; [contradiction|].
  destruct (neptune_run self); [|contradiction].
  exists w', evs. subst o. auto.
Qed.

Lemma validate_raises self w :
  neptune_run self = None \/ val_dl (data self) = [] ->
  exists e, (validate self w).1.1 = Raises e.
Proof.
  intros Hcase. pose proof (validate_spec self w) as Hspec.
  unfold sat in Hspec. destruct (validate self w) as [[o w'] evs].
  destruct Hspec as (_ & _ & _ & _ & ->). cbn [fst snd].
  destruct (val_dl (data self)) as [|batch batches]; [eauto|].
  destruct Hcase as [->|Hnil]; [eauto|discriminate].
Qed.

(** C5: a second [validate] right after a first has the same outcome, the
    same mapping (loss, perplexity and scores) or the same raise, whatever
    the learner and the world; the store is the same after both. *)
Theorem validate_idempotent self w :
  (validate self (validate self w).1.2).1.1 = (validate self w).1.1 /\
  store (validate self (validate self w).1.2).1.2 = store w.
Proof.
  pose proof (validate_spec self w) as H1. unfold sat in H1.
  destruct (validate self w) as [[o1 w1] e1]. cbn [fst snd].
  destruct H1 as (Hs1 & _ & _ & _ & ->).
  pose proof (validate_spec self w1) as H2. unfold sat in H2.
  destruct (validate self w1) as [[o2 w2] e2]. cbn [fst snd].
  destruct H2 as (Hs2 & _ & _ & _ & ->).
  rewrite Hs1. split; [reflexivity|congruence].
Qed.

(** C10: when [validate] returns (a Neptune run, a non-empty validation
    set), the mapping has an entry for every configured metric name and each
    is 0.0, also when the name is "loss" or "perplexity"; every other key is
    as in the loss-and-perplexity mapping. *)
Theorem validate_metric_scores_zero self w :
  neptune_run self <> None -> val_dl (data self) <> [] ->
  exists results w' evs,
    validate self w = (Returns results, w', evs) /\
    (forall m, m ∈ metrics self -> results !! name m = Some (of_int 0)) /\
    (forall key, (forall m, m ∈ metrics self -> name m <> key) ->
       results !! key
       = loss_and_perplexity
           (mean_eval_loss (store w) (val_dl (data self))) !! key).
Proof.
  intros Hsink Hval.
  destruct (validate_returns self w Hsink Hval) as (w' & evs & Hrun & _).
  eexists _, w', evs. split; [exact Hrun|]. split.
  - intros m Hm. apply lookup_union_Some_l.
    apply validation_scores_in. eauto.
  - intros key Hkey. apply lookup_union_r. now apply validation_scores_out.
Qed.

(** ** [training_step] *)

(** [training_step] raises or returns the loss scaled by the accumulation
    factor after making exactly one call, the record of the unscaled loss on
    the Neptune run. *)
Lemma training_step_spec self batch w :
  sat (training_step IS_AMP_AVAILABLE self batch) w (fun o w' evs =>
    match o with
    | Returns loss =>
        neptune_run self <> None /\
        (is_fp16 self = true -> IS_AMP_AVAILABLE = true /\ scaler self <> None) /\
        exists raw,
          evs = [NeptuneLogTensor "Fine_tune/fine_tune_batch_loss" raw] /\
          loss = (if grad_accumulation_steps self >? 1
                  then tensor_div raw (grad_accumulation_steps self) else raw)
    | Raises e =>
        (neptune_run self = None \/
         (is_fp16 self = true /\ (IS_AMP_AVAILABLE = false \/ scaler self = None))) /\
        (evs = [] \/ exists raw,
           evs = [NeptuneLogTensor "Fine_tune/fine_tune_batch_loss" raw])
    end).
Proof.
  unfold training_step. unfold_monad. cbn.
  destruct (mask_tokens batch (store w)) as [[inputs labels] s1]. cbn.
  destruct (is_fp16 self) eqn:Hfp, IS_AMP_AVAILABLE eqn:Hamp,
    (neptune_run self) eqn:Hsink, (scaler self) eqn:Hscaler; cbn;
    repeat match goal with
      | |- context [forward_train ?a ?i ?l ?s] =>
          destruct (forward_train a i l s) as [outputs s2]; cbn
      end;
    repeat split; try discriminate; eauto;
    solve [ left; reflexivity | right; split; eauto ].
Qed.

Lemma training_step_returns self batch w :
  neptune_run self <> None ->
  (is_fp16 self = true -> IS_AMP_AVAILABLE = true /\ scaler self <> None) ->
  exists raw w',
    training_step IS_AMP_AVAILABLE self batch w
    = (Returns (if grad_accumulation_steps self >? 1
                then tensor_div raw (grad_accumulation_steps self) else raw),
       w', [NeptuneLogTensor "Fine_tune/fine_tune_batch_loss" raw]).
Proof.
  intros Hsink Hprec. pose proof (training_step_spec self batch w) as Hspec.
  unfold sat in Hspec.
  destruct (training_step IS_AMP_AVAILABLE self batch w) as [[[loss|e] w'] evs].
  - destruct Hspec as (_ & _ & raw & -> & ->). eauto.
  - destruct Hspec as ([Hnone|[Hfp [Hamp|Hnone]]] & _); try contradiction.
    + destruct (Hprec Hfp) as [Hamp' _]. congruence.
    + destruct (Hprec Hfp) as [_ Hsc]. contradiction.
Qed.

(** ** Counting and summing over the calls *)

Lemma count_events_app (p : @Event F T -> bool) evs1 evs2 :
  count_events p (evs1 ++ evs2) = count_events p evs1 + count_events p evs2.
Proof. induction evs1 as [|ev evs1 IH]; cbn; [reflexivity|]. rewrite IH. lia. Qed.

Lemma count_events_nonneg (p : @Event F T -> bool) evs : 0 <= count_events p evs.
Proof. induction evs as [|ev evs IH]; cbn; [lia|]. destruct (p ev); lia. Qed.

Lemma optimizer_steps_app evs1 evs2 :
  optimizer_steps (evs1 ++ evs2) = optimizer_steps evs1 + optimizer_steps evs2.
Proof. apply count_events_app. Qed.

Lemma scheduler_steps_app evs1 evs2 :
  scheduler_steps (evs1 ++ evs2) = scheduler_steps evs1 + scheduler_steps evs2.
Proof. apply count_events_app. Qed.

Lemma optimizer_steps_nonneg evs : 0 <= optimizer_steps evs.
Proof. apply count_events_nonneg. Qed.

Lemma scheduler_totals_app evs1 evs2 :
  scheduler_totals (evs1 ++ evs2) = scheduler_totals evs1 ++ scheduler_totals evs2.
Proof.
  induction evs1 as [|ev evs1 IH]; cbn; [reflexivity|].
  destruct ev; cbn; now rewrite ?IH.
Qed.

Lemma cumulative_loss_from_app k acc evs1 evs2 :
  cumulative_loss_from k acc (evs1 ++ evs2)
  = cumulative_loss_from k (cumulative_loss_from k acc evs1) evs2.
Proof. apply fold_left_app. Qed.

Lemma upto_step_nonpos evs g : g <= 0 -> upto_step evs g = [].
Proof.
  intros Hg. destruct evs as [|ev evs]; cbn; [reflexivity|].
  now rewrite (proj2 (Z.leb_le g 0) Hg).
Qed.

Lemma upto_step_app_le evs1 evs2 g :
  g <= optimizer_steps evs1 -> upto_step (evs1 ++ evs2) g = upto_step evs1 g.
Proof.
  revert g. induction evs1 as [|ev evs1 IH]; intros g Hg.
  - cbn in Hg. cbn [app]. rewrite !upto_step_nonpos by exact Hg. reflexivity.
  - cbn [app upto_step]. destruct (g <=? 0) eqn:Hpos; [reflexivity|].
    f_equal. apply IH. apply Z.leb_gt in Hpos.
    unfold optimizer_steps in *. cbn [count_events] in Hg.
    destruct (is_optimizer_step ev); lia.
Qed.

Lemma upto_step_app_gt evs1 evs2 g :
  optimizer_steps evs1 < g ->
  upto_step (evs1 ++ evs2) g = evs1 ++ upto_step evs2 (g - optimizer_steps evs1).
Proof.
  revert g. induction evs1 as [|ev evs1 IH]; intros g Hg.
  - cbn. f_equal. lia.
  - cbn [app upto_step]. unfold optimizer_steps in *. cbn [count_events] in *.
    pose proof (count_events_nonneg is_optimizer_step evs1) as Hnn.
    assert (Hpos : (g <=? 0) = false) by (apply Z.leb_gt; destruct (is_optimizer_step ev); lia).
    rewrite Hpos. f_equal.
    destruct (is_optimizer_step ev); rewrite IH by lia; do 2 f_equal; lia.
Qed.

Lemma quiet_event k (ev : @Event F T) :
  quiet ev ->
  is_optimizer_step ev = false /\ is_scheduler_step ev = false /\
  batch_loss k ev = None /\ logged_train_loss ev = None /\
  scheduler_totals [ev] = [].
Proof.
  destruct ev as [msg| | |tag v g| | | | | | | | | | | | | |]; cbn;
    try tauto; try (intros _; repeat split; reflexivity).
  - destruct msg; cbn; tauto.
  - intros Htag. repeat split.
    destruct (String.eqb tag "loss") eqn:Heq; [|reflexivity].
    apply String.eqb_eq in Heq. contradiction.
Qed.

Lemma quiet_optimizer_steps evs : Forall quiet evs -> optimizer_steps evs = 0.
Proof.
  induction 1 as [|ev evs Hev _ IH]; [reflexivity|].
  unfold optimizer_steps in *. cbn.
  destruct (quiet_event 0 ev Hev) as (-> & _). lia.
Qed.

Lemma quiet_scheduler_steps evs : Forall quiet evs -> scheduler_steps evs = 0.
Proof.
  induction 1 as [|ev evs Hev _ IH]; [reflexivity|].
  unfold scheduler_steps in *. cbn.
  destruct (quiet_event 0 ev Hev) as (_ & -> & _). lia.
Qed.

Lemma quiet_scheduler_totals evs : Forall quiet evs -> scheduler_totals evs = [].
Proof.
  induction 1 as [|ev evs Hev _ IH]; [reflexivity|].
  change (ev :: evs) with ([ev] ++ evs). rewrite scheduler_totals_app, IH.
  destruct (quiet_event 0 ev Hev) as (_ & _ & _ & _ & ->). reflexivity.
Qed.

Lemma quiet_cumulative_loss k evs acc :
  Forall quiet evs -> cumulative_loss_from k acc evs = acc.
Proof.
  induction 1 as [|ev evs Hev _ IH]; [reflexivity|].
  unfold cumulative_loss_from in *. cbn.
  destruct (quiet_event k ev Hev) as (_ & _ & -> & _). exact IH.
Qed.

Lemma quiet_not_logged evs ev :
  Forall quiet evs -> ev ∈ evs -> logged_train_loss ev = None.
Proof.
  intros Hq Hin. rewrite Forall_forall in Hq.
  now destruct (quiet_event 0 ev (Hq ev Hin)) as (_ & _ & _ & -> & _).
Qed.

(** ** Integer division along the counters *)

Lemma div_succ (i k : Z) :
  0 < k -> (i + 1) / k = i / k + (if (i + 1) mod k =? 0 then 1 else 0).
Proof.
  intros Hk. destruct ((i + 1) mod k =? 0) eqn:Hmod.
  - apply Z.eqb_eq in Hmod. Z.div_mod_to_equations. nia.
  - apply Z.eqb_neq in Hmod. Z.div_mod_to_equations. nia.
Qed.

Lemma last_multiple_same (g L : Z) :
  0 < L -> (g + 1) mod L <> 0 -> (g + 1) / L * L = g / L * L.
Proof.
  intros HL Hmod. pose proof (div_succ g L HL) as Hdiv.
  destruct ((g + 1) mod L =? 0) eqn:Heq; [apply Z.eqb_eq in Heq; contradiction|].
  rewrite Hdiv. f_equal. lia.
Qed.

Lemma last_multiple_next (g L : Z) :
  0 < L -> (g + 1) mod L = 0 ->
  (g + 1) / L * L = g + 1 /\ g / L * L = g + 1 - L.
Proof.
  intros HL Hmod. pose proof (div_succ g L HL) as Hdiv.
  rewrite Hmod in Hdiv. cbn in Hdiv.
  pose proof (Z.div_mod (g + 1) L ltac:(lia)) as Hdm. rewrite Hmod in Hdm.
  split; lia.
Qed.

(** ** The loop invariant *)

Lemma cumulative_loss_at_stable k pre m g :
  g <= optimizer_steps pre ->
  cumulative_loss_at k (pre ++ m) g = cumulative_loss_at k pre g.
Proof.
  intros Hg. unfold cumulative_loss_at. now rewrite upto_step_app_le.
Qed.

Lemma windowed_logs_app k L pre m :
  windowed_logs k L pre ->
  (forall ev g v, ev ∈ m -> logged_train_loss ev = Some (g, v) ->
     0 < L /\ g mod L = 0 /\ 0 < g <= optimizer_steps (pre ++ m) /\
     v = fdiv (fsub (cumulative_loss_at k (pre ++ m) g)
                    (cumulative_loss_at k (pre ++ m) (g - L))) (of_int L)) ->
  windowed_logs k L (pre ++ m).
Proof.
  intros Hpre Hm ev g v Hin Hlogged.
  apply elem_of_app in Hin as [Hin|Hin]; [|now apply (Hm ev)].
  destruct (Hpre ev g v Hin Hlogged) as (HL & Hmod & Hrange & ->).
  pose proof (optimizer_steps_nonneg m) as Hnn.
  rewrite optimizer_steps_app.
  rewrite !cumulative_loss_at_stable by lia.
  repeat split; try assumption; lia.
Qed.

Lemma windowed_logs_extend k L pre m :
  windowed_logs k L pre ->
  (forall ev, ev ∈ m -> logged_train_loss ev = None) ->
  windowed_logs k L (pre ++ m).
Proof.
  intros Hpre Hm. apply windowed_logs_app; [exact Hpre|].
  intros ev g v Hin Hlogged. rewrite (Hm ev Hin) in Hlogged. discriminate.
Qed.

Lemma loop_inv_quiet self pre st q :
  loop_inv self pre st -> Forall quiet q -> loop_inv self (pre ++ q) st.
Proof.
  intros (Hg & Hs & Htr & Hll & Hlogs) Hq. unfold loop_inv.
  rewrite optimizer_steps_app, scheduler_steps_app.
  rewrite (quiet_optimizer_steps q Hq), (quiet_scheduler_steps q Hq), !Z.add_0_r.
  split; [exact Hg|]. split; [exact Hs|]. split; [|split].
  - unfold cumulative_loss. rewrite cumulative_loss_from_app.
    rewrite quiet_cumulative_loss by exact Hq. exact Htr.
  - intros HL. rewrite cumulative_loss_at_stable; [now apply Hll|].
    pose proof (optimizer_steps_nonneg pre) as Hnn. rewrite Hg.
    rewrite Z.mul_comm. apply Z.mul_div_le. exact HL.
  - apply windowed_logs_extend; [exact Hlogs|].
    intros ev Hin. exact (quiet_not_logged q ev Hq Hin).
Qed.

Lemma loop_inv_micro self pre st st' step m :
  loop_inv self pre st -> micro_post self step st st' m ->
  loop_inv self (pre ++ m) st'.
Proof.
  intros (Hg & Hs & Htr & Hll & Hlogs).
  intros (x & Htr' & _ & Hcum & Hcum1 & Hg' & _ & Hopt & Hsch & _ & Hlog).
  set (k := grad_accumulation_steps self) in *.
  set (L := logging_steps self) in *.
  set (boundary := (step + 1) mod k =? 0) in *.
  pose proof (optimizer_steps_nonneg pre) as Hnn.
  assert (Hsum : cumulative_loss k (pre ++ m) = tr_loss st').
  { unfold cumulative_loss. rewrite cumulative_loss_from_app, Hcum, Htr'.
    now rewrite Htr. }
  assert (Hnow : boundary = true ->
            cumulative_loss_at k (pre ++ m) (global_step st + 1) = tr_loss st').
  { intros Hb. unfold cumulative_loss_at.
    rewrite upto_step_app_gt by lia.
    replace (global_step st + 1 - optimizer_steps pre) with 1 by lia.
    unfold cumulative_loss. rewrite cumulative_loss_from_app, (Hcum1 Hb), Htr'.
    now rewrite Htr. }
  unfold loop_inv. fold k L.
  rewrite optimizer_steps_app, scheduler_steps_app, Hopt, Hsch.
  split; [lia|]. split; [lia|]. split; [now rewrite Hsum|].
  destruct (boundary && (L >? 0) && ((global_step st + 1) mod L =? 0)) eqn:Hlogs_now.
  - apply andb_prop in Hlogs_now as [Hb HmodL].
    apply andb_prop in Hb as [Hb HLpos].
    apply Z.eqb_eq in HmodL. apply Z.gtb_lt in HLpos.
    destruct Hlog as [Hll' Hnew].
    destruct (last_multiple_next (global_step st) L HLpos HmodL) as [Hthis Hprev].
    assert (Hg1 : global_step st' = global_step st + 1) by (rewrite Hg', Hb; lia).
    split.
    + intros _. rewrite Hll', Hg1, Hthis. symmetry. now apply Hnow.
    + apply windowed_logs_app; [exact Hlogs|].
      intros ev g v Hin Hlogged.
      destruct (Hnew ev g v Hin Hlogged) as [-> ->].
      rewrite Hg1, (Hnow Hb).
      rewrite cumulative_loss_at_stable by lia.
      replace (global_step st + 1 - L) with (global_step st / L * L) by lia.
      rewrite <- (Hll HLpos).
      rewrite optimizer_steps_app, Hopt, Hb.
      repeat split; try assumption; lia.
  - destruct Hlog as [Hll' Hnone]. split.
    + intros HL. rewrite Hll', (Hll HL).
      assert (Hsame : global_step st' / L * L = global_step st / L * L).
      { rewrite Hg'. destruct boundary eqn:Hb; [|now rewrite Z.add_0_r].
        apply last_multiple_same; [exact HL|].
        cbn in Hlogs_now. apply andb_false_iff in Hlogs_now as [HLle|HmodL].
        - rewrite Z.gtb_ltb in HLle. apply Z.ltb_ge in HLle. lia.
        - now apply Z.eqb_neq in HmodL. }
      rewrite Hsame. symmetry. apply cumulative_loss_at_stable.
      rewrite Z.mul_comm. etransitivity; [apply Z.mul_div_le; exact HL|lia].
    + now apply windowed_logs_extend.
Qed.

(** ** The pieces of an iteration *)

Local Abbreviation gradient_events' := (@gradient_events F T Batch) (only parsing).

Lemma apply_gradients_spec self w :
  sat (apply_gradients self) w (fun o w' evs =>
    match o with
    | Returns _ =>
        evs = gradient_events' self /\ (is_fp16 self = true -> scaler self <> None)
    | Raises _ =>
        (is_fp16 self = true /\ scaler self = None) /\ evs = [ClipGradNorm]
    end).
Proof.
  unfold apply_gradients, gradient_events. unfold_monad.
  destruct (is_fp16 self), (scaler self); cbn; unfold_monad; cbn;
    repeat split; try discriminate; auto.
Qed.

Lemma gradient_events_measures self :
  optimizer_steps (gradient_events' self) = 1 /\
  scheduler_steps (gradient_events' self) = 1 /\
  scheduler_totals (gradient_events' self) = [] /\
  (forall k acc, cumulative_loss_from k acc (gradient_events' self) = acc) /\
  (forall ev, ev ∈ gradient_events' self -> logged_train_loss ev = None) /\
  (forall k acc rest,
     cumulative_loss_from k acc (upto_step (gradient_events' self ++ rest) 1) = acc).
Proof.
  unfold gradient_events.
  destruct (is_fp16 self); cbn; repeat split; try reflexivity;
    try (intros ev Hin; set_unfold in Hin;
         repeat destruct Hin as [->|Hin]; try reflexivity; contradiction);
    intros k acc rest; rewrite upto_step_nonpos by lia; reflexivity.
Qed.

Lemma eval_tag_not_loss key : String.append "eval_" key <> "loss".
Proof. cbn. discriminate. Qed.

(** The loops over [results.items()] return and make quiet calls only. *)
Lemma log_eval_after_step_spec (items : list (string * F)) g w :
  sat (for_each items tt (fun _ kv =>
         let '(key, value) := kv in
         bind (emit (TbAddScalar (String.append "eval_" key) value g))
           (fun _ => emit (LoggerInfo (EvalAfterStep key g value))))) w
    (fun o w' evs => o = Returns tt /\ w' = w /\ Forall quiet evs).
Proof.
  revert w. induction items as [|[key value] items IH]; intros w.
  - unfold_monad. cbn. auto.
  - cbn [for_each]. apply sat_bind. unfold_monad. cbn.
    specialize (IH w). unfold sat in IH.
    destruct (for_each items tt _ w) as [[o w'] evs].
    destruct IH as (-> & -> & Hq). repeat split.
    repeat constructor; [apply eval_tag_not_loss|exact Hq].
Qed.

Lemma log_eval_after_epoch_spec (items : list (string * F)) epoch w :
  sat (for_each items tt (fun _ kv =>
         let '(key, value) := kv in
         emit (LoggerInfo (EvalAfterEpoch key epoch value)))) w
    (fun o w' evs => o = Returns tt /\ w' = w /\ Forall quiet evs).
Proof.
  revert w. induction items as [|[key value] items IH]; intros w.
  - unfold_monad. cbn. auto.
  - cbn [for_each]. apply sat_bind. unfold_monad. cbn.
    specialize (IH w). unfold sat in IH.
    destruct (for_each items tt _ w) as [[o w'] evs].
    destruct IH as (-> & -> & Hq). repeat split.
    repeat constructor. exact Hq.
Qed.

Lemma log_step_spec self validate_flag g tr ll w :
  sat (log_step self validate_flag g tr ll) w (fun o w' evs =>
    match o with
    | Returns ll' =>
        ll' = tr /\
        (validate_flag = true ->
           val_dl (data self) <> [] /\ neptune_run self <> None) /\
        exists q lr1 lr2,
          Forall quiet q /\
          evs = q ++
            [LoggerInfo (LrAfterStep g lr1);
             LoggerInfo (TrainLossAfterStep g
                           (fdiv (fsub tr ll) (of_int (logging_steps self))));
             TbAddScalar "lr" lr2 g;
             TbAddScalar "loss"
               (fdiv (fsub tr ll) (of_int (logging_steps self))) g]
    | Raises _ =>
        (validate_flag = true /\
         (val_dl (data self) = [] \/ neptune_run self = None)) /\
        Forall quiet evs
    end).
Proof.
  unfold log_step. apply sat_bind. destruct validate_flag.
  - apply sat_bind. eapply sat_mono; [apply validate_spec|].
    intros o w1 e1 (_ & _ & _ & Hq1 & ->).
    destruct (val_dl (data self)) as [|batch batches]; [auto|].
    destruct (neptune_run self); [|auto].
    eapply sat_mono; [apply log_eval_after_step_spec|].
    intros o w2 e2 (-> & -> & Hq2). unfold_monad. cbn.
    split; [reflexivity|]. split; [intros _; split; discriminate|].
    eexists (e1 ++ e2), _, _. split; [now apply Forall_app|reflexivity].
  - unfold_monad. cbn. split; [reflexivity|]. split; [discriminate|].
    eexists [], _, _. split; [constructor|reflexivity].
Qed.

(** ** One iteration of the batch loop *)

Lemma not_logged_cons (ev : @Event F T) evs :
  logged_train_loss ev = None ->
  (forall ev', ev' ∈ evs -> logged_train_loss ev' = None) ->
  forall ev', ev' ∈ ev :: evs -> logged_train_loss ev' = None.
Proof.
  intros Hev Hevs ev' Hin. apply elem_of_cons in Hin as [->|Hin]; auto.
Qed.

Lemma not_logged_app evs1 evs2 :
  (forall ev, ev ∈ evs1 -> logged_train_loss ev = None) ->
  (forall ev, ev ∈ evs2 -> logged_train_loss ev = None) ->
  forall ev, ev ∈ evs1 ++ evs2 -> logged_train_loss ev = None.
Proof.
  intros H1 H2 ev Hin. apply elem_of_app in Hin as [Hin|Hin]; auto.
Qed.

Lemma not_logged_nil (ev : @Event F T) : ev ∈ [] -> logged_train_loss ev = None.
Proof. intros Hin. inversion Hin. Qed.

Lemma logged_forall (P : Z -> F -> Prop) evs :
  Forall (fun ev => forall g v, logged_train_loss ev = Some (g, v) -> P g v) evs ->
  forall ev g v, ev ∈ evs -> logged_train_loss ev = Some (g, v) -> P g v.
Proof.
  intros Hall ev g v Hin. rewrite Forall_forall in Hall. now apply Hall.
Qed.

(** The calls of a returning iteration: the loss record, the cache call,
    then, at a boundary, the gradient calls and possibly the logging
    calls. *)
Lemma micro_post_shape self step st st' raw tail :
  let k := grad_accumulation_steps self in
  let L := logging_steps self in
  let x := item (if k >? 1 then tensor_div raw k else raw) in
  let boundary := (step + 1) mod k =? 0 in
  let b := if boundary then 1 else 0 in
  let logs := boundary && (L >? 0) && ((global_step st + 1) mod L =? 0) in
  tr_loss st' = fadd (tr_loss st) x ->
  epoch_loss st' = fadd (epoch_loss st) x ->
  global_step st' = global_step st + b ->
  epoch_step st' = epoch_step st + b ->
  (if boundary then
     exists lg, tail = gradient_events' self ++ lg /\
       if logs then
         logging_loss st' = tr_loss st' /\
         exists q lr1 lr2, Forall quiet q /\
           lg = q ++
             [LoggerInfo (LrAfterStep (global_step st') lr1);
              LoggerInfo (TrainLossAfterStep (global_step st')
                (fdiv (fsub (tr_loss st') (logging_loss st)) (of_int L)));
              TbAddScalar "lr" lr2 (global_step st');
              TbAddScalar "loss"
                (fdiv (fsub (tr_loss st') (logging_loss st)) (of_int L))
                (global_step st')]
       else lg = [] /\ logging_loss st' = logging_loss st
   else tail = [] /\ logging_loss st' = logging_loss st) ->
  micro_post self step st st'
    (NeptuneLogTensor "Fine_tune/fine_tune_batch_loss" raw :: EmptyCache :: tail).
Proof.
  intros k L x boundary b logs Htr Hep Hg Hes Hshape.
  unfold micro_post. fold k L boundary. fold b. fold logs. exists x.
  destruct (gradient_events_measures self) as (Gopt & Gsch & Gtot & Gcum & Glog & Gupto).
  assert (Hhead : forall acc rest,
    cumulative_loss_from k acc
      (NeptuneLogTensor "Fine_tune/fine_tune_batch_loss" raw :: EmptyCache :: rest)
    = cumulative_loss_from k (fadd acc x) rest) by reflexivity.
  assert (Hupto : forall rest : list (@Event F T), upto_step
      (NeptuneLogTensor "Fine_tune/fine_tune_batch_loss" raw :: EmptyCache :: rest) 1
    = NeptuneLogTensor "Fine_tune/fine_tune_batch_loss" raw :: EmptyCache
        :: upto_step rest 1) by reflexivity.
  split; [exact Htr|]. split; [exact Hep|].
  destruct boundary eqn:Hb.
  - destruct Hshape as (lg & -> & Hlg). cbn [andb] in logs.
    assert (Hlgq : if logs then True else lg = []).
    { destruct logs; [exact I|tauto]. }
    assert (Hquiet_part : exists q rest, lg = q ++ rest /\ Forall quiet q /\
              optimizer_steps rest = 0 /\ scheduler_steps rest = 0 /\
              scheduler_totals rest = [] /\
              (forall acc, cumulative_loss_from k acc rest = acc)).
    { destruct logs.
      - destruct Hlg as (_ & q & lr1 & lr2 & Hq & ->).
        eexists q, _. repeat split; try reflexivity. exact Hq.
      - destruct Hlg as (-> & _). exists [], []. repeat split. constructor. }
    destruct Hquiet_part as (q & rest & Hlg_eq & Hq & Ropt & Rsch & Rtot & Rcum).
    split; [|split].
    + intros acc. rewrite Hhead, Hlg_eq, !cumulative_loss_from_app, Gcum.
      rewrite (quiet_cumulative_loss k q) by exact Hq. apply Rcum.
    + intros _ acc. rewrite Hupto, Hhead. apply Gupto.
    + split; [exact Hg|]. split; [exact Hes|].
      match goal with
      | |- context [?a :: ?c :: gradient_events ?s ++ ?l] =>
          change (a :: c :: gradient_events s ++ l)
            with ([a; c] ++ gradient_events s ++ l)
      end.
      rewrite Hlg_eq.
      rewrite !optimizer_steps_app, !scheduler_steps_app, !scheduler_totals_app.
      rewrite Gopt, Gsch, Gtot, Ropt, Rsch, Rtot.
      rewrite (quiet_optimizer_steps q Hq), (quiet_scheduler_steps q Hq),
        (quiet_scheduler_totals q Hq).
      split; [reflexivity|]. split; [reflexivity|]. split; [reflexivity|].
      rewrite <- Hlg_eq. destruct logs.
      * destruct Hlg as (Hll & q' & lr1 & lr2 & Hq' & ->).
        split; [exact Hll|].
        apply (logged_forall (fun g v => g = global_step st' /\
                 v = fdiv (fsub (tr_loss st') (logging_loss st)) (of_int L))).
        apply Forall_app. split.
        { repeat first [apply Forall_nil_2 | apply Forall_cons_2];
            cbn; intros g v Hlogged; discriminate. }
        apply Forall_app. split.
        { apply Forall_forall. intros ev Hin g v Hlogged.
          rewrite (Glog ev Hin) in Hlogged. discriminate. }
        apply Forall_app. split.
        { apply Forall_forall. intros ev Hin g v Hlogged.
          rewrite (quiet_not_logged q' ev Hq' Hin) in Hlogged. discriminate. }
        repeat first [apply Forall_nil_2 | apply Forall_cons_2];
          cbn; intros g v Hlogged; try discriminate;
          inversion Hlogged; auto.
      * destruct Hlg as (-> & Hll). split; [exact Hll|].
        rewrite app_nil_r. apply not_logged_app; [|exact Glog].
        repeat (apply not_logged_cons; [reflexivity|]). apply not_logged_nil.
  - destruct Hshape as (-> & Hll). cbn [andb] in logs. subst logs.
    split; [intros acc; now rewrite Hhead|]. split; [discriminate|].
    split; [exact Hg|]. split; [exact Hes|].
    repeat (split; [reflexivity|]). split; [exact Hll|].
    repeat (apply not_logged_cons; [reflexivity|]). apply not_logged_nil.
Qed.

Lemma micro_step_spec self validate_flag st step batch w :
  sat (micro_step IS_AMP_AVAILABLE self validate_flag st (step, batch)) w
    (fun o w' m =>
      match o with
      | Returns st' => micro_post self step st st' m
      | Raises _ =>
          ~ healthy IS_AMP_AVAILABLE self validate_flag /\
          (forall ev, ev ∈ m -> logged_train_loss ev = None)
      end).
Proof.
  unfold micro_step. apply sat_bind.
  unfold sat at 1. unfold with_store at 1.
  destruct (mask_tokens batch (store w)) as [[inputs labels] s1]. cbn [app].
  apply sat_bind. eapply sat_mono; [apply training_step_spec|].
  intros [loss|err] w2 e2.
  2:{ intros (Hwhy & Hevs). split.
      - intros (Hsink & Hprec & _). destruct Hwhy as [Hnone|[Hfp Hbad]].
        + contradiction.
        + destruct (Hprec Hfp) as [Hamp Hsc]. destruct Hbad; congruence.
      - destruct Hevs as [->|[raw ->]]; [apply not_logged_nil|].
        apply not_logged_cons; [reflexivity|apply not_logged_nil]. }
  intros (Hsink & Hprec & raw & -> & ->).
  apply sat_bind. unfold sat at 1, emit at 1.
  apply sat_bind. unfold sat at 1, lift at 1, py_mod.
  destruct (grad_accumulation_steps self =? 0) eqn:Hk.
  { apply Z.eqb_eq in Hk. split.
    - intros (_ & _ & Hk' & _). contradiction.
    - cbn [app]. repeat (apply not_logged_cons; [reflexivity|]). apply not_logged_nil. }
  destruct ((step + 1) mod grad_accumulation_steps self =? 0) eqn:Hb.
  - apply sat_bind. eapply sat_mono; [apply apply_gradients_spec|].
    intros [[]|err] w3 e3.
    2:{ intros ((Hfp & Hnone) & ->). split.
        - intros (_ & Hprec' & _). destruct (Hprec' Hfp). contradiction.
        - cbn [app]. repeat (apply not_logged_cons; [reflexivity|]).
          apply not_logged_nil. }
    intros (-> & _). apply sat_bind.
    destruct ((logging_steps self >? 0)
              && ((global_step st + 1) mod logging_steps self =? 0)) eqn:Hlogs.
    + eapply sat_mono; [apply log_step_spec|].
      intros [ll'|err] w4 e4.
      2:{ intros ((Hv & Hbad) & Hq). split.
          - intros (Hsink' & _ & _ & Hval). destruct Hbad; [now apply Hval|contradiction].
          - cbn [app]. do 2 (apply not_logged_cons; [reflexivity|]).
            apply not_logged_app.
            + apply (proj1 (proj2 (proj2 (proj2 (proj2 (gradient_events_measures self)))))).
            + intros ev Hin. exact (quiet_not_logged e4 ev Hq Hin). }
      intros (-> & _ & q & lr1 & lr2 & Hq & ->). unfold_monad. cbn [app].
      rewrite app_nil_r.
      apply micro_post_shape; try reflexivity; cbn [tr_loss epoch_loss global_step epoch_step logging_loss];
        rewrite Hb; try reflexivity.
      eexists. split; [reflexivity|]. cbn [andb]. rewrite Hlogs.
      split; [reflexivity|]. exists q, lr1, lr2. split; [exact Hq|reflexivity].
    + unfold_monad. cbn [app]. rewrite app_nil_r.
      apply micro_post_shape; try reflexivity; cbn [tr_loss epoch_loss global_step epoch_step logging_loss];
        rewrite Hb; try reflexivity.
      exists []. split; [now rewrite app_nil_r|]. cbn [andb]. rewrite Hlogs.
      split; reflexivity.
  - unfold_monad. cbn [app].
    apply micro_post_shape; try reflexivity; cbn [tr_loss epoch_loss global_step epoch_step logging_loss];
      rewrite Hb; try (rewrite ?Z.add_0_r; reflexivity).
    split; reflexivity.
Qed.

Lemma sat_any {A} (c : @M F T Store A) w (Q : _ -> _ -> _ -> Prop) :
  (forall o w' evs, Q o w' evs) -> sat c w Q.
Proof. intros HQ. unfold sat. destruct (c w) as [[o w'] evs]. apply HQ. Qed.

(** An iteration returns only with a Neptune run, and one that raises away
    from an accumulation boundary has taken no optimiser step. *)
Lemma micro_step_sink self validate_flag st step batch w :
  sat (micro_step IS_AMP_AVAILABLE self validate_flag st (step, batch)) w
    (fun o w' m =>
      match o with
      | Returns _ => neptune_run self <> None
      | Raises _ =>
          ((step + 1) mod grad_accumulation_steps self =? 0) = false ->
          optimizer_steps m = 0
      end).
Proof.
  unfold micro_step. apply sat_bind.
  unfold sat at 1. unfold with_store at 1.
  destruct (mask_tokens batch (store w)) as [[inputs labels] s1]. cbn [app].
  apply sat_bind. eapply sat_mono; [apply training_step_spec|].
  intros [loss|err] w2 e2.
  2:{ intros (_ & Hevs) _. destruct Hevs as [->|[raw ->]]; reflexivity. }
  intros (Hsink & _ & raw & -> & ->).
  apply sat_bind. unfold sat at 1, emit at 1.
  apply sat_bind. unfold sat at 1, lift at 1, py_mod.
  destruct (grad_accumulation_steps self =? 0); [intros _; reflexivity|].
  destruct ((step + 1) mod grad_accumulation_steps self =? 0) eqn:Hb.
  - apply sat_any. intros [st'|err] w' evs; [exact Hsink|discriminate].
  - unfold_monad. exact Hsink.
Qed.

Lemma micro_step_returns self validate_flag st step batch w :
  healthy IS_AMP_AVAILABLE self validate_flag ->
  exists st' w' m,
    micro_step IS_AMP_AVAILABLE self validate_flag st (step, batch) w
    = (Returns st', w', m) /\ micro_post self step st st' m.
Proof.
  intros Hh. pose proof (micro_step_spec self validate_flag st step batch w) as Hs.
  unfold sat in Hs.
  destruct (micro_step _ self validate_flag st (step, batch) w) as [[[st'|err] w'] m].
  - eauto.
  - destruct Hs as [Hno _]. contradiction.
Qed.

(** ** The batch loop *)

Lemma enumerate_from_cons {A} i (xs : list A) x rest :
  enumerate_from i xs = x :: rest ->
  exists b xs', xs = b :: xs' /\ x = (i, b) /\ rest = enumerate_from (i + 1) xs'.
Proof.
  destruct xs as [|b xs']; cbn; [discriminate|].
  intros Heq. inversion Heq. eauto.
Qed.

Lemma len_cons {A} (x : A) xs : len (x :: xs) = 1 + len xs.
Proof. unfold len. cbn [length]. lia. Qed.

Lemma len_nonneg {A} (xs : list A) : 0 <= len xs.
Proof. unfold len. lia. Qed.

Lemma batch_loop_spec self validate_flag before st0 i batches w :
  let k := grad_accumulation_steps self in
  let L := logging_steps self in
  sat (for_each (enumerate_from i batches) st0
         (micro_step IS_AMP_AVAILABLE self validate_flag)) w
    (fun o w' e =>
      match o with
      | Returns st' =>
          (loop_inv self before st0 -> loop_inv self (before ++ e) st') /\
          scheduler_totals e = [] /\
          (0 < k ->
             epoch_step st' = epoch_step st0 + ((i + len batches) / k - i / k) /\
             global_step st' = global_step st0 + ((i + len batches) / k - i / k) /\
             optimizer_steps e = (i + len batches) / k - i / k)
      | Raises _ =>
          ~ healthy IS_AMP_AVAILABLE self validate_flag /\
          (loop_inv self before st0 -> windowed_logs k L (before ++ e))
      end).
Proof.
  intros k L.
  eapply sat_mono.
  apply (sat_for_each (micro_step IS_AMP_AVAILABLE self validate_flag)
    (fun rem st w' e =>
       exists j bs, rem = enumerate_from j bs /\
         j + len bs = i + len batches /\
         (loop_inv self before st0 -> loop_inv self (before ++ e) st) /\
         scheduler_totals e = [] /\
         (0 < k -> epoch_step st = epoch_step st0 + (j / k - i / k) /\
                   global_step st = global_step st0 + (j / k - i / k) /\
                   optimizer_steps e = j / k - i / k))
    (fun _ w' e => ~ healthy IS_AMP_AVAILABLE self validate_flag /\
                   (loop_inv self before st0 -> windowed_logs k L (before ++ e)))).
  - exists i, batches. rewrite app_nil_r, Z.sub_diag, !Z.add_0_r.
    split; [reflexivity|]. split; [reflexivity|]. split; [auto|].
    split; [reflexivity|]. intros _. repeat split.
  - intros x rem st w1 pre (j & bs & Hrem & Hlen & Hinv1 & Htot & Hcount).
    symmetry in Hrem. apply enumerate_from_cons in Hrem as (b & bs' & -> & -> & ->).
    eapply sat_mono; [apply micro_step_spec|].
    intros [st'|err] w2 m Hpost.
    + exists (j + 1), bs'. rewrite len_cons in Hlen.
      rewrite app_assoc, scheduler_totals_app, optimizer_steps_app, Htot.
      destruct Hpost as (x & Hpost). pose proof Hpost as Hpost'.
      destruct Hpost' as (_ & _ & _ & _ & Hgs & Hes & Hopt & _ & Htot' & _).
      split; [reflexivity|]. split; [lia|].
      split; [intros Hinv; eapply loop_inv_micro; [exact (Hinv1 Hinv)|exists x; exact Hpost]|].
      split; [now rewrite Htot'|].
      intros Hk. destruct (Hcount Hk) as (Hes0 & Hgs0 & Hopt0).
      fold k in Hes, Hgs, Hopt.
      rewrite Hes, Hgs, Hopt, Hes0, Hgs0, Hopt0, (div_succ j k Hk).
      repeat split; lia.
    + destruct Hpost as [Hno Hnone]. split; [exact Hno|]. intros Hinv.
      rewrite app_assoc. apply windowed_logs_extend; [|exact Hnone].
      now destruct (Hinv1 Hinv) as (_ & _ & _ & _ & Hlogs).
  - intros [st'|err] w' e; [|auto].
    intros (j & bs & Hrem & Hlen & Hinv1 & Htot & Hcount).
    destruct bs as [|b bs]; [|discriminate].
    change (len []) with 0 in Hlen. rewrite Z.add_0_r in Hlen. subst j. auto.
Qed.

(** ** An epoch *)

(** The end of an epoch makes quiet calls only; it returns when the epoch
    took a step, and when nothing else is wrong it raises exactly when the
    epoch took none, dividing by zero. *)
Lemma epoch_end_spec self validate_flag epoch (st : @Loop F) w :
  sat (epoch_end self validate_flag epoch st) w (fun o w' e =>
    Forall quiet e /\
    match o with
    | Returns _ => epoch_step st <> 0
    | Raises err =>
        healthy IS_AMP_AVAILABLE self validate_flag ->
        epoch_step st = 0 /\ err = ZeroDivisionError
    end).
Proof.
  unfold epoch_end. apply sat_bind.
  assert (Htail : forall w1 (q : list (@Event F T)), Forall quiet q ->
    sat (bind (read_store scheduler_get_lr) (fun lr =>
           bind (emit (LoggerInfo (LrAfterEpoch (epoch + 1) lr))) (fun _ =>
           bind (lift (py_truediv (epoch_loss st) (epoch_step st))) (fun avg =>
           bind (emit (LoggerInfo (TrainLossAfterEpoch (epoch + 1) avg))) (fun _ =>
           emit (LoggerInfo Newline)))))) w1
      (fun o2 w2 e2 =>
         Forall quiet (q ++ e2) /\
         match o2 with
         | Returns _ => epoch_step st <> 0
         | Raises err =>
             healthy IS_AMP_AVAILABLE self validate_flag ->
             epoch_step st = 0 /\ err = ZeroDivisionError
         end)).
  { intros w1 q Hq. unfold py_truediv. unfold_monad. cbn.
    destruct (epoch_step st =? 0) eqn:Hes; cbn.
    - apply Z.eqb_eq in Hes. split; [|auto].
      apply Forall_app. split; [exact Hq|]. repeat constructor.
    - apply Z.eqb_neq in Hes. split; [|exact Hes].
      apply Forall_app. split; [exact Hq|]. repeat constructor. }
  destruct validate_flag.
  - apply sat_bind. eapply sat_mono; [apply validate_spec|].
    intros o w1 e1 (_ & _ & _ & Hq1 & ->).
    destruct (val_dl (data self)) as [|batch batches] eqn:Hval.
    { split; [exact Hq1|]. intros (_ & _ & _ & Hv). now destruct (Hv eq_refl Hval). }
    destruct (neptune_run self) eqn:Hsink.
    2:{ split; [exact Hq1|]. intros (Hs & _). congruence. }
    eapply sat_mono; [apply log_eval_after_epoch_spec|].
    intros o w2 e2 (-> & -> & Hq2).
    eapply sat_mono; [apply (Htail w1 (e1 ++ e2)); now apply Forall_app|].
    intros o w3 e3 [Hq3 Ho]. exact (conj Hq3 Ho).
  - unfold sat at 1, ret at 1.
    eapply sat_mono; [apply (Htail w []); constructor|].
    intros o w3 e3 [Hq3 Ho]. auto.
Qed.

Lemma run_epoch_spec self validate_flag before st epoch w :
  let k := grad_accumulation_steps self in
  let L := logging_steps self in
  let n := len (train_dl (data self)) in
  sat (run_epoch IS_AMP_AVAILABLE self validate_flag st epoch) w
    (fun o w' e =>
      match o with
      | Returns st' =>
          (loop_inv self before st -> loop_inv self (before ++ e) st') /\
          scheduler_totals e = [] /\
          (0 < k -> optimizer_steps e = n / k /\ n / k <> 0 /\
                    global_step st' = global_step st + n / k)
      | Raises err =>
          (loop_inv self before st -> windowed_logs k L (before ++ e)) /\
          (healthy IS_AMP_AVAILABLE self validate_flag -> 0 < k ->
             n / k = 0 /\ err = ZeroDivisionError /\ optimizer_steps e = 0)
      end).
Proof.
  intros k L n. unfold run_epoch. apply sat_bind.
  eapply sat_mono.
  - apply (batch_loop_spec self validate_flag before _ 0 (train_dl (data self)) w).
  - intros [st'|err] w1 e1; cbn [epoch_step global_step].
    2:{ intros [Hno Hlogs]. split; [exact Hlogs|]. intros Hh. contradiction. }
    intros (Hinv1 & Htot & Hcount). fold k n in Hcount.
    rewrite Z.add_0_l, Zdiv_0_l, Z.sub_0_r, Z.add_0_l in Hcount.
    apply sat_bind. eapply sat_mono; [apply epoch_end_spec|].
    intros [[]|err] w2 e2 [Hq2 Ho].
    + unfold_monad. rewrite app_nil_r, app_assoc.
      split; [intros Hinv; apply loop_inv_quiet; [exact (Hinv1 Hinv)|exact Hq2]|].
      rewrite scheduler_totals_app, Htot, (quiet_scheduler_totals e2 Hq2).
      split; [reflexivity|]. intros Hk. destruct (Hcount Hk) as (Hes & Hgs & Hopt).
      rewrite optimizer_steps_app, (quiet_optimizer_steps e2 Hq2), Hopt.
      split; [lia|]. split; [congruence|exact Hgs].
    + rewrite app_assoc. split.
      * intros Hinv. apply windowed_logs_extend;
          [now destruct (Hinv1 Hinv) as (_ & _ & _ & _ & Hlogs)|].
        intros ev Hin. exact (quiet_not_logged e2 ev Hq2 Hin).
      * intros Hh Hk. destruct (Ho Hh) as [Hzero ->].
        destruct (Hcount Hk) as (Hes & Hgs & Hopt).
        rewrite optimizer_steps_app, (quiet_optimizer_steps e2 Hq2), Hopt.
        repeat split; lia.
Qed.

(** ** The whole of [fit] *)

Lemma sat_emit (ev : @Event F T) w (Q : _ -> _ -> _ -> Prop) :
  Q (Returns tt) w [ev] -> sat (@emit F T Store ev) w Q.
Proof. auto. Qed.

Lemma sat_ret {A} (a : A) w (Q : _ -> _ -> list (@Event F T) -> Prop) :
  Q (Returns a) w [] -> sat (ret a) w Q.
Proof. auto. Qed.

Lemma sat_on_store (f : Store -> Store) w (Q : _ -> _ -> list (@Event F T) -> Prop) :
  Q (Returns tt)
    {| model_wrapped := model_wrapped w; model_training := model_training w;
       self_epochs := self_epochs w; store := f (store w) |} [] ->
  sat (on_store f) w Q.
Proof. auto. Qed.

Lemma sat_set_wrapped b w (Q : _ -> _ -> list (@Event F T) -> Prop) :
  Q (Returns tt)
    {| model_wrapped := b; model_training := model_training w;
       self_epochs := self_epochs w; store := store w |} [] ->
  sat (set_wrapped b) w Q.
Proof. auto. Qed.

Lemma sat_get_world w (Q : _ -> _ -> list (@Event F T) -> Prop) :
  Q (Returns w) w [] -> sat get_world w Q.
Proof. auto. Qed.

Lemma len_range epochs : len (range epochs) = Z.max 0 epochs.
Proof. unfold len, range. rewrite length_map, length_seq. lia. Qed.

Lemma total_steps_spec self epochs w :
  let k := grad_accumulation_steps self in
  let n := len (train_dl (data self)) in
  sat (total_steps self epochs) w (fun o w' (e : list (@Event F T)) =>
    e = [] /\
    match o with
    | Returns t_total =>
        t_total = (if max_steps self >? 0 then max_steps self else n / k * epochs)
    | Raises err => err = ZeroDivisionError /\ (k = 0 \/ n = 0)
    end).
Proof.
  intros k n. unfold total_steps, py_floordiv. fold k n.
  destruct (max_steps self >? 0).
  - unfold_monad. destruct (n =? 0) eqn:Hn; cbn.
    + apply Z.eqb_eq in Hn. auto.
    + destruct (k =? 0) eqn:Hk; cbn; [apply Z.eqb_eq in Hk|]; auto.
  - unfold_monad. destruct (k =? 0) eqn:Hk; cbn; [apply Z.eqb_eq in Hk|]; auto.
Qed.

Lemma prologue_inv self epochs lr schedule_type optimizer_type t_total :
  loop_inv self
    (prologue_events self epochs lr schedule_type optimizer_type t_total)
    {| global_step := 0; epoch_step := 0; tr_loss := of_int 0;
       logging_loss := of_int 0; epoch_loss := of_int 0 |}.
Proof.
  unfold loop_inv. cbn [global_step tr_loss logging_loss].
  split; [reflexivity|]. split; [reflexivity|]. split; [reflexivity|].
  split.
  - intros _. rewrite Zdiv_0_l. reflexivity.
  - intros ev g v Hin Hlogged. exfalso. revert Hlogged.
    unfold prologue_events in Hin. set_unfold in Hin.
    repeat destruct Hin as [->|Hin]; try discriminate. contradiction.
Qed.

Lemma epoch_loop_spec self validate_flag before st0 epoch_list w :
  let k := grad_accumulation_steps self in
  let L := logging_steps self in
  let n := len (train_dl (data self)) in
  loop_inv self before st0 ->
  sat (for_each epoch_list st0 (run_epoch IS_AMP_AVAILABLE self validate_flag)) w
    (fun o w' e =>
      match o with
      | Returns st' =>
          loop_inv self (before ++ e) st' /\
          scheduler_totals e = [] /\
          (0 < k -> optimizer_steps e = len epoch_list * (n / k) /\
                    (0 < len epoch_list -> n / k <> 0))
      | Raises err =>
          windowed_logs k L (before ++ e) /\
          (healthy IS_AMP_AVAILABLE self validate_flag -> 0 < k ->
             n / k = 0 /\ err = ZeroDivisionError /\ optimizer_steps e = 0)
      end).
Proof.
  intros k L n Hinv.
  eapply sat_mono.
  apply (sat_for_each (run_epoch IS_AMP_AVAILABLE self validate_flag)
    (fun rem st w' e =>
       exists done, done + len rem = len epoch_list /\ 0 <= done /\
         loop_inv self (before ++ e) st /\
         scheduler_totals e = [] /\
         (0 < k -> optimizer_steps e = done * (n / k) /\
                   (0 < done -> n / k <> 0)))
    (fun err w' e =>
       windowed_logs k L (before ++ e) /\
       (healthy IS_AMP_AVAILABLE self validate_flag -> 0 < k ->
          n / k = 0 /\ err = ZeroDivisionError /\ optimizer_steps e = 0))).
  - exists 0. rewrite app_nil_r. split; [lia|]. split; [lia|].
    split; [exact Hinv|]. split; [reflexivity|]. intros _. split; [reflexivity|lia].
  - intros epoch rem st w1 pre (done & Hlen & Hdone & Hinv1 & Htot & Hcount).
    rewrite len_cons in Hlen.
    eapply sat_mono; [apply (run_epoch_spec self validate_flag (before ++ pre))|].
    fold k L n.
    intros [st'|err] w2 e.
    + intros (Hinv2 & Htot2 & Hcount2). exists (done + 1).
      rewrite app_assoc, scheduler_totals_app, optimizer_steps_app, Htot, Htot2.
      split; [lia|]. split; [lia|]. split; [exact (Hinv2 Hinv1)|]. split; [reflexivity|].
      intros Hk. destruct (Hcount Hk) as [Hopt _].
      destruct (Hcount2 Hk) as (Hopt2 & Hnz & _). rewrite Hopt, Hopt2.
      split; [lia|auto].
    + intros (Hlogs & Hwhy). rewrite app_assoc. split; [exact (Hlogs Hinv1)|].
      intros Hh Hk. destruct (Hwhy Hh Hk) as (Hzero & -> & Hopt2).
      destruct (Hcount Hk) as [Hopt _].
      rewrite optimizer_steps_app, Hopt, Hopt2, Hzero.
      repeat split; lia.
  - intros [st'|err] w' e; [|auto].
    intros (done & Hlen & Hdone & Hinv1 & Htot & Hcount).
    change (len []) with 0 in Hlen. rewrite Z.add_0_r in Hlen. subst done. auto.
Qed.

Ltac sat_prim :=
  apply sat_bind;
  lazymatch goal with
  | |- sat (emit _) _ _ => refine (sat_emit _ _ _ _)
  | |- sat (on_store _) _ _ => refine (sat_on_store _ _ _ _)
  | |- sat (set_wrapped _) _ _ => refine (sat_set_wrapped _ _ _ _)
  | |- sat get_world _ _ => refine (sat_get_world _ _ _)
  | |- sat (ret _) _ _ => refine (sat_ret _ _ _ _)
  end;
  cbv beta iota.

(** What [fit] does, whatever the outcome. *)
Lemma fit_spec self epochs lr validate_flag schedule_type optimizer_type w :
  let k := grad_accumulation_steps self in
  let L := logging_steps self in
  let n := len (train_dl (data self)) in
  sat (fit IS_AMP_AVAILABLE self epochs lr validate_flag schedule_type
         optimizer_type) w
    (fun o w' e =>
      windowed_logs k L e /\
      match o with
      | Returns (g, _) =>
          g = optimizer_steps e /\ g <> 0 /\
          scheduler_steps e = optimizer_steps e /\
          scheduler_totals e
          = [if max_steps self >? 0 then max_steps self else n / k * epochs] /\
          (0 < k -> optimizer_steps e = epochs * (n / k) /\ 0 < epochs)
      | Raises err =>
          healthy IS_AMP_AVAILABLE self validate_flag -> 0 < k ->
          err = ZeroDivisionError /\ (epochs <= 0 \/ n / k = 0) /\
          optimizer_steps e = 0
      end).
Proof.
  intros k L n. unfold fit. sat_prim.
  apply sat_bind. eapply sat_mono; [apply total_steps_spec|]. fold k n.
  intros [t_total|err] w1 e1 [-> Ht].
  2:{ destruct Ht as [-> Hzero]. cbn [app]. split.
      - intros ev g v Hin Hlogged. exfalso. set_unfold in Hin.
        destruct Hin as [->|[]]. discriminate.
      - intros _ Hk. split; [reflexivity|]. split; [|reflexivity].
        right. destruct Hzero as [Hzero|Hzero]; [lia|]. rewrite Hzero. apply Zdiv_0_l. }
  subst t_total. set (t_total := if max_steps self >? 0 then _ else _).
  sat_prim. sat_prim. sat_prim.
  apply sat_bind.
  assert (Hrest : forall w2,
    sat (bind (emit (GetScheduler t_total schedule_type)) (fun _ =>
      bind (on_store (get_scheduler t_total schedule_type)) (fun _ =>
      bind (if multi_gpu self then set_wrapped true else ret tt) (fun _ =>
      bind (emit (LoggerInfo RunningTraining)) (fun _ =>
      bind (emit (LoggerInfo (NumExamples (train_num_examples (data self))))) (fun _ =>
      bind (emit (LoggerInfo (NumEpochs epochs))) (fun _ =>
      bind (emit (LoggerInfo (TotalTrainBatchSize
              (train_batch_size (data self) * grad_accumulation_steps self)))) (fun _ =>
      bind (emit (LoggerInfo (GradientAccumulationSteps
              (grad_accumulation_steps self)))) (fun _ =>
      bind (emit (LoggerInfo (TotalOptimizationSteps t_total))) (fun _ =>
      bind (emit ZeroGrad) (fun _ =>
      bind (on_store zero_grad) (fun _ =>
      bind (for_each (range epochs)
              {| global_step := 0; epoch_step := 0; tr_loss := of_int 0;
                 logging_loss := of_int 0; epoch_loss := of_int 0 |}
              (run_epoch IS_AMP_AVAILABLE self validate_flag)) (fun st =>
      bind (emit TbClose) (fun _ =>
      bind (lift (py_truediv (tr_loss st) (global_step st))) (fun mean_loss =>
      ret (global_step st, mean_loss)))))))))))))))) w2
    (fun o w' e2 =>
      let e := [TbOpen; GetOptimizer lr optimizer_type] ++ e2 in
      windowed_logs k L e /\
      match o with
      | Returns (g, _) =>
          g = optimizer_steps e /\ g <> 0 /\
          scheduler_steps e = optimizer_steps e /\
          scheduler_totals e = [t_total] /\
          (0 < k -> optimizer_steps e = epochs * (n / k) /\ 0 < epochs)
      | Raises err =>
          healthy IS_AMP_AVAILABLE self validate_flag -> 0 < k ->
          err = ZeroDivisionError /\ (epochs <= 0 \/ n / k = 0) /\
          optimizer_steps e = 0
      end)).
  { intros w2. sat_prim. sat_prim.
    apply sat_bind.
    assert (Hloop : forall w3,
      sat (bind (emit (LoggerInfo RunningTraining)) (fun _ =>
        bind (emit (LoggerInfo (NumExamples (train_num_examples (data self))))) (fun _ =>
        bind (emit (LoggerInfo (NumEpochs epochs))) (fun _ =>
        bind (emit (LoggerInfo (TotalTrainBatchSize
                (train_batch_size (data self) * grad_accumulation_steps self)))) (fun _ =>
        bind (emit (LoggerInfo (GradientAccumulationSteps
                (grad_accumulation_steps self)))) (fun _ =>
        bind (emit (LoggerInfo (TotalOptimizationSteps t_total))) (fun _ =>
        bind (emit ZeroGrad) (fun _ =>
        bind (on_store zero_grad) (fun _ =>
        bind (for_each (range epochs)
                {| global_step := 0; epoch_step := 0; tr_loss := of_int 0;
                   logging_loss := of_int 0; epoch_loss := of_int 0 |}
                (run_epoch IS_AMP_AVAILABLE self validate_flag)) (fun st =>
        bind (emit TbClose) (fun _ =>
        bind (lift (py_truediv (tr_loss st) (global_step st))) (fun mean_loss =>
        ret (global_step st, mean_loss))))))))))))) w3
      (fun o w' e3 =>
        let e := [TbOpen; GetOptimizer lr optimizer_type;
                  GetScheduler t_total schedule_type] ++ e3 in
        windowed_logs k L e /\
        match o with
        | Returns (g, _) =>
            g = optimizer_steps e /\ g <> 0 /\
            scheduler_steps e = optimizer_steps e /\
            scheduler_totals e = [t_total] /\
            (0 < k -> optimizer_steps e = epochs * (n / k) /\ 0 < epochs)
        | Raises err =>
            healthy IS_AMP_AVAILABLE self validate_flag -> 0 < k ->
            err = ZeroDivisionError /\ (epochs <= 0 \/ n / k = 0) /\
            optimizer_steps e = 0
        end)).
    { intros w3. do 8 sat_prim. apply sat_bind.
      pose proof (prologue_inv self epochs lr schedule_type optimizer_type t_total)
        as Hpro.
      eapply sat_mono; [eapply epoch_loop_spec; exact Hpro|].
      fold k L n. rewrite len_range.
      intros [st'|err] w4 e4.
      2:{ intros (Hlogs & Hwhy). cbv zeta. cbn [app].
          split; [exact Hlogs|]. intros Hh Hk.
          destruct (Hwhy Hh Hk) as (Hzero & -> & Hopt).
          split; [reflexivity|]. split; [now right|].
          change (optimizer_steps (prologue_events self epochs lr schedule_type
                    optimizer_type t_total ++ e4) = 0).
          rewrite optimizer_steps_app, Hopt. reflexivity. }
      intros (Hinv & Htot & Hcount). sat_prim. unfold py_truediv.
      unfold sat, bind, lift, ret. cbv zeta.
      assert (Hq : Forall quiet [@TbClose F T]) by (repeat constructor).
      pose proof (loop_inv_quiet self _ st' [TbClose] Hinv Hq) as Hinv'.
      destruct Hinv' as (Hg & Hs & _ & _ & Hlogs).
      assert (Hopt_all : optimizer_steps
                ((prologue_events self epochs lr schedule_type optimizer_type
                    t_total ++ e4) ++ [TbClose]) = optimizer_steps e4).
      { rewrite !optimizer_steps_app. cbn. lia. }
      assert (Htot_all : scheduler_totals
                ((prologue_events self epochs lr schedule_type optimizer_type
                    t_total ++ e4) ++ [TbClose]) = [t_total]).
      { rewrite !scheduler_totals_app, Htot. reflexivity. }
      destruct (global_step st' =? 0) eqn:Hzero.
      - apply Z.eqb_eq in Hzero.
        match goal with
        | |- windowed_logs k L ?l /\ _ =>
            change l with ((prologue_events self epochs lr schedule_type
                              optimizer_type t_total ++ e4) ++ [TbClose])
        end.
        split; [exact Hlogs|]. intros Hh Hk.
        destruct (Hcount Hk) as [Hopt Hnz].
        rewrite <- Hg, Hzero. split; [reflexivity|]. split; [|reflexivity].
        rewrite Hzero, Hopt_all, Hopt in Hg.
        destruct (Z.max_spec 0 epochs) as [[Hlt Hmax]|[Hle Hmax]];
          rewrite Hmax in *; [|left; lia].
        right. destruct (Z.eq_dec (n / k) 0) as [Hz|Hz]; [exact Hz|]. nia.
      - apply Z.eqb_neq in Hzero.
        match goal with
        | |- windowed_logs k L ?l /\ _ =>
            change l with ((prologue_events self epochs lr schedule_type
                              optimizer_type t_total ++ e4) ++ [TbClose])
        end.
        rewrite <- Hg, Hs, <- Hg, Htot_all.
        split; [exact Hlogs|]. split; [reflexivity|]. split; [exact Hzero|].
        split; [reflexivity|]. split; [reflexivity|].
        intros Hk. destruct (Hcount Hk) as [Hopt Hnz].
        rewrite Hopt_all, Hopt in Hg.
        destruct (Z.max_spec 0 epochs) as [[Hlt Hmax]|[Hle Hmax]];
          rewrite Hmax in *; [|lia].
        split; [lia|exact Hlt]. }
    destruct (multi_gpu self);
      [refine (sat_set_wrapped _ _ _ _)|refine (sat_ret _ _ _ _)];
      cbv beta iota; (eapply sat_mono; [apply Hloop|]);
      intros [[g mean]|err] w' e3; cbv zeta; cbn [app]; auto. }
  destruct (model_wrapped w1);
    [refine (sat_set_wrapped _ _ _ _)|refine (sat_ret _ _ _ _)];
    cbv beta iota; (eapply sat_mono; [apply Hrest|]);
    intros [[g mean]|err] w' e3; cbv zeta; cbn [app]; auto.
Qed.

(** ** The claims about [fit] *)

(** With nothing absent, at least one full accumulation window per epoch and
    at least one epoch, [fit] returns, having taken [epochs * (n // k)]
    optimiser and scheduler steps, whatever [max_steps] is. *)
Lemma fit_returns self epochs lr validate_flag schedule_type optimizer_type w :
  let k := grad_accumulation_steps self in
  let n := len (train_dl (data self)) in
  healthy IS_AMP_AVAILABLE self validate_flag ->
  1 <= k <= n -> 1 <= epochs ->
  exists mean_loss w' evs,
    fit IS_AMP_AVAILABLE self epochs lr validate_flag schedule_type
      optimizer_type w
    = (Returns (epochs * (n / k), mean_loss), w', evs) /\
    optimizer_steps evs = epochs * (n / k) /\
    scheduler_steps evs = epochs * (n / k) /\
    scheduler_totals evs
    = [if max_steps self >? 0 then max_steps self else n / k * epochs].
Proof.
  intros k n Hh Hkn He.
  pose proof (fit_spec self epochs lr validate_flag schedule_type
                optimizer_type w) as Hspec.
  unfold sat in Hspec. fold k n in Hspec.
  destruct (fit _ self epochs lr validate_flag schedule_type optimizer_type w)
    as [[[[g mean_loss]|err] w'] evs].
  - destruct Hspec as (_ & Hg & _ & Hs & Htot & Hcount).
    destruct (Hcount ltac:(lia)) as [Hopt _].
    exists mean_loss, w', evs. rewrite Hs, Hg, Hopt. auto.
  - destruct Hspec as (_ & Hwhy).
    destruct (Hwhy Hh ltac:(lia)) as (_ & [Hbad|Hbad] & _); [lia|].
    assert (1 <= n / k) by (apply Z.div_le_lower_bound; lia). lia.
Qed.

Lemma not_boundary_in_remainder (k n step : Z) :
  1 <= k -> k * (n / k) <= step < n -> ((step + 1) mod k =? 0) = false.
Proof.
  intros Hk Hstep. apply Z.eqb_neq. intros Hmod.
  pose proof (Z.div_mod n k ltac:(lia)) as Hn.
  pose proof (Z.mod_pos_bound n k ltac:(lia)) as Hr.
  pose proof (Z.div_mod (step + 1) k ltac:(lia)) as Hs.
  rewrite Hmod, Z.add_0_r in Hs.
  assert (Hlow : n / k < (step + 1) / k) by nia.
  assert (Hhigh : (step + 1) / k < n / k + 1) by nia.
  lia.
Qed.

(** The batches after the last full window of an epoch: an iteration over one
    of them takes no optimiser step, whether it returns or raises. *)
Lemma remainder_takes_no_step self validate_flag st step batch w :
  let k := grad_accumulation_steps self in
  let n := len (train_dl (data self)) in
  1 <= k -> k * (n / k) <= step < n ->
  optimizer_steps
    (micro_step IS_AMP_AVAILABLE self validate_flag st (step, batch) w).2 = 0.
Proof.
  intros k n Hk Hstep.
  pose proof (not_boundary_in_remainder k n step Hk Hstep) as Hb.
  pose proof (micro_step_spec self validate_flag st step batch w) as Hspec.
  pose proof (micro_step_sink self validate_flag st step batch w) as Hsink.
  unfold sat in Hspec, Hsink.
  destruct (micro_step _ self validate_flag st (step, batch) w)
    as [[[st'|err] w'] m]; cbn [snd].
  - destruct Hspec as (x & _ & _ & _ & _ & _ & _ & Hopt & _).
    fold k in Hopt. now rewrite Hb in Hopt.
  - now apply Hsink.
Qed.

(** C1, as amended: for every accumulation factor [k >= 1], number of
    batches [n >= k] and epoch count [e >= 1], with no maximum step count
    set and nothing absent (a Neptune run, a scaler and autocast under mixed
    precision, validation batches when validating), [fit] takes exactly
    [e * (n // k)] optimiser steps and as many scheduler steps, returns that
    count first, and that count is the total handed to the scheduler
    factory; the last [n mod k] batches of an epoch take no optimiser
    step. *)
Theorem fit_step_count self epochs lr validate_flag schedule_type optimizer_type w :
  healthy IS_AMP_AVAILABLE self validate_flag ->
  max_steps self <= 0 ->
  1 <= grad_accumulation_steps self <= len (train_dl (data self)) ->
  1 <= epochs ->
  fit_steps_claim IS_AMP_AVAILABLE self epochs lr validate_flag schedule_type
    optimizer_type w.
Proof.
  intros Hh Hmax Hkn He. split.
  - destruct (fit_returns self epochs lr validate_flag schedule_type
                optimizer_type w Hh Hkn He)
      as (mean_loss & w' & evs & Hrun & Hopt & Hsch & Htot).
    exists mean_loss, w', evs. repeat split; try assumption.
    rewrite Htot. replace (max_steps self >? 0) with false
      by (symmetry; rewrite Z.gtb_ltb; apply Z.ltb_ge; exact Hmax).
    f_equal. apply Z.mul_comm.
  - intros st step batch w1 Hstep.
    apply remainder_takes_no_step; [lia|exact Hstep].
Qed.

(** C3: in every run of [fit], whatever its outcome, each training loss
    logged (tensorboard scalar "loss", logger line "train_loss after step")
    is logged at a global step [g] that is a positive multiple of the
    logging interval [L > 0], and its value is the cumulative training loss
    at step [g] minus the cumulative training loss at step [g - L], divided
    by [L]. *)
Theorem logged_loss_is_windowed_average self epochs lr validate_flag
    schedule_type optimizer_type w ev g value :
  let k := grad_accumulation_steps self in
  let L := logging_steps self in
  let evs := (fit IS_AMP_AVAILABLE self epochs lr validate_flag schedule_type
                optimizer_type w).2 in
  ev ∈ evs -> logged_train_loss ev = Some (g, value) ->
  0 < L /\ g mod L = 0 /\ 0 < g <= optimizer_steps evs /\
  value = fdiv (fsub (cumulative_loss_at k evs g) (cumulative_loss_at k evs (g - L)))
               (of_int L).
Proof.
  intros k L evs Hin Hlogged.
  pose proof (fit_spec self epochs lr validate_flag schedule_type
                optimizer_type w) as Hspec.
  unfold sat in Hspec. subst evs.
  destruct (fit _ self epochs lr validate_flag schedule_type optimizer_type w)
    as [[o w'] evs]. cbn [snd] in *.
  destruct Hspec as [Hlogs _]. exact (Hlogs ev g value Hin Hlogged).
Qed.

(** C6: an epoch with fewer batches than the accumulation factor always
    ends in a raise; when nothing is absent the raise is the division by
    zero of the epoch-average loss, after no optimiser step, and it ends
    [fit] as well. *)
Theorem epoch_without_step_divides_by_zero self validate_flag :
  len (train_dl (data self)) < grad_accumulation_steps self ->
  (forall st epoch w,
     epoch_step st = 0 ->
     exists err, (epoch_end self validate_flag epoch st w).1.1 = Raises err /\
       (healthy IS_AMP_AVAILABLE self validate_flag -> err = ZeroDivisionError)) /\
  (forall st epoch w,
     exists err,
       (run_epoch IS_AMP_AVAILABLE self validate_flag st epoch w).1.1 = Raises err /\
       (healthy IS_AMP_AVAILABLE self validate_flag ->
          err = ZeroDivisionError /\
          optimizer_steps
            (run_epoch IS_AMP_AVAILABLE self validate_flag st epoch w).2 = 0)) /\
  (forall epochs lr schedule_type optimizer_type w,
     1 <= epochs ->
     exists err,
       (fit IS_AMP_AVAILABLE self epochs lr validate_flag schedule_type
          optimizer_type w).1.1 = Raises err /\
       (healthy IS_AMP_AVAILABLE self validate_flag -> err = ZeroDivisionError)).
Proof.
  intros Hsmall.
  pose proof (len_nonneg (train_dl (data self))) as Hn.
  assert (Hk : 0 < grad_accumulation_steps self) by lia.
  assert (Hdiv : len (train_dl (data self)) / grad_accumulation_steps self = 0)
    by (apply Z.div_small; lia).
  split; [|split].
  - intros st epoch w Hes.
    pose proof (epoch_end_spec self validate_flag epoch st w) as Hspec.
    unfold sat in Hspec.
    destruct (epoch_end self validate_flag epoch st w) as [[[[]|err] w'] e];
      cbn [fst]; destruct Hspec as [_ Ho]; [contradiction|].
    exists err. split; [reflexivity|]. intros Hh. now destruct (Ho Hh).
  - intros st epoch w.
    pose proof (run_epoch_spec self validate_flag [] st epoch w) as Hspec.
    unfold sat in Hspec.
    destruct (run_epoch _ self validate_flag st epoch w) as [[[st'|err] w'] e];
      cbn [fst snd].
    + destruct Hspec as (_ & _ & Hcount). destruct (Hcount Hk) as (_ & Hnz & _).
      contradiction.
    + destruct Hspec as (_ & Hwhy). exists err. split; [reflexivity|].
      intros Hh. destruct (Hwhy Hh Hk) as (_ & -> & Hopt). auto.
  - intros epochs lr schedule_type optimizer_type w He.
    pose proof (fit_spec self epochs lr validate_flag schedule_type
                  optimizer_type w) as Hspec.
    unfold sat in Hspec.
    destruct (fit _ self epochs lr validate_flag schedule_type optimizer_type w)
      as [[[[g mean_loss]|err] w'] e]; cbn [fst].
    + destruct Hspec as (_ & Hg & Hnz & _ & _ & Hcount).
      destruct (Hcount Hk) as [Hopt _]. rewrite Hdiv in Hopt. lia.
    + destruct Hspec as (_ & Hwhy). exists err. split; [reflexivity|].
      intros Hh. now destruct (Hwhy Hh Hk) as (-> & _).
Qed.

(** C8: an iteration of the batch loop that returns leaves the global step
    as it was unless [(step + 1) % k == 0], and then it adds exactly one, as
    it takes one optimiser step; when nothing is absent every iteration
    returns; and over an epoch the global step grows by the number of
    boundaries, [n // k]. *)
Theorem global_step_advances_at_boundaries self validate_flag st step batch w :
  let k := grad_accumulation_steps self in
  let n := len (train_dl (data self)) in
  let b := if (step + 1) mod k =? 0 then 1 else 0 in
  (forall st' w' m,
     micro_step IS_AMP_AVAILABLE self validate_flag st (step, batch) w
     = (Returns st', w', m) ->
     global_step st' = global_step st + b /\ optimizer_steps m = b) /\
  (healthy IS_AMP_AVAILABLE self validate_flag ->
   exists st' w' m,
     micro_step IS_AMP_AVAILABLE self validate_flag st (step, batch) w
     = (Returns st', w', m) /\
     global_step st' = global_step st + b) /\
  (forall epoch st' w' e,
     0 < k ->
     run_epoch IS_AMP_AVAILABLE self validate_flag st epoch w
     = (Returns st', w', e) ->
     global_step st' = global_step st + n / k /\ optimizer_steps e = n / k).
Proof.
  intros k n b. split; [|split].
  - intros st' w' m Hrun.
    pose proof (sat_run _ _ _ _ _ _
                  (micro_step_spec self validate_flag st step batch w) Hrun)
      as (x & _ & _ & _ & _ & Hg & _ & Hopt & _).
    auto.
  - intros Hh.
    destruct (micro_step_returns self validate_flag st step batch w Hh)
      as (st' & w' & m & Hrun & x & _ & _ & _ & _ & Hg & _).
    eauto.
  - intros epoch st' w' e Hk Hrun.
    pose proof (sat_run _ _ _ _ _ _
                  (run_epoch_spec self validate_flag [] st epoch w) Hrun)
      as (_ & _ & Hcount).
    destruct (Hcount Hk) as (Hopt & _ & Hg). auto.
Qed.

(** C9: the Neptune run is [None] by default, and with it absent every
    [training_step], every [validate] and every iteration of the batch loop
    of [fit] raises. *)
Theorem absent_sink_raises :
  (forall cuda_device_count (d : DataBunch Batch) ms,
     neptune_run (init cuda_device_count d ms default_options) = None) /\
  (forall self,
     neptune_run self = None ->
     (forall batch w,
        exists err,
          (training_step IS_AMP_AVAILABLE self batch w).1.1 = Raises err) /\
     (forall w, exists err, (validate self w).1.1 = Raises err) /\
     (forall validate_flag st step batch w,
        exists err,
          (micro_step IS_AMP_AVAILABLE self validate_flag st (step, batch) w).1.1
          = Raises err)).
Proof.
  split; [reflexivity|]. intros self Hnone. split; [|split].
  - intros batch w.
    pose proof (training_step_spec self batch w) as Hspec. unfold sat in Hspec.
    destruct (training_step _ self batch w) as [[[loss|err] w'] e]; cbn [fst].
    + destruct Hspec as (Hsink & _). contradiction.
    + eauto.
  - intros w. apply validate_raises. now left.
  - intros validate_flag st step batch w.
    pose proof (micro_step_sink self validate_flag st step batch w) as Hspec.
    unfold sat in Hspec.
    destruct (micro_step _ self validate_flag st (step, batch) w)
      as [[[st'|err] w'] m]; cbn [fst]; [contradiction|eauto].
Qed.

(** C7, as amended: when mixed precision is asked of
    [from_pretrained_model] on a runtime without AMP, for a known model type
    and a checkpoint that loads, the learner is built with [is_fp16] false
    and no scaler, after one debug line and without a raise; given a Neptune
    run its training steps return, and [fit] returns whenever it would for a
    learner built in full precision (validation batches when validating, at
    least one full accumulation window and one epoch). *)
Theorem mixed_precision_fallback cuda_device_count (d : DataBunch Batch)
    pretrained_path ms o classes model :
  IS_AMP_AVAILABLE = false ->
  opt_is_fp16 o = true ->
  MODEL_CLASSES !! data_model_type d = Some classes ->
  load_pretrained classes.1 classes.2 pretrained_path = Returns model ->
  exists self w0,
    from_pretrained_model IS_AMP_AVAILABLE cuda_device_count d
      pretrained_path ms o
    = (Returns (self, w0),
       [LoggerDebug "Apex not installed. switching off FP16 training"]) /\
    is_fp16 self = false /\ scaler self = None /\
    self = init cuda_device_count d ms (with_is_fp16 o false) /\
    (opt_neptune_run o <> None ->
     (forall batch w,
        exists loss w' e,
          training_step IS_AMP_AVAILABLE self batch w = (Returns loss, w', e)) /\
     (forall epochs lr validate_flag schedule_type optimizer_type w,
        (validate_flag = true -> val_dl d <> []) ->
        1 <= opt_grad_accumulation_steps o <= len (train_dl d) ->
        1 <= epochs ->
        exists result w' e,
          fit IS_AMP_AVAILABLE self epochs lr validate_flag schedule_type
            optimizer_type w
          = (Returns result, w', e))).
Proof.
  intros Hamp Hfp Hclasses Hload. unfold from_pretrained_model.
  destruct classes as [cc mc]. cbn [fst snd] in Hload.
  rewrite Hamp, Hfp, Hclasses, Hload. cbn [andb negb].
  eexists _, _. split; [reflexivity|]. split; [reflexivity|].
  split; [reflexivity|]. split; [reflexivity|]. intros Hsink.
  assert (Hhealthy : forall validate_flag,
            (validate_flag = true -> val_dl d <> []) ->
            opt_grad_accumulation_steps o <> 0 ->
            healthy false (init cuda_device_count d ms (with_is_fp16 o false))
              validate_flag).
  { intros validate_flag Hval Hk. repeat split; try assumption; discriminate. }
  split.
  - intros batch w.
    destruct (training_step_returns
                (init cuda_device_count d ms (with_is_fp16 o false)) batch w)
      as (raw & w' & Hrun); [exact Hsink|discriminate|].
    rewrite Hamp in Hrun. eauto.
  - intros epochs lr validate_flag schedule_type optimizer_type w Hval Hkn He.
    pose proof (fit_returns (init cuda_device_count d ms (with_is_fp16 o false))
                  epochs lr validate_flag schedule_type optimizer_type w) as Hfit.
    rewrite Hamp in Hfit.
    destruct Hfit as (mean_loss & w' & e & Hrun & _);
      [apply Hhealthy; [exact Hval|cbn in Hkn; lia]|exact Hkn|exact He|].
    eauto.
Qed.

(** ** [fit], unfolded once *)

Lemma sat_and {A} (c : @M F T Store A) w (Q1 Q2 : _ -> _ -> _ -> Prop) :
  sat c w Q1 -> sat c w Q2 -> sat c w (fun o w' e => Q1 o w' e /\ Q2 o w' e).
Proof. unfold sat. destruct (c w) as [[o w'] e]. auto. Qed.

(** [total_steps] makes no call, and changes the world only by setting
    [self.epochs], when [max_steps] is set and nothing divides by zero. *)
Lemma total_steps_run self epochs w :
  let k := grad_accumulation_steps self in
  let n := len (train_dl (data self)) in
  @total_steps F T Batch Store self epochs w
  = if max_steps self >? 0 then
      if (n =? 0) || (k =? 0) then (Raises ZeroDivisionError, w, [])
      else (Returns (max_steps self),
            {| model_wrapped := model_wrapped w;
               model_training := model_training w;
               self_epochs := Some (max_steps self / n / k + 1);
               store := store w |}, [])
    else if k =? 0 then (Raises ZeroDivisionError, w, [])
         else (Returns (n / k * epochs), w, []).
Proof.
  intros k n. unfold total_steps, py_floordiv. fold k n.
  destruct (max_steps self >? 0); unfold_monad.
  - destruct (n =? 0); cbn; [reflexivity|]. destruct (k =? 0); reflexivity.
  - destruct (k =? 0); reflexivity.
Qed.

(** [fit] is its prologue, the loop over the epochs, and the return. *)
Lemma fit_unfold self epochs lr validate_flag schedule_type optimizer_type w :
  fit IS_AMP_AVAILABLE self epochs lr validate_flag schedule_type optimizer_type w
  = match @total_steps F T Batch Store self epochs w with
    | (Raises err, w1, _) => (Raises err, w1, [TbOpen])
    | (Returns t_total, w1, _) =>
        match for_each (range epochs) loop_start
                (run_epoch IS_AMP_AVAILABLE self validate_flag)
                (after_prologue self lr schedule_type optimizer_type t_total w1)
        with
        | (Raises err, w2, e) =>
            (Raises err, w2,
             prologue_events self epochs lr schedule_type optimizer_type t_total
               ++ e)
        | (Returns st, w2, e) =>
            (match py_truediv (tr_loss st) (global_step st) with
             | Returns mean_loss => Returns (global_step st, mean_loss)
             | Raises err => Raises err
             end, w2,
             prologue_events self epochs lr schedule_type optimizer_type t_total
               ++ e ++ [TbClose])
        end
    end.
Proof.
  unfold fit, after_prologue, loop_start, prologue_events.
  set (body := run_epoch IS_AMP_AVAILABLE self validate_flag).
  set (loop := for_each (range epochs)).
  unfold_monad. rewrite !total_steps_run. cbv zeta.
  destruct (max_steps self >? 0);
    [destruct ((len (train_dl (data self)) =? 0)
               || (grad_accumulation_steps self =? 0))
    |destruct (grad_accumulation_steps self =? 0)];
    try reflexivity;
    cbn [model_wrapped model_training self_epochs store app];
    destruct (model_wrapped w), (multi_gpu self);
    cbn [model_wrapped model_training self_epochs store app];
    match goal with
    | |- context [loop ?st body ?w0] =>
        destruct (loop st body w0) as [[[st'|err] w2] e]
    end;
    cbn [app]; try reflexivity;
    unfold py_truediv; destruct (global_step st' =? 0); reflexivity.
Qed.

(** ** The world along a run *)

Lemma same_frame_refl w : same_frame w w.
Proof. split; reflexivity. Qed.

Lemma same_frame_trans w1 w2 w3 :
  same_frame w1 w2 -> same_frame w2 w3 -> same_frame w1 w3.
Proof. intros [H1 H2] [H3 H4]. split; congruence. Qed.

(** [training_step] switches the model to training mode before anything can
    raise, keeps the frame, and raises [training_step_error] if it raises,
    before any call when that is the unbound [autocast]. *)
Lemma training_step_world self batch w :
  sat (training_step IS_AMP_AVAILABLE self batch) w (fun o w' e =>
    model_training w' = true /\ same_frame w w' /\
    match o with
    | Returns _ => True
    | Raises err =>
        err = training_step_error IS_AMP_AVAILABLE self /\
        (is_fp16 self && negb IS_AMP_AVAILABLE = true -> e = [])
    end).
Proof.
  unfold training_step, training_step_error, same_frame. unfold_monad. cbn.
  destruct (mask_tokens batch (store w)) as [[inputs labels] s1]. cbn.
  destruct (is_fp16 self) eqn:Hfp, IS_AMP_AVAILABLE eqn:Hamp,
    (neptune_run self) eqn:Hsink, (scaler self) eqn:Hscaler; cbn;
    repeat match goal with
      | |- context [forward_train ?a ?i ?l ?s] =>
          destruct (forward_train a i l s) as [outputs s2]; cbn
      end;
    repeat split; try reflexivity; discriminate.
Qed.

Lemma validate_loop_mode (batches : list Batch) (acc : F * Z) w :
  sat (for_each batches acc validate_batch) w (fun o w' evs =>
    model_training w'
    = match batches with [] => model_training w | _ :: _ => false end).
Proof.
  revert acc w. induction batches as [|batch batches IH]; intros [eval_loss nb] w.
  - reflexivity.
  - cbn [for_each]. apply sat_bind. unfold validate_batch at 1.
    unfold_monad. cbn.
    specialize (IH (fadd eval_loss (batch_eval_loss (store w) batch), nb + 1)
      {| model_wrapped := model_wrapped w; model_training := false;
         self_epochs := self_epochs w; store := store w |}).
    unfold sat in IH. cbn in IH.
    destruct (for_each batches _ validate_batch _) as [[o w'] evs].
    rewrite IH. now destruct batches.
Qed.

(** [validate] leaves the model in evaluation mode as soon as it has seen a
    batch. *)
Lemma validate_mode self w :
  sat (validate self) w (fun o w' evs =>
    model_training w'
    = match val_dl (data self) with [] => model_training w | _ :: _ => false end).
Proof.
  unfold validate.
  pose proof (validate_loop_mode (val_dl (data self)) (of_int 0, 0) w) as Hmode.
  pose proof (validate_loop_spec (val_dl (data self)) (of_int 0, 0) w) as Hloop.
  unfold sat in Hmode, Hloop. unfold_monad. cbn -[for_each len].
  destruct (for_each (val_dl (data self)) _ validate_batch w) as [[o w'] evs].
  destruct Hloop as (-> & _). cbn -[len eval_loss_sum]. unfold py_truediv.
  destruct (0 + len (val_dl (data self)) =? 0); cbn -[len eval_loss_sum];
    [exact Hmode|].
  destruct (neptune_run self); cbn -[len eval_loss_sum]; exact Hmode.
Qed.

Lemma validate_world self w :
  sat (validate self) w (fun o w' evs =>
    same_frame w w' /\ store w' = store w /\ Forall quiet evs /\
    model_training w'
    = match val_dl (data self) with [] => model_training w | _ :: _ => false end /\
    match o with
    | Returns _ => val_dl (data self) <> [] /\ neptune_run self <> None
    | Raises _ => val_dl (data self) = [] \/ neptune_run self = None
    end).
Proof.
  eapply sat_mono; [apply (sat_and _ _ _ _ (validate_spec self w) (validate_mode self w))|].
  intros o w' evs [(Hs & Hw & He & Hq & ->) Hm].
  split; [split; assumption|]. split; [exact Hs|]. split; [exact Hq|].
  split; [exact Hm|].
  destruct (val_dl (data self)); [now left|].
  destruct (neptune_run self); [split; discriminate|now right].
Qed.

Lemma apply_gradients_world self w :
  sat (apply_gradients self) w (fun o w' evs =>
    same_frame w w' /\ model_training w' = model_training w).
Proof.
  unfold apply_gradients, same_frame. unfold_monad.
  destruct (is_fp16 self), (scaler self); cbn; unfold_monad; cbn; auto.
Qed.

Lemma log_step_world self validate_flag g tr ll w :
  sat (log_step self validate_flag g tr ll) w (fun o w' evs =>
    same_frame w w' /\
    (validate_flag = false -> model_training w' = model_training w)).
Proof.
  unfold log_step. apply sat_bind. destruct validate_flag.
  - apply sat_bind. eapply sat_mono; [apply validate_world|].
    intros [results|err] w1 e1 (Hf & _); [|split; [exact Hf|discriminate]].
    eapply sat_mono; [apply log_eval_after_step_spec|].
    intros o w2 e2 (-> & -> & _). unfold_monad. cbn.
    split; [exact Hf|discriminate].
  - unfold_monad. cbn. split; [split; reflexivity|reflexivity].
Qed.

(** ** One iteration, in full *)

Lemma loss_scalars_app evs1 evs2 :
  loss_scalars (evs1 ++ evs2) = loss_scalars evs1 + loss_scalars evs2.
Proof. apply count_events_app. Qed.

Lemma quiet_loss_scalars evs : Forall quiet evs -> loss_scalars evs = 0.
Proof.
  induction 1 as [|ev evs Hev _ IH]; [reflexivity|].
  unfold loss_scalars in *. cbn [count_events]. rewrite IH.
  destruct ev; cbn in *; try reflexivity.
  destruct (String.eqb tag "loss") eqn:Heq; [|reflexivity].
  apply String.eqb_eq in Heq. contradiction.
Qed.

Lemma gradient_events_loss_scalars self :
  loss_scalars (gradient_events' self) = 0.
Proof. unfold gradient_events. destruct (is_fp16 self); reflexivity. Qed.

(** An iteration of the batch loop keeps the frame and takes as many
    scheduler steps as optimiser steps, whatever its outcome; it returns only
    when nothing it uses is absent, and then it has logged the training loss
    on tensorboard once if this is a logging boundary, and not otherwise. *)
Lemma micro_step_full self validate_flag st step batch w :
  let k := grad_accumulation_steps self in
  let L := logging_steps self in
  let boundary := (step + 1) mod k =? 0 in
  let logs := boundary && (L >? 0) && ((global_step st + 1) mod L =? 0) in
  sat (micro_step IS_AMP_AVAILABLE self validate_flag st (step, batch)) w
    (fun o w' m =>
      same_frame w w' /\ scheduler_steps m = optimizer_steps m /\
      match o with
      | Returns st' =>
          neptune_run self <> None /\
          (is_fp16 self = true ->
             IS_AMP_AVAILABLE = true /\ scaler self <> None) /\
          k <> 0 /\
          (validate_flag = false -> model_training w' = true) /\
          global_step st' = global_step st + (if boundary then 1 else 0) /\
          loss_scalars m = (if logs then 1 else 0)
      | Raises _ => True
      end).
Proof.
  intros k L boundary logs. subst logs boundary k L.
  destruct (gradient_events_measures self) as (Gopt & Gsch & _).
  pose proof (gradient_events_loss_scalars self) as Gloss.
  unfold micro_step. apply sat_bind.
  unfold sat at 1. unfold with_store at 1.
  destruct (mask_tokens batch (store w)) as [[inputs labels] s1]. cbn [app].
  apply sat_bind.
  eapply sat_mono;
    [apply (sat_and _ _ _ _ (training_step_spec self batch _)
              (training_step_world self batch _))|].
  intros [loss|err] w2 e2 [Hspec (Hmode & Hframe & _)].
  2:{ destruct Hspec as (_ & [->|[raw ->]]); repeat split; apply Hframe. }
  destruct Hspec as (Hsink & Hprec & raw & -> & ->).
  apply sat_bind. unfold sat at 1, emit at 1.
  apply sat_bind. unfold sat at 1, lift at 1, py_mod.
  destruct (grad_accumulation_steps self =? 0) eqn:Hk.
  { repeat split; apply Hframe. }
  apply Z.eqb_neq in Hk.
  destruct ((step + 1) mod grad_accumulation_steps self =? 0) eqn:Hb.
  - apply sat_bind.
    eapply sat_mono;
      [apply (sat_and _ _ _ _ (apply_gradients_spec self w2)
                (apply_gradients_world self w2))|].
    intros [[]|err] w3 e3 [Hg (Hf3 & Hm3)].
    2:{ destruct Hg as (_ & ->).
        split; [exact (same_frame_trans _ _ _ Hframe Hf3)|]. split; reflexivity. }
    destruct Hg as (-> & _). apply sat_bind. cbn [andb].
    destruct ((logging_steps self >? 0)
              && ((global_step st + 1) mod logging_steps self =? 0)) eqn:Hlogs.
    + eapply sat_mono;
        [apply (sat_and _ _ _ _ (log_step_spec _ _ _ _ _ _)
                  (log_step_world _ _ _ _ _ _))|].
      intros [ll'|err] w4 e4 [Hl (Hf4 & Hm4)].
      2:{ destruct Hl as (_ & Hq). cbn [app].
          split; [exact (same_frame_trans _ _ _ Hframe
                           (same_frame_trans _ _ _ Hf3 Hf4))|].
          split; [|exact I].
          unfold scheduler_steps, optimizer_steps in *. cbn [count_events].
          rewrite !count_events_app, Gopt, Gsch.
          fold (scheduler_steps e4) (optimizer_steps e4).
          rewrite (quiet_optimizer_steps e4 Hq), (quiet_scheduler_steps e4 Hq).
          reflexivity. }
      destruct Hl as (-> & _ & q & lr1 & lr2 & Hq & ->).
      unfold sat, ret. cbn [app global_step].
      split; [exact (same_frame_trans _ _ _ Hframe
                       (same_frame_trans _ _ _ Hf3 Hf4))|].
      split.
      { unfold scheduler_steps, optimizer_steps in *. cbn [count_events].
        rewrite !count_events_app, Gopt, Gsch.
        fold (scheduler_steps q) (optimizer_steps q).
        rewrite (quiet_optimizer_steps q Hq), (quiet_scheduler_steps q Hq).
        reflexivity. }
      split; [exact Hsink|]. split; [exact Hprec|]. split; [exact Hk|].
      split; [intros Hv; rewrite (Hm4 Hv), Hm3; exact Hmode|].
      split; [reflexivity|].
      unfold loss_scalars in *. cbn [count_events].
      rewrite !count_events_app, Gloss.
      fold (loss_scalars q). rewrite (quiet_loss_scalars q Hq). reflexivity.
    + unfold sat, ret. cbn [app global_step].
      split; [exact (same_frame_trans _ _ _ Hframe Hf3)|].
      split.
      { unfold scheduler_steps, optimizer_steps in *. cbn [count_events].
        rewrite !count_events_app, Gopt, Gsch. reflexivity. }
      split; [exact Hsink|]. split; [exact Hprec|]. split; [exact Hk|].
      split; [intros _; rewrite Hm3; exact Hmode|].
      split; [reflexivity|].
      unfold loss_scalars in *. cbn [count_events].
      rewrite !count_events_app, Gloss. reflexivity.
  - unfold sat, ret. cbn [app global_step andb].
    split; [exact Hframe|]. split; [reflexivity|].
    split; [exact Hsink|]. split; [exact Hprec|]. split; [exact Hk|].
    split; [intros _; exact Hmode|]. split; [now rewrite Z.add_0_r|reflexivity].
Qed.

(** ** The loops, in full *)

Lemma loss_scalars_next (L g bnd count : Z) (logged : bool) :
  (bnd = 0 \/ bnd = 1) ->
  logged = (if bnd =? 1 then (L >? 0) && ((g + 1) mod L =? 0) else false) ->
  ((0 < L -> count = g / L) /\ (L <= 0 -> count = 0)) ->
  (0 < L -> count + (if logged then 1 else 0) = (g + bnd) / L) /\
  (L <= 0 -> count + (if logged then 1 else 0) = 0).
Proof.
  intros Hbnd -> [Hpos Hneg]. destruct Hbnd as [-> | ->]; cbn [Z.eqb Pos.eqb].
  - rewrite !Z.add_0_r. auto.
  - split.
    + intros HL. rewrite (Hpos HL), (div_succ g L HL).
      replace (L >? 0) with true by (symmetry; now apply Z.gtb_lt).
      reflexivity.
    + intros HL. rewrite (Hneg HL).
      replace (L >? 0) with false
        by (symmetry; rewrite Z.gtb_ltb; apply Z.ltb_ge; exact HL).
      reflexivity.
Qed.

Lemma batch_loop_full self validate_flag st0 i batches w :
  let k := grad_accumulation_steps self in
  let L := logging_steps self in
  sat (for_each (enumerate_from i batches) st0
         (micro_step IS_AMP_AVAILABLE self validate_flag)) w
    (fun o w' e =>
      same_frame w w' /\ scheduler_steps e = optimizer_steps e /\
      match o with
      | Returns st' =>
          (batches = [] -> st' = st0) /\
          (batches <> [] ->
             neptune_run self <> None /\
             (is_fp16 self = true ->
                IS_AMP_AVAILABLE = true /\ scaler self <> None) /\
             k <> 0 /\
             (validate_flag = false -> model_training w' = true)) /\
          (forall count,
             (0 < L -> count = global_step st0 / L) /\ (L <= 0 -> count = 0) ->
             (0 < L -> count + loss_scalars e = global_step st' / L) /\
             (L <= 0 -> count + loss_scalars e = 0))
      | Raises _ => True
      end).
Proof.
  intros k L.
  eapply sat_mono.
  apply (sat_for_each (micro_step IS_AMP_AVAILABLE self validate_flag)
    (fun rem st w' e =>
       exists j bs, rem = enumerate_from j bs /\
         len bs <= len batches /\
         same_frame w w' /\ scheduler_steps e = optimizer_steps e /\
         (len bs = len batches -> st = st0) /\
         (len bs < len batches ->
            neptune_run self <> None /\
            (is_fp16 self = true ->
               IS_AMP_AVAILABLE = true /\ scaler self <> None) /\
            k <> 0 /\
            (validate_flag = false -> model_training w' = true)) /\
         (forall count,
            (0 < L -> count = global_step st0 / L) /\ (L <= 0 -> count = 0) ->
            (0 < L -> count + loss_scalars e = global_step st / L) /\
            (L <= 0 -> count + loss_scalars e = 0)))
    (fun _ w' e => same_frame w w' /\ scheduler_steps e = optimizer_steps e)).
  - exists i, batches. split; [reflexivity|]. split; [lia|].
    split; [apply same_frame_refl|]. split; [reflexivity|].
    split; [reflexivity|]. split; [lia|].
    intros count Hcount. change (loss_scalars []) with 0.
    rewrite Z.add_0_r. exact Hcount.
  - intros x rem st w1 pre
      (j & bs & Hrem & Hlen & Hframe & Hbal & Hfirst & Hran & Hcount).
    symmetry in Hrem. apply enumerate_from_cons in Hrem as (b & bs' & -> & -> & ->).
    rewrite len_cons in *.
    pose proof (len_nonneg bs') as Hnn.
    eapply sat_mono; [apply micro_step_full|]. fold k L.
    intros [st'|err] w2 m (Hf2 & Hbal2 & Hret).
    + exists (j + 1), bs'.
      destruct Hret as (Hsink & Hprec & Hk & Hmode & Hg & Hloss).
      split; [reflexivity|]. split; [lia|].
      split; [exact (same_frame_trans _ _ _ Hframe Hf2)|].
      split; [now rewrite scheduler_steps_app, optimizer_steps_app, Hbal, Hbal2|].
      split; [lia|]. split; [auto|].
      intros count Hc. rewrite loss_scalars_app, Z.add_assoc, Hloss, Hg.
      apply loss_scalars_next.
      * destruct ((j + 1) mod k =? 0); auto.
      * destruct ((j + 1) mod k =? 0); reflexivity.
      * exact (Hcount count Hc).
    + split; [exact (same_frame_trans _ _ _ Hframe Hf2)|].
      now rewrite scheduler_steps_app, optimizer_steps_app, Hbal, Hbal2.
  - intros [st'|err] w' e; [|intros [Hf Hb]; auto].
    intros (j & bs & Hrem & Hlen & Hframe & Hbal & Hfirst & Hran & Hcount).
    destruct bs as [|b bs]; [|discriminate].
    change (len (@nil Batch)) with 0 in *.
    split; [exact Hframe|]. split; [exact Hbal|].
    split; [intros ->; now apply Hfirst|].
    split; [|exact Hcount].
    intros Hne. apply Hran. destruct batches; [contradiction|].
    rewrite len_cons. pose proof (len_nonneg batches). lia.
Qed.

Lemma epoch_end_full self validate_flag epoch (st : @Loop F) w :
  sat (epoch_end self validate_flag epoch st) w (fun o w' e =>
    same_frame w w' /\ Forall quiet e /\
    match o with
    | Returns _ =>
        epoch_step st <> 0 /\
        (validate_flag = true ->
           val_dl (data self) <> [] /\ model_training w' = false) /\
        (validate_flag = false -> model_training w' = model_training w)
    | Raises _ => True
    end).
Proof.
  unfold epoch_end. apply sat_bind.
  assert (Htail : forall w1 (q : list (@Event F T)), Forall quiet q ->
    sat (bind (read_store scheduler_get_lr) (fun lr =>
           bind (emit (LoggerInfo (LrAfterEpoch (epoch + 1) lr))) (fun _ =>
           bind (lift (py_truediv (epoch_loss st) (epoch_step st))) (fun avg =>
           bind (emit (LoggerInfo (TrainLossAfterEpoch (epoch + 1) avg))) (fun _ =>
           emit (LoggerInfo Newline)))))) w1
      (fun o2 w2 e2 =>
         (same_frame w1 w2 /\ model_training w2 = model_training w1) /\
         Forall quiet (q ++ e2) /\
         match o2 with
         | Returns _ => epoch_step st <> 0
         | Raises _ => True
         end)).
  { intros w1 q Hq. unfold py_truediv. unfold_monad. cbn.
    destruct (epoch_step st =? 0) eqn:Hes; cbn.
    - split; [repeat split|]. split; [|exact I].
      apply Forall_app. split; [exact Hq|]. repeat constructor.
    - apply Z.eqb_neq in Hes. split; [repeat split|]. split; [|exact Hes].
      apply Forall_app. split; [exact Hq|]. repeat constructor. }
  destruct validate_flag.
  - apply sat_bind. eapply sat_mono; [apply validate_world|].
    intros [results|err] w1 e1 (Hf & _ & Hq1 & Hmode & Ho); [|auto].
    destruct Ho as [Hval _].
    eapply sat_mono; [apply log_eval_after_epoch_spec|].
    intros o w2 e2 (-> & -> & Hq2).
    eapply sat_mono; [apply (Htail w1 (e1 ++ e2)); now apply Forall_app|].
    intros o w3 e3 ((Hf3 & Hm3) & Hq3 & Ho).
    split; [exact (same_frame_trans _ _ _ Hf Hf3)|]. split; [exact Hq3|].
    destruct o; [|exact I]. split; [exact Ho|].
    split; [|discriminate]. intros _. split; [exact Hval|].
    rewrite Hm3, Hmode. destruct (val_dl (data self)); [contradiction|reflexivity].
  - unfold sat at 1, ret at 1.
    eapply sat_mono; [apply (Htail w []); constructor|].
    intros o w3 e3 ((Hf3 & Hm3) & Hq3 & Ho).
    split; [exact Hf3|]. split; [exact Hq3|].
    destruct o; [|exact I]. split; [exact Ho|]. split; [discriminate|auto].
Qed.

Lemma run_epoch_full self validate_flag st epoch w :
  let L := logging_steps self in
  sat (run_epoch IS_AMP_AVAILABLE self validate_flag st epoch) w
    (fun o w' e =>
      same_frame w w' /\ scheduler_steps e = optimizer_steps e /\
      match o with
      | Returns st' =>
          healthy IS_AMP_AVAILABLE self validate_flag /\
          model_training w' = negb validate_flag /\
          (forall count,
             (0 < L -> count = global_step st / L) /\ (L <= 0 -> count = 0) ->
             (0 < L -> count + loss_scalars e = global_step st' / L) /\
             (L <= 0 -> count + loss_scalars e = 0))
      | Raises _ => True
      end).
Proof.
  intros L. unfold run_epoch. apply sat_bind.
  eapply sat_mono; [apply batch_loop_full|]. fold L.
  intros [st1|err] w1 e1 (Hf1 & Hbal1 & Hret); [|auto].
  destruct Hret as (Hnone & Hran & Hcount). cbn [global_step] in Hcount.
  apply sat_bind. eapply sat_mono; [apply epoch_end_full|].
  intros [[]|err] w2 e2 (Hf2 & Hq2 & Hret2).
  2:{ split; [exact (same_frame_trans _ _ _ Hf1 Hf2)|].
      rewrite scheduler_steps_app, optimizer_steps_app, Hbal1,
        (quiet_optimizer_steps e2 Hq2), (quiet_scheduler_steps e2 Hq2).
      auto. }
  destruct Hret2 as (Hes & Hv & Hnv).
  unfold sat, ret. rewrite app_nil_r.
  split; [exact (same_frame_trans _ _ _ Hf1 Hf2)|].
  split.
  { rewrite scheduler_steps_app, optimizer_steps_app, Hbal1,
      (quiet_optimizer_steps e2 Hq2), (quiet_scheduler_steps e2 Hq2).
    reflexivity. }
  assert (Hne : train_dl (data self) <> []).
  { intros Hnil. unfold enumerate in Hnone. rewrite Hnil in Hnone.
    specialize (Hnone eq_refl). subst st1. cbn in Hes. contradiction. }
  unfold enumerate in Hran.
  destruct (Hran Hne) as (Hsink & Hprec & Hk & Hmode).
  split; [|split].
  - repeat split; try assumption; try (now apply Hprec).
    intros Hvt. now destruct (Hv Hvt).
  - destruct validate_flag; cbn [negb].
    + now destruct (Hv eq_refl).
    + rewrite (Hnv eq_refl). now apply Hmode.
  - intros count Hc. rewrite loss_scalars_app, (quiet_loss_scalars e2 Hq2),
      Z.add_0_r. exact (Hcount count Hc).
Qed.

Lemma epoch_loop_full self validate_flag st0 epoch_list w :
  let L := logging_steps self in
  sat (for_each epoch_list st0 (run_epoch IS_AMP_AVAILABLE self validate_flag)) w
    (fun o w' e =>
      same_frame w w' /\ scheduler_steps e = optimizer_steps e /\
      match o with
      | Returns st' =>
          (epoch_list = [] -> st' = st0) /\
          (epoch_list <> [] ->
             healthy IS_AMP_AVAILABLE self validate_flag /\
             model_training w' = negb validate_flag) /\
          (forall count,
             (0 < L -> count = global_step st0 / L) /\ (L <= 0 -> count = 0) ->
             (0 < L -> count + loss_scalars e = global_step st' / L) /\
             (L <= 0 -> count + loss_scalars e = 0))
      | Raises _ => True
      end).
Proof.
  intros L.
  eapply sat_mono.
  apply (sat_for_each (run_epoch IS_AMP_AVAILABLE self validate_flag)
    (fun rem st w' e =>
       len rem <= len epoch_list /\
       same_frame w w' /\ scheduler_steps e = optimizer_steps e /\
       (len rem = len epoch_list -> st = st0) /\
       (len rem < len epoch_list ->
          healthy IS_AMP_AVAILABLE self validate_flag /\
          model_training w' = negb validate_flag) /\
       (forall count,
          (0 < L -> count = global_step st0 / L) /\ (L <= 0 -> count = 0) ->
          (0 < L -> count + loss_scalars e = global_step st / L) /\
          (L <= 0 -> count + loss_scalars e = 0)))
    (fun _ w' e => same_frame w w' /\ scheduler_steps e = optimizer_steps e)).
  - split; [lia|]. split; [apply same_frame_refl|]. split; [reflexivity|].
    split; [reflexivity|]. split; [lia|].
    intros count Hcount. change (loss_scalars []) with 0.
    rewrite Z.add_0_r. exact Hcount.
  - intros epoch rem st w1 pre (Hlen & Hframe & Hbal & Hfirst & Hran & Hcount).
    rewrite len_cons in *. pose proof (len_nonneg rem) as Hnn.
    eapply sat_mono; [apply run_epoch_full|]. fold L.
    intros [st'|err] w2 e (Hf2 & Hbal2 & Hret).
    + destruct Hret as (Hh & Hmode & Hcount2).
      split; [lia|]. split; [exact (same_frame_trans _ _ _ Hframe Hf2)|].
      split; [now rewrite scheduler_steps_app, optimizer_steps_app, Hbal, Hbal2|].
      split; [lia|]. split; [auto|].
      intros count Hc. rewrite loss_scalars_app, Z.add_assoc.
      apply Hcount2. exact (Hcount count Hc).
    + split; [exact (same_frame_trans _ _ _ Hframe Hf2)|].
      now rewrite scheduler_steps_app, optimizer_steps_app, Hbal, Hbal2.
  - intros [st'|err] w' e; [|intros [Hf Hb]; auto].
    intros (Hlen & Hframe & Hbal & Hfirst & Hran & Hcount).
    change (len (@nil Z)) with 0 in *.
    split; [exact Hframe|]. split; [exact Hbal|].
    split; [intros ->; now apply Hfirst|].
    split; [|exact Hcount].
    intros Hne. apply Hran. destruct epoch_list; [contradiction|].
    rewrite len_cons. pose proof (len_nonneg epoch_list). lia.
Qed.

(** ** [fit], in full *)

Lemma total_steps_cases self epochs w :
  let k := grad_accumulation_steps self in
  let n := len (train_dl (data self)) in
  ((k = 0 \/ (0 < max_steps self /\ n = 0)) /\
   @total_steps F T Batch Store self epochs w
   = (Raises ZeroDivisionError, w, [])) \/
  ((k <> 0 /\ (0 < max_steps self -> n <> 0)) /\
   exists w1,
     @total_steps F T Batch Store self epochs w
     = (Returns (scheduler_total self epochs), w1, []) /\
     model_wrapped w1 = model_wrapped w /\
     model_training w1 = model_training w /\
     store w1 = store w /\
     self_epochs w1 = epochs_after self w).
Proof.
  intros k n. rewrite total_steps_run. unfold scheduler_total, epochs_after.
  fold k n. destruct (max_steps self >? 0) eqn:Hmax.
  - apply Z.gtb_lt in Hmax. destruct (n =? 0) eqn:Hn; cbn [orb].
    + apply Z.eqb_eq in Hn. left. split; [right; auto|reflexivity].
    + apply Z.eqb_neq in Hn. destruct (k =? 0) eqn:Hk.
      * apply Z.eqb_eq in Hk. left. auto.
      * apply Z.eqb_neq in Hk. right. split; [auto|].
        eexists. split; [reflexivity|]. cbn. auto.
  - rewrite Z.gtb_ltb in Hmax. apply Z.ltb_ge in Hmax.
    destruct (k =? 0) eqn:Hk.
    + apply Z.eqb_eq in Hk. left. auto.
    + apply Z.eqb_neq in Hk. right. split; [split; [auto|lia]|].
      exists w. auto.
Qed.

Lemma range_nonpos epochs : epochs <= 0 -> range epochs = [].
Proof. intros He. unfold range. now rewrite Z2Nat.nonpos. Qed.

Lemma range_pos epochs : 0 < epochs -> range epochs <> [].
Proof.
  intros He Hnil. pose proof (len_range epochs) as Hlen.
  rewrite Hnil in Hlen. change (len (@nil Z)) with 0 in Hlen. lia.
Qed.

Lemma prologue_counts self epochs lr schedule_type optimizer_type t_total :
  let pro := @prologue_events F T Batch self epochs lr schedule_type
               optimizer_type t_total in
  optimizer_steps pro = 0 /\ scheduler_steps pro = 0 /\ loss_scalars pro = 0.
Proof. repeat split. Qed.

(** Every run of [fit]: it stops at the computation of its total, the world
    untouched, or goes through the prologue; what it returns, it returns
    after a loop in which nothing was absent. *)
Lemma fit_full self epochs lr validate_flag schedule_type optimizer_type w :
  let k := grad_accumulation_steps self in
  let L := logging_steps self in
  let n := len (train_dl (data self)) in
  let pro := prologue_events self epochs lr schedule_type optimizer_type
               (scheduler_total self epochs) in
  sat (fit IS_AMP_AVAILABLE self epochs lr validate_flag schedule_type
         optimizer_type) w
    (fun o w' e =>
      scheduler_steps e = optimizer_steps e /\
      (((k = 0 \/ (0 < max_steps self /\ n = 0)) /\
        o = Raises ZeroDivisionError /\ w' = w /\ e = [TbOpen]) \/
       ((k <> 0 /\ (0 < max_steps self -> n <> 0)) /\
        model_wrapped w' = multi_gpu self /\
        self_epochs w' = epochs_after self w /\
        (exists rest, e = pro ++ rest) /\
        (epochs <= 0 ->
           o = Raises ZeroDivisionError /\ e = pro ++ [TbClose] /\
           model_training w' = model_training w /\
           store w'
           = zero_grad (get_scheduler (scheduler_total self epochs) schedule_type
                          (get_optimizer lr optimizer_type (store w)))))) /\
      match o with
      | Returns (g, mean) =>
          healthy IS_AMP_AVAILABLE self validate_flag /\ 1 <= epochs /\
          model_training w' = negb validate_flag /\
          g = optimizer_steps e /\
          mean = fdiv (cumulative_loss k e) (of_int g) /\
          (0 < L -> loss_scalars e = g / L) /\
          (L <= 0 -> loss_scalars e = 0)
      | Raises _ => True
      end).
Proof.
  intros k L n pro. unfold sat. rewrite fit_unfold.
  destruct (total_steps_cases self epochs w)
    as [[Hc Ht]|[Hc (w1 & Ht & Hw1 & Hm1 & Hs1 & He1)]];
    fold k n in Hc; rewrite Ht.
  { split; [reflexivity|]. split; [left; auto|exact I]. }
  fold pro.
  destruct (prologue_counts self epochs lr schedule_type optimizer_type
              (scheduler_total self epochs)) as (Hpo & Hps & Hpl).
  fold pro in Hpo, Hps, Hpl.
  set (w2 := after_prologue self lr schedule_type optimizer_type
               (scheduler_total self epochs) w1).
  destruct (Z_le_gt_dec epochs 0) as [He|He].
  { rewrite (range_nonpos epochs He). cbn [for_each]. unfold ret.
    cbn [tr_loss global_step loop_start]. unfold py_truediv.
    cbn [Z.eqb app].
    split; [reflexivity|]. split; [|exact I]. right.
    split; [exact Hc|]. split; [reflexivity|]. split; [exact He1|].
    split; [eauto|]. intros _.
    split; [reflexivity|]. split; [reflexivity|].
    split; [exact Hm1|]. cbn [store w2 after_prologue]. now rewrite Hs1. }
  pose proof (epoch_loop_full self validate_flag loop_start (range epochs) w2)
    as Hfull.
  pose proof (epoch_loop_spec self validate_flag pro loop_start (range epochs) w2
                (prologue_inv self epochs lr schedule_type optimizer_type
                   (scheduler_total self epochs))) as Hspec.
  unfold sat in Hfull, Hspec. cbv zeta in Hfull, Hspec.
  destruct (for_each (range epochs) loop_start
              (run_epoch IS_AMP_AVAILABLE self validate_flag) w2)
    as [[[st'|err] w3] e].
  - destruct Hfull as ((Hwr & Hep) & Hbal & _ & Hran & Hcount).
    destruct Hspec as ((Hg & _ & Htr & _) & _).
    destruct (Hran (range_pos epochs ltac:(lia))) as (Hh & Hmode).
    assert (Hopt : optimizer_steps (pro ++ e ++ [TbClose])
                   = optimizer_steps (pro ++ e)).
    { rewrite app_assoc, optimizer_steps_app. cbn. lia. }
    split.
    { rewrite !scheduler_steps_app, !optimizer_steps_app, Hpo, Hps, Hbal.
      reflexivity. }
    split.
    { right. split; [exact Hc|]. split; [exact Hwr|].
      split; [rewrite Hep; exact He1|]. split; [eauto|]. lia. }
    unfold py_truediv. destruct (global_step st' =? 0); [exact I|].
    split; [exact Hh|]. split; [lia|]. split; [exact Hmode|].
    split; [now rewrite Hopt|].
    split.
    { rewrite Htr. unfold cumulative_loss.
      rewrite (app_assoc pro e), (cumulative_loss_from_app k _ (pro ++ e)).
      reflexivity. }
    destruct (Hcount 0) as [Hpos Hneg].
    { cbn [global_step loop_start]. split; [intros _; now rewrite Zdiv_0_l|auto]. }
    rewrite !loss_scalars_app, Hpl.
    change (loss_scalars [TbClose]) with 0.
    subst L. split; intros HL; [pose proof (Hpos HL)|pose proof (Hneg HL)]; lia.
  - destruct Hfull as ((Hwr & Hep) & Hbal & _).
    split.
    { rewrite !scheduler_steps_app, !optimizer_steps_app, Hpo, Hps, Hbal.
      reflexivity. }
    split; [|exact I].
    right. split; [exact Hc|]. split; [exact Hwr|].
    split; [rewrite Hep; exact He1|]. split; [eauto|]. lia.
Qed.

(** ** Beyond the claims: [training_step] and [validate] *)

(** X2: [training_step] returns exactly when the Neptune run is present and,
    under mixed precision, [autocast] is bound and the scaler present.
    Otherwise it raises, and which exception is fixed by the order of the
    body: [NameError] for the unbound [autocast], else [TypeError] for the
    absent run, else [AttributeError] for the absent scaler, this last after
    the loss has been recorded on the Neptune run. Whatever the outcome the
    model is left in training mode, wrapped as it was. *)
Theorem training_step_raises_in_order self batch w :
  sat (training_step IS_AMP_AVAILABLE self batch) w (fun o w' e =>
    model_training w' = true /\ same_frame w w' /\
    match o with
    | Returns _ =>
        neptune_run self <> None /\
        (is_fp16 self = true -> IS_AMP_AVAILABLE = true /\ scaler self <> None)
    | Raises err =>
        ~ (neptune_run self <> None /\
           (is_fp16 self = true ->
              IS_AMP_AVAILABLE = true /\ scaler self <> None)) /\
        err = training_step_error IS_AMP_AVAILABLE self /\
        (err = AttributeError ->
           exists raw, e = [NeptuneLogTensor "Fine_tune/fine_tune_batch_loss" raw]) /\
        (err <> AttributeError -> e = [])
    end).
Proof.
  unfold training_step, training_step_error, same_frame. unfold_monad. cbn.
  destruct (mask_tokens batch (store w)) as [[inputs labels] s1]. cbn.
  destruct (is_fp16 self) eqn:Hfp, IS_AMP_AVAILABLE eqn:Hamp,
    (neptune_run self) eqn:Hsink, (scaler self) eqn:Hscaler; cbn;
    repeat match goal with
      | |- context [forward_train ?a ?i ?l ?s] =>
          destruct (forward_train a i l s) as [outputs s2]; cbn
      end;
    repeat match goal with
      | |- _ /\ _ => split
      | |- ~ _ => intros [Hs Hp]
      | |- _ = _ -> _ => intros Herr
      | |- _ <> _ -> _ => intros Herr
      end;
    try reflexivity; try discriminate; try contradiction; eauto;
    try (destruct (Hp eq_refl) as [Ha Hb]; (discriminate || contradiction)).
Qed.

(** X3: [validate] divides by the number of validation batches before it
    touches the Neptune run: over an empty validation set it raises
    [ZeroDivisionError] after its three logger lines, the world untouched,
    also when the run is absent; over a non-empty one it raises [TypeError]
    when the run is absent and returns otherwise, leaving the model in
    evaluation mode. It never steps the optimiser or the scheduler, and
    leaves the store, the wrapping and [self.epochs] as they were. *)
Theorem validate_raises_in_order self w :
  sat (validate self) w (fun o w' e =>
    same_frame w w' /\ store w' = store w /\
    optimizer_steps e = 0 /\ scheduler_steps e = 0 /\
    match val_dl (data self), neptune_run self with
    | [], _ =>
        o = Raises ZeroDivisionError /\ w' = w /\
        e = [LoggerInfo RunningEvaluation;
             LoggerInfo (NumExamplesEvaluated (val_num_examples (data self)));
             LoggerInfo (ValidationBatchSize (val_batch_size (data self)))]
    | _ :: _, None => o = Raises TypeError /\ model_training w' = false
    | _ :: _, Some _ =>
        (exists results, o = Returns results) /\ model_training w' = false
    end).
Proof.
  pose proof (validate_spec self w) as Hspec.
  pose proof (validate_mode self w) as Hmode.
  assert (Hnil : val_dl (data self) = [] ->
            validate self w
            = (Raises ZeroDivisionError, w,
               [LoggerInfo RunningEvaluation;
                LoggerInfo (NumExamplesEvaluated (val_num_examples (data self)));
                LoggerInfo (ValidationBatchSize (val_batch_size (data self)))])).
  { intros Hval. unfold validate. rewrite Hval. reflexivity. }
  unfold sat in *. destruct (val_dl (data self)) as [|batch batches].
  - rewrite (Hnil eq_refl). repeat split.
  - destruct (validate self w) as [[o w'] e].
    destruct Hspec as (Hs & Hw & He & Hq & Ho).
    split; [split; assumption|]. split; [exact Hs|].
    split; [now apply quiet_optimizer_steps|].
    split; [now apply quiet_scheduler_steps|].
    destruct (neptune_run self); (split; [|exact Hmode]); subst o; eauto.
Qed.

(** ** Beyond the claims: [fit] *)

(** X4: [fit] raises [ZeroDivisionError] while computing the scheduler
    total, with the tensorboard writer opened and nothing else done (no
    optimiser built, the world untouched), exactly when the accumulation
    factor is zero, or [max_steps] is set and there is no training batch. *)
Theorem fit_stops_before_the_optimizer self epochs lr validate_flag
    schedule_type optimizer_type w :
  (grad_accumulation_steps self = 0 \/
   (0 < max_steps self /\ len (train_dl (data self)) = 0)) <->
  fit IS_AMP_AVAILABLE self epochs lr validate_flag schedule_type
    optimizer_type w
  = (Raises ZeroDivisionError, w, [TbOpen]).
Proof.
  pose proof (fit_full self epochs lr validate_flag schedule_type
                optimizer_type w) as Hfull.
  unfold sat in Hfull. cbv zeta in Hfull.
  destruct (fit _ self epochs lr validate_flag schedule_type optimizer_type w)
    as [[o w'] e].
  destruct Hfull as (_ & [(Hc & -> & -> & ->)|(Hc & _ & _ & (rest & ->) & _)] & _).
  - split; [reflexivity|intros _; exact Hc].
  - split.
    + intros [Hk|[Hmax Hn]]; [now destruct Hc|].
      destruct Hc as [_ Hc]. now destruct (Hc Hmax).
    + intros Hrun. discriminate Hrun.
Qed.

(** X5: asked for no epoch (or a negative number of them), [fit] still
    builds the optimiser and the scheduler, wraps the model, logs its
    prologue and closes the tensorboard writer, and then raises
    [ZeroDivisionError] at its return, dividing the training loss by a
    global step of zero. *)
Theorem fit_without_epochs self epochs lr validate_flag schedule_type
    optimizer_type w :
  epochs <= 0 ->
  grad_accumulation_steps self <> 0 ->
  (0 < max_steps self -> len (train_dl (data self)) <> 0) ->
  exists w',
    fit IS_AMP_AVAILABLE self epochs lr validate_flag schedule_type
      optimizer_type w
    = (Raises ZeroDivisionError, w',
       prologue_events self epochs lr schedule_type optimizer_type
         (scheduler_total self epochs) ++ [TbClose]) /\
    model_wrapped w' = multi_gpu self /\
    model_training w' = model_training w /\
    store w' = zero_grad (get_scheduler (scheduler_total self epochs)
                            schedule_type
                            (get_optimizer lr optimizer_type (store w))).
Proof.
  intros He Hk Hn.
  pose proof (fit_full self epochs lr validate_flag schedule_type
                optimizer_type w) as Hfull.
  unfold sat in Hfull. cbv zeta in Hfull.
  destruct (fit _ self epochs lr validate_flag schedule_type optimizer_type w)
    as [[o w'] e].
  destruct Hfull as (_ & [([Hc|[Hmax Hc]] & _)|(_ & Hwr & _ & _ & Hnone)] & _).
  - contradiction.
  - now destruct (Hn Hmax).
  - destruct (Hnone He) as (-> & -> & Hmode & Hstore). eauto.
Qed.

(** X6: for an accumulation factor [k >= 1], [fit] returns exactly when
    nothing it uses is absent (a Neptune run, autocast and a scaler under
    mixed precision, validation batches when validating), there are at
    least [k] training batches, and at least one epoch is asked for. *)
Theorem fit_returns_exactly_when self epochs lr validate_flag schedule_type
    optimizer_type w :
  1 <= grad_accumulation_steps self ->
  (exists result w' e,
     fit IS_AMP_AVAILABLE self epochs lr validate_flag schedule_type
       optimizer_type w
     = (Returns result, w', e)) <->
  (healthy IS_AMP_AVAILABLE self validate_flag /\
   grad_accumulation_steps self <= len (train_dl (data self)) /\
   1 <= epochs).
Proof.
  intros Hk. split.
  - intros ([g mean] & w' & e & Hrun).
    pose proof (fit_full self epochs lr validate_flag schedule_type
                  optimizer_type w) as Hfull.
    pose proof (fit_spec self epochs lr validate_flag schedule_type
                  optimizer_type w) as Hspec.
    unfold sat in Hfull, Hspec. cbv zeta in Hfull, Hspec.
    rewrite Hrun in Hfull, Hspec.
    destruct Hfull as (_ & _ & Hh & He & _).
    destruct Hspec as (_ & Hg & Hnz & _ & _ & Hcount).
    destruct (Hcount ltac:(lia)) as [Hopt _].
    split; [exact Hh|]. split; [|exact He].
    destruct (Z_lt_le_dec (len (train_dl (data self)))
                (grad_accumulation_steps self)) as [Hlt|Hle]; [|exact Hle].
    pose proof (len_nonneg (train_dl (data self))) as Hnn.
    rewrite Z.div_small in Hopt by lia. lia.
  - intros (Hh & Hn & He).
    destruct (fit_returns self epochs lr validate_flag schedule_type
                optimizer_type w Hh ltac:(lia) He)
      as (mean & w' & e & Hrun & _).
    eauto.
Qed.

(** X7: the second result of a returning [fit] is the sum of the losses of
    all the micro-batches it ran, each divided by the accumulation factor
    when that is above one, those of the batches left over after the last
    full window of an epoch included, divided by the number of optimiser
    steps taken (not by the number of batches). *)
Theorem fit_mean_loss self epochs lr validate_flag schedule_type
    optimizer_type w :
  let k := grad_accumulation_steps self in
  let n := len (train_dl (data self)) in
  healthy IS_AMP_AVAILABLE self validate_flag ->
  1 <= k <= n -> 1 <= epochs ->
  exists mean w' e,
    fit IS_AMP_AVAILABLE self epochs lr validate_flag schedule_type
      optimizer_type w
    = (Returns (epochs * (n / k), mean), w', e) /\
    optimizer_steps e = epochs * (n / k) /\
    mean = fdiv (cumulative_loss k e) (of_int (epochs * (n / k))).
Proof.
  intros k n Hh Hkn He.
  destruct (fit_returns self epochs lr validate_flag schedule_type
              optimizer_type w Hh Hkn He)
    as (mean & w' & e & Hrun & Hopt & _).
  pose proof (fit_full self epochs lr validate_flag schedule_type
                optimizer_type w) as Hfull.
  unfold sat in Hfull. cbv zeta in Hfull. fold k n in Hrun, Hopt.
  rewrite Hrun in Hfull.
  destruct Hfull as (_ & _ & _ & _ & _ & _ & Hmean & _).
  exists mean, w', e. auto.
Qed.

(** X8: a returning [fit] that took [g] optimiser steps has written the
    training loss to tensorboard [g // L] times for a logging interval
    [L > 0], and never for [L <= 0]. *)
Theorem fit_logs_loss_every_interval self epochs lr validate_flag
    schedule_type optimizer_type w :
  let k := grad_accumulation_steps self in
  let n := len (train_dl (data self)) in
  let L := logging_steps self in
  healthy IS_AMP_AVAILABLE self validate_flag ->
  1 <= k <= n -> 1 <= epochs ->
  exists mean w' e,
    fit IS_AMP_AVAILABLE self epochs lr validate_flag schedule_type
      optimizer_type w
    = (Returns (epochs * (n / k), mean), w', e) /\
    loss_scalars e = (if 0 <? L then epochs * (n / k) / L else 0).
Proof.
  intros k n L Hh Hkn He.
  destruct (fit_returns self epochs lr validate_flag schedule_type
              optimizer_type w Hh Hkn He)
    as (mean & w' & e & Hrun & _).
  pose proof (fit_full self epochs lr validate_flag schedule_type
                optimizer_type w) as Hfull.
  unfold sat in Hfull. cbv zeta in Hfull. fold k n in Hrun.
  rewrite Hrun in Hfull.
  destruct Hfull as (_ & _ & _ & _ & _ & _ & _ & Hpos & Hneg).
  exists mean, w', e. split; [exact Hrun|]. fold L in Hpos, Hneg.
  destruct (0 <? L) eqn:HL.
  - apply Z.ltb_lt in HL. auto.
  - apply Z.ltb_ge in HL. auto.
Qed.

(** X9: once [fit] is past the computation of its total, whatever happens
    next, the model ends wrapped in [DataParallel] exactly when [multi_gpu]
    is set, also when it was wrapped before (a second [fit] does not wrap
    twice), and [self.epochs] is set exactly when [max_steps] is. *)
Theorem fit_wraps_once self epochs lr validate_flag schedule_type
    optimizer_type w :
  grad_accumulation_steps self <> 0 ->
  (0 < max_steps self -> len (train_dl (data self)) <> 0) ->
  let w' := (fit IS_AMP_AVAILABLE self epochs lr validate_flag schedule_type
               optimizer_type w).1.2 in
  model_wrapped w' = multi_gpu self /\
  self_epochs w' = epochs_after self w.
Proof.
  intros Hk Hn.
  pose proof (fit_full self epochs lr validate_flag schedule_type
                optimizer_type w) as Hfull.
  unfold sat in Hfull. cbv zeta in Hfull |- *.
  destruct (fit _ self epochs lr validate_flag schedule_type optimizer_type w)
    as [[o w'] e]. cbn [fst snd].
  destruct Hfull as (_ & [([Hc|[Hmax Hc]] & _)|(_ & Hwr & Hep & _)] & _).
  - contradiction.
  - now destruct (Hn Hmax).
  - auto.
Qed.

(** X10: a returning [fit] leaves the model in evaluation mode when it
    validates (its last act on the model is the validation at the end of
    the last epoch) and in training mode when it does not. *)
Theorem fit_leaves_mode self epochs lr validate_flag schedule_type
    optimizer_type w :
  let k := grad_accumulation_steps self in
  let n := len (train_dl (data self)) in
  healthy IS_AMP_AVAILABLE self validate_flag ->
  1 <= k <= n -> 1 <= epochs ->
  exists result w' e,
    fit IS_AMP_AVAILABLE self epochs lr validate_flag schedule_type
      optimizer_type w
    = (Returns result, w', e) /\
    model_training w' = negb validate_flag.
Proof.
  intros k n Hh Hkn He.
  destruct (fit_returns self epochs lr validate_flag schedule_type
              optimizer_type w Hh Hkn He)
    as (mean & w' & e & Hrun & _).
  pose proof (fit_full self epochs lr validate_flag schedule_type
                optimizer_type w) as Hfull.
  unfold sat in Hfull. cbv zeta in Hfull. rewrite Hrun in Hfull.
  destruct Hfull as (_ & _ & _ & _ & Hmode & _).
  eauto.
Qed.

(** X11: in every run of [fit], also one that raises part of the way, the
    scheduler has been stepped as many times as the optimiser. *)
Theorem fit_steps_scheduler_with_optimizer self epochs lr validate_flag
    schedule_type optimizer_type w :
  let e := (fit IS_AMP_AVAILABLE self epochs lr validate_flag schedule_type
              optimizer_type w).2 in
  scheduler_steps e = optimizer_steps e.
Proof.
  pose proof (fit_full self epochs lr validate_flag schedule_type
                optimizer_type w) as Hfull.
  unfold sat in Hfull. cbv zeta in Hfull |- *.
  destruct (fit _ self epochs lr validate_flag schedule_type optimizer_type w)
    as [[o w'] e]. cbn [snd].
  now destruct Hfull as (Hbal & _).
Qed.

(** ** Beyond the claims: the epoch average *)

Lemma batch_loop_epoch_loss self validate_flag st0 i batches w :
  let k := grad_accumulation_steps self in
  sat (for_each (enumerate_from i batches) st0
         (micro_step IS_AMP_AVAILABLE self validate_flag)) w
    (fun o w' e =>
      match o with
      | Returns st' =>
          epoch_loss st' = cumulative_loss_from k (epoch_loss st0) e /\
          epoch_step st' = epoch_step st0 + optimizer_steps e
      | Raises _ => True
      end).
Proof.
  intros k.
  eapply sat_mono.
  apply (sat_for_each (micro_step IS_AMP_AVAILABLE self validate_flag)
    (fun rem st w' e =>
       exists j bs, rem = enumerate_from j bs /\
         epoch_loss st = cumulative_loss_from k (epoch_loss st0) e /\
         epoch_step st = epoch_step st0 + optimizer_steps e)
    (fun _ _ _ => True)).
  - exists i, batches. split; [reflexivity|]. split; [reflexivity|].
    change (optimizer_steps []) with 0. lia.
  - intros x rem st w1 pre (j & bs & Hrem & Hloss & Hstep).
    symmetry in Hrem.
    apply enumerate_from_cons in Hrem as (b & bs' & -> & -> & ->).
    eapply sat_mono; [apply micro_step_spec|].
    intros [st'|err] w2 m Hpost; [|exact I].
    destruct Hpost as (x & _ & Hel & Hcum & _ & _ & Hes & Hopt & _).
    exists (j + 1), bs'. split; [reflexivity|].
    rewrite cumulative_loss_from_app, <- Hloss, Hcum, optimizer_steps_app.
    split; [exact Hel|]. lia.
  - intros [st'|err] w' e; [|auto]. intros (j & bs & _ & Hloss & Hstep). auto.
Qed.

Lemma epoch_end_average self validate_flag epoch (st : @Loop F) w :
  sat (epoch_end self validate_flag epoch st) w (fun o w' e =>
    match o with
    | Returns _ =>
        LoggerInfo (TrainLossAfterEpoch (epoch + 1)
                      (fdiv (epoch_loss st) (of_int (epoch_step st)))) ∈ e
    | Raises _ => True
    end).
Proof.
  unfold epoch_end. apply sat_bind.
  assert (Htail : forall w1 (q : list (@Event F T)),
    sat (bind (read_store scheduler_get_lr) (fun lr =>
           bind (emit (LoggerInfo (LrAfterEpoch (epoch + 1) lr))) (fun _ =>
           bind (lift (py_truediv (epoch_loss st) (epoch_step st))) (fun avg =>
           bind (emit (LoggerInfo (TrainLossAfterEpoch (epoch + 1) avg))) (fun _ =>
           emit (LoggerInfo Newline)))))) w1
      (fun o2 w2 e2 =>
         match o2 with
         | Returns _ =>
             LoggerInfo (TrainLossAfterEpoch (epoch + 1)
                           (fdiv (epoch_loss st) (of_int (epoch_step st))))
             ∈ q ++ e2
         | Raises _ => True
         end)).
  { intros w1 q. unfold py_truediv. unfold_monad. cbn.
    destruct (epoch_step st =? 0); cbn; [exact I|].
    apply elem_of_app. right.
    apply list_elem_of_further, list_elem_of_here. }
  destruct validate_flag.
  - apply sat_bind. eapply sat_mono; [apply sat_any; intros; exact I|].
    intros [results|err] w1 e1 _; [|exact I].
    eapply sat_mono; [apply sat_any; intros; exact I|].
    intros [[]|err] w2 e2 _; [|exact I].
    eapply sat_mono; [apply (Htail w2 (e1 ++ e2))|].
    intros [[]|err] w3 e3 H; [|exact I]. exact H.
  - unfold sat at 1, ret at 1.
    eapply sat_mono; [apply (Htail w [])|]. intros [[]|err] w3 e3 H; exact H.
Qed.

Lemma run_epoch_average self validate_flag st epoch w :
  let k := grad_accumulation_steps self in
  sat (run_epoch IS_AMP_AVAILABLE self validate_flag st epoch) w
    (fun o w' e =>
      match o with
      | Returns _ =>
          LoggerInfo (TrainLossAfterEpoch (epoch + 1)
                        (fdiv (cumulative_loss k e) (of_int (optimizer_steps e))))
          ∈ e
      | Raises _ => True
      end).
Proof.
  intros k. unfold run_epoch. apply sat_bind.
  eapply sat_mono; [apply batch_loop_epoch_loss|]. fold k.
  intros [st1|err] w1 e1 Hloop; [|exact I].
  cbn [epoch_loss epoch_step] in Hloop. destruct Hloop as [Hloss Hstep].
  apply sat_bind.
  eapply sat_mono;
    [apply (sat_and _ _ _ _ (epoch_end_full self validate_flag epoch st1 w1)
              (epoch_end_average self validate_flag epoch st1 w1))|].
  intros [[]|err] w2 e2 [(_ & Hq & _) Hin]; [|exact I].
  unfold sat, ret. rewrite app_nil_r.
  unfold cumulative_loss.
  rewrite cumulative_loss_from_app, (quiet_cumulative_loss k e2 _ Hq),
    optimizer_steps_app, (quiet_optimizer_steps e2 Hq), Z.add_0_r.
  rewrite Hloss, Hstep, Z.add_0_l in Hin.
  apply elem_of_app. right. exact Hin.
Qed.

Lemma run_epoch_returns self validate_flag st epoch w :
  let k := grad_accumulation_steps self in
  let n := len (train_dl (data self)) in
  healthy IS_AMP_AVAILABLE self validate_flag -> 1 <= k <= n ->
  exists st' w' e,
    run_epoch IS_AMP_AVAILABLE self validate_flag st epoch w
    = (Returns st', w', e) /\
    optimizer_steps e = n / k.
Proof.
  intros k n Hh Hkn.
  pose proof (run_epoch_spec self validate_flag [] st epoch w) as Hspec.
  unfold sat in Hspec. cbv zeta in Hspec. fold k n in Hspec.
  destruct (run_epoch _ self validate_flag st epoch w) as [[[st'|err] w'] e].
  - destruct Hspec as (_ & _ & Hcount).
    destruct (Hcount ltac:(lia)) as (Hopt & _). eauto.
  - destruct Hspec as (_ & Hwhy).
    destruct (Hwhy Hh ltac:(lia)) as (Hzero & _).
    assert (1 <= n / k) by (apply Z.div_le_lower_bound; lia). lia.
Qed.

(** X12: an epoch with nothing absent and at least one full accumulation
    window returns after [n // k] optimiser steps, and the "train_loss
    after epoch" line it logs carries the sum of the losses of all the [n]
    micro-batches of the epoch (each divided by [k] when [k > 1]) divided
    by [n // k], the number of optimiser steps of the epoch. *)
Theorem epoch_average_loss self validate_flag st epoch w :
  let k := grad_accumulation_steps self in
  let n := len (train_dl (data self)) in
  healthy IS_AMP_AVAILABLE self validate_flag -> 1 <= k <= n ->
  exists st' w' e,
    run_epoch IS_AMP_AVAILABLE self validate_flag st epoch w
    = (Returns st', w', e) /\
    optimizer_steps e = n / k /\
    LoggerInfo (TrainLossAfterEpoch (epoch + 1)
                  (fdiv (cumulative_loss k e) (of_int (n / k)))) ∈ e.
Proof.
  intros k n Hh Hkn.
  destruct (run_epoch_returns self validate_flag st epoch w Hh Hkn)
    as (st' & w' & e & Hrun & Hopt).
  pose proof (run_epoch_average self validate_flag st epoch w) as Havg.
  unfold sat in Havg. cbv zeta in Havg. rewrite Hrun in Havg.
  fold k n in Hopt. fold k in Havg. rewrite Hopt in Havg.
  exists st', w', e. auto.
Qed.

End Properties.

(** * The properties at concrete runs *)

Module Runs.
Import Example.

Local Open Scope R_scope.
Local Open Scope Z_scope.

(** One batch, accumulation factor two, one epoch: the claimed count is
    [1 * (1 // 2) = 0], and [fit] raises instead of returning it. *)
Lemma fit_steps_claim_fails :
  ~ fit_steps_claim false (learner [1] [] [] 2 0) 1 0%R false
      "warmup_cosine" "lamb" world0.
Proof.
  intros [(mean_loss & w' & evs & Hrun & _) _].
  vm_compute in Hrun. discriminate Hrun.
Qed.

Lemma fit_step_count_witness :
  healthy false (learner [1; 2; 3; 4; 5] [] [] 2 2) false /\
  max_steps (learner [1; 2; 3; 4; 5] [] [] 2 2) <= 0 /\
  1 <= grad_accumulation_steps (learner [1; 2; 3; 4; 5] [] [] 2 2)
    <= len (train_dl (data (learner [1; 2; 3; 4; 5] [] [] 2 2))) /\
  1 <= 1 /\
  fit_steps_claim false (learner [1; 2; 3; 4; 5] [] [] 2 2) 1 0%R false
    "warmup_cosine" "lamb" world0.
Proof.
  assert (Hh : healthy false (learner [1; 2; 3; 4; 5] [] [] 2 2) false)
    by (unfold healthy; cbn; repeat split; intros; (discriminate || lia)).
  assert (Hm : max_steps (learner [1; 2; 3; 4; 5] [] [] 2 2) <= 0)
    by (cbn; lia).
  assert (Hkn : 1 <= grad_accumulation_steps (learner [1; 2; 3; 4; 5] [] [] 2 2)
                <= len (train_dl (data (learner [1; 2; 3; 4; 5] [] [] 2 2))))
    by (vm_compute; split; discriminate).
  assert (He : 1 <= 1) by lia.
  exact (conj Hh (conj Hm (conj Hkn (conj He
    (fit_step_count false (learner [1; 2; 3; 4; 5] [] [] 2 2) 1 0%R false
       "warmup_cosine" "lamb" world0 Hh Hm Hkn He))))).
Defined.

(** C2: [max_steps] sets the scheduler total and [self.epochs], and the loop
    reads neither.  With a maximum of 10, four batches and one epoch asked,
    [fit] stops after 4 optimiser steps, short of the maximum, having set
    [self.epochs] to 3; with a maximum of 1, two batches and three epochs
    asked, it takes 6, five more than the maximum where an epoch has two. *)
Theorem max_steps_does_not_bound_the_run :
  let short := fit false (set_max_steps (learner [1; 2; 3; 4] [] [] 1 0) 10)
                 1 0%R false "warmup_cosine" "lamb" world0 in
  let long := fit false (set_max_steps (learner [1; 2] [] [] 1 0) 1)
                3 0%R false "warmup_cosine" "lamb" world0 in
  (fst <$> returned short.1.1 = Some 4 /\ optimizer_steps short.2 = 4 /\
   scheduler_totals short.2 = [10] /\ self_epochs short.1.2 = Some 3) /\
  (fst <$> returned long.1.1 = Some 6 /\ optimizer_steps long.2 = 6 /\
   scheduler_totals long.2 = [1] /\ self_epochs long.1.2 = Some 1).
Proof. vm_compute. repeat split. Qed.

Lemma logged_loss_witness :
  let self := learner [1; 2; 3; 4; 5] [] [] 2 2 in
  let evs := (fit false self 1 0%R false "warmup_cosine" "lamb" world0).2 in
  let value := ((0 + 1 / 2 + 2 / 2 + 3 / 2 + 4 / 2 - 0) / 2)%R in
  TbAddScalar "loss" value 2 ∈ evs /\
  logged_train_loss (TbAddScalar "loss" value 2 : @Event R R) = Some (2, value) /\
  (0 < 2 /\ 2 mod 2 = 0 /\ 0 < 2 <= optimizer_steps evs /\
   value = fdiv (fsub (cumulative_loss_at 2 evs 2)
                      (cumulative_loss_at 2 evs (2 - 2))) (of_int 2)).
Proof.
  intros self evs value.
  assert (Hin : TbAddScalar "loss" value 2 ∈ evs)
    by (vm_compute;
        repeat first [apply list_elem_of_here | apply list_elem_of_further]).
  exact (conj Hin (conj eq_refl
    (logged_loss_is_windowed_average false self 1 0%R false
       "warmup_cosine" "lamb" world0 (TbAddScalar "loss" value 2) 2 value
       Hin eq_refl))).
Defined.

Lemma epoch_without_step_witness :
  len (train_dl (data (learner [1; 2; 3] [] [] 4 0)))
  < grad_accumulation_steps (learner [1; 2; 3] [] [] 4 0) /\
  exists err,
    (fit false (learner [1; 2; 3] [] [] 4 0) 2 0%R false
       "warmup_cosine" "lamb" world0).1.1 = Raises err /\
    (healthy false (learner [1; 2; 3] [] [] 4 0) false ->
     err = ZeroDivisionError).
Proof.
  assert (Hsmall : len (train_dl (data (learner [1; 2; 3] [] [] 4 0)))
                   < grad_accumulation_steps (learner [1; 2; 3] [] [] 4 0))
    by reflexivity.
  assert (He : 1 <= 2) by lia.
  exact (conj Hsmall
    (proj2 (proj2 (epoch_without_step_divides_by_zero false
                     (learner [1; 2; 3] [] [] 4 0) false Hsmall))
       2 0%R "warmup_cosine" "lamb" world0 He)).
Defined.

(** Mixed precision asked for, no AMP.  Built by [__init__] with a Neptune
    run, the learner keeps [is_fp16] and its training step raises
    [NameError]; built by [from_pretrained_model] with the default options
    it is downgraded, and its training step raises [TypeError], the Neptune
    run being [None]. *)
Lemma mixed_precision_claim_fails :
  (is_fp16 (init 1 (bunch [1; 2] []) [] options_with_run) = true /\
   (training_step false (init 1 (bunch [1; 2] []) [] options_with_run) 1
      world0).1.1 = Raises NameError) /\
  (exists self w0 evs,
     from_pretrained_model false 1 (bunch [1; 2] []) "bert-base-uncased" []
       default_options
     = (Returns (self, w0), evs) /\
     is_fp16 self = false /\
     (training_step false self 1 world0).1.1 = Raises TypeError) /\
  ~ fallback_claim 1 (bunch [1; 2] []) "bert-base-uncased" [] options_with_run /\
  ~ fallback_claim 1 (bunch [1; 2] []) "bert-base-uncased" [] default_options.
Proof.
  split; [split; reflexivity|]. split.
  { eexists _, _, _. split; [reflexivity|]. split; reflexivity. }
  split.
  - intros Hclaim. destruct (Hclaim eq_refl) as [[Hfp _] _]. discriminate Hfp.
  - intros Hclaim.
    destruct (Hclaim eq_refl) as [_ (self & w0 & evs & Hrun & _ & Htrain)].
    injection Hrun as <- _ _.
    destruct (Htrain 1 world0) as (loss & w' & e & Hstep).
    discriminate Hstep.
Qed.

Lemma mixed_precision_fallback_witness :
  false = false /\
  opt_is_fp16 options_with_run = true /\
  MODEL_CLASSES !! data_model_type (bunch [1; 2] [3])
  = Some (BertConfig, BertForMaskedLM) /\
  load_pretrained BertConfig BertForMaskedLM "bert-base-uncased" = Returns 0 /\
  opt_neptune_run options_with_run <> None /\
  exists self w0,
    from_pretrained_model false 1 (bunch [1; 2] [3]) "bert-base-uncased" []
      options_with_run
    = (Returns (self, w0),
       [LoggerDebug "Apex not installed. switching off FP16 training"]) /\
    is_fp16 self = false /\ scaler self = None /\
    (exists loss w' e,
       training_step false self 1 world0 = (Returns loss, w', e)) /\
    (exists result w' e,
       fit false self 1 0%R true "warmup_cosine" "lamb" world0
       = (Returns result, w', e)).
Proof.
  assert (Hclasses : MODEL_CLASSES !! data_model_type (bunch [1; 2] [3])
                     = Some (BertConfig, BertForMaskedLM))
    by (vm_compute; reflexivity).
  assert (Hload : load_pretrained BertConfig BertForMaskedLM "bert-base-uncased"
                  = Returns 0) by reflexivity.
  assert (Hsink : opt_neptune_run options_with_run <> None) by discriminate.
  assert (Hval : true = true -> val_dl (bunch [1; 2] [3]) <> [])
    by (intros _; discriminate).
  assert (Hkn : 1 <= opt_grad_accumulation_steps options_with_run
                <= len (train_dl (bunch [1; 2] [3])))
    by (vm_compute; split; discriminate).
  assert (He : 1 <= 1) by lia.
  destruct (mixed_precision_fallback false 1 (bunch [1; 2] [3])
              "bert-base-uncased" [] options_with_run
              (BertConfig, BertForMaskedLM) 0 eq_refl eq_refl Hclasses Hload)
    as (self & w0 & Hrun & Hfp & Hscaler & _ & Htrain).
  destruct (Htrain Hsink) as [Hstep Hfit].
  exact (conj eq_refl (conj eq_refl (conj Hclasses (conj Hload (conj Hsink
    (ex_intro _ self (ex_intro _ w0 (conj Hrun (conj Hfp (conj Hscaler
       (conj (Hstep 1 world0)
             (Hfit 1 0%R true "warmup_cosine" "lamb" world0 Hval Hkn He)))))))))))).
Defined.

Lemma global_step_witness :
  healthy false (learner [1; 2; 3; 4; 5] [] [] 2 2) false /\
  exists st' w' m,
    micro_step false (learner [1; 2; 3; 4; 5] [] [] 2 2) false
      {| global_step := 0; epoch_step := 0; tr_loss := 0%R;
         logging_loss := 0%R; epoch_loss := 0%R |} (1, 2) world0
    = (Returns st', w', m) /\
    global_step st' = 0 + (if (1 + 1) mod 2 =? 0 then 1 else 0).
Proof.
  assert (Hh : healthy false (learner [1; 2; 3; 4; 5] [] [] 2 2) false)
    by (unfold healthy; cbn; repeat split; intros; (discriminate || lia)).
  exact (conj Hh
    (proj1 (proj2 (global_step_advances_at_boundaries false
                     (learner [1; 2; 3; 4; 5] [] [] 2 2) false
                     {| global_step := 0; epoch_step := 0; tr_loss := 0%R;
                        logging_loss := 0%R; epoch_loss := 0%R |}
                     1 2 world0)) Hh)).
Defined.

Lemma absent_sink_witness :
  neptune_run (init 1 (bunch [1; 2] [3]) [] default_options) = None /\
  (exists err,
     (training_step true (init 1 (bunch [1; 2] [3]) [] default_options)
        1 world0).1.1 = Raises err) /\
  (exists err,
     (validate (init 1 (bunch [1; 2] [3]) [] default_options) world0).1.1
     = Raises err).
Proof.
  assert (Hnone : neptune_run (init 1 (bunch [1; 2] [3]) [] default_options)
                  = None) by reflexivity.
  destruct (proj2 (absent_sink_raises true)
              (init 1 (bunch [1; 2] [3]) [] default_options) Hnone)
    as (Hstep & Hval & _).
  exact (conj Hnone (conj (Hstep 1 world0) (Hval world0))).
Defined.

Lemma validate_metric_scores_witness :
  neptune_run (learner [] [1; 3] [{| name := "accuracy" |}; {| name := "loss" |}]
                 1 0) <> None /\
  val_dl (data (learner [] [1; 3]
                  [{| name := "accuracy" |}; {| name := "loss" |}] 1 0)) <> [] /\
  exists results w' evs,
    validate (learner [] [1; 3] [{| name := "accuracy" |}; {| name := "loss" |}]
                1 0) world0
    = (Returns results, w', evs) /\
    results !! "accuracy" = Some 0%R /\ results !! "loss" = Some 0%R.
Proof.
  assert (Hsink : neptune_run (learner [] [1; 3]
                    [{| name := "accuracy" |}; {| name := "loss" |}] 1 0)
                  <> None) by discriminate.
  assert (Hval : val_dl (data (learner [] [1; 3]
                    [{| name := "accuracy" |}; {| name := "loss" |}] 1 0))
                 <> []) by discriminate.
  destruct (validate_metric_scores_zero
              (learner [] [1; 3] [{| name := "accuracy" |}; {| name := "loss" |}]
                 1 0) world0 Hsink Hval)
    as (results & w' & evs & Hrun & Hzero & _).
  refine (conj Hsink (conj Hval
    (ex_intro _ results (ex_intro _ w' (ex_intro _ evs
       (conj Hrun (conj (Hzero {| name := "accuracy" |} _)
                        (Hzero {| name := "loss" |} _)))))))).
  - apply list_elem_of_here.
  - apply list_elem_of_further, list_elem_of_here.
Defined.

End Runs.

(** * Further properties at concrete runs *)

Module Checks.
Import Example.

Local Open Scope R_scope.
Local Open Scope Z_scope.

Lemma fit_stops_before_the_optimizer_witness :
  (grad_accumulation_steps (learner [1; 2] [] [] 0 0) = 0 \/
   (0 < max_steps (learner [1; 2] [] [] 0 0) /\
    len (train_dl (data (learner [1; 2] [] [] 0 0))) = 0)) /\
  fit false (learner [1; 2] [] [] 0 0) 1 0%R false "warmup_cosine" "lamb" world0
  = (Raises ZeroDivisionError, world0, [TbOpen]).
Proof.
  assert (Hk : grad_accumulation_steps (learner [1; 2] [] [] 0 0) = 0 \/
               (0 < max_steps (learner [1; 2] [] [] 0 0) /\
                len (train_dl (data (learner [1; 2] [] [] 0 0))) = 0))
    by (left; reflexivity).
  exact (conj Hk
    (proj1 (fit_stops_before_the_optimizer false (learner [1; 2] [] [] 0 0)
              1 0%R false "warmup_cosine" "lamb" world0) Hk)).
Defined.

Lemma fit_without_epochs_witness :
  0 <= 0 /\
  grad_accumulation_steps (learner [1; 2] [] [] 1 0) <> 0 /\
  (0 < max_steps (learner [1; 2] [] [] 1 0) ->
   len (train_dl (data (learner [1; 2] [] [] 1 0))) <> 0) /\
  exists w',
    fit false (learner [1; 2] [] [] 1 0) 0 0%R false "warmup_cosine" "lamb"
      world0
    = (Raises ZeroDivisionError, w',
       prologue_events (learner [1; 2] [] [] 1 0) 0 0%R "warmup_cosine" "lamb" 0
         ++ [TbClose]) /\
    model_wrapped w' = false /\ model_training w' = false /\ store w' = 0.
Proof.
  assert (He : 0 <= 0) by lia.
  assert (Hk : grad_accumulation_steps (learner [1; 2] [] [] 1 0) <> 0)
    by discriminate.
  assert (Hn : 0 < max_steps (learner [1; 2] [] [] 1 0) ->
               len (train_dl (data (learner [1; 2] [] [] 1 0))) <> 0)
    by (intros _; discriminate).
  exact (conj He (conj Hk (conj Hn
    (fit_without_epochs false (learner [1; 2] [] [] 1 0) 0 0%R false
       "warmup_cosine" "lamb" world0 He Hk Hn)))).
Defined.

Lemma fit_returns_exactly_when_witness :
  1 <= grad_accumulation_steps (learner [1; 2; 3; 4; 5] [] [] 2 2) /\
  (healthy false (learner [1; 2; 3; 4; 5] [] [] 2 2) false /\
   grad_accumulation_steps (learner [1; 2; 3; 4; 5] [] [] 2 2)
   <= len (train_dl (data (learner [1; 2; 3; 4; 5] [] [] 2 2))) /\
   1 <= 1) /\
  exists result w' e,
    fit false (learner [1; 2; 3; 4; 5] [] [] 2 2) 1 0%R false
      "warmup_cosine" "lamb" world0
    = (Returns result, w', e).
Proof.
  assert (Hk : 1 <= grad_accumulation_steps (learner [1; 2; 3; 4; 5] [] [] 2 2))
    by (vm_compute; discriminate).
  assert (Hh : healthy false (learner [1; 2; 3; 4; 5] [] [] 2 2) false)
    by (unfold healthy; cbn; repeat split; intros; (discriminate || lia)).
  assert (Hn : grad_accumulation_steps (learner [1; 2; 3; 4; 5] [] [] 2 2)
               <= len (train_dl (data (learner [1; 2; 3; 4; 5] [] [] 2 2))))
    by (vm_compute; discriminate).
  assert (He : 1 <= 1) by lia.
  exact (conj Hk (conj (conj Hh (conj Hn He))
    (proj2 (fit_returns_exactly_when false (learner [1; 2; 3; 4; 5] [] [] 2 2)
              1 0%R false "warmup_cosine" "lamb" world0 Hk)
       (conj Hh (conj Hn He))))).
Defined.

Lemma fit_mean_loss_witness :
  healthy false (learner [1; 2; 3; 4; 5] [] [] 2 2) false /\
  1 <= grad_accumulation_steps (learner [1; 2; 3; 4; 5] [] [] 2 2)
    <= len (train_dl (data (learner [1; 2; 3; 4; 5] [] [] 2 2))) /\
  1 <= 1 /\
  exists mean w' e,
    fit false (learner [1; 2; 3; 4; 5] [] [] 2 2) 1 0%R false
      "warmup_cosine" "lamb" world0
    = (Returns (2, mean), w', e) /\
    optimizer_steps e = 2 /\
    mean = fdiv (cumulative_loss 2 e) (of_int 2).
Proof.
  assert (Hh : healthy false (learner [1; 2; 3; 4; 5] [] [] 2 2) false)
    by (unfold healthy; cbn; repeat split; intros; (discriminate || lia)).
  assert (Hkn : 1 <= grad_accumulation_steps (learner [1; 2; 3; 4; 5] [] [] 2 2)
                <= len (train_dl (data (learner [1; 2; 3; 4; 5] [] [] 2 2))))
    by (vm_compute; split; discriminate).
  assert (He : 1 <= 1) by lia.
  exact (conj Hh (conj Hkn (conj He
    (fit_mean_loss false (learner [1; 2; 3; 4; 5] [] [] 2 2) 1 0%R false
       "warmup_cosine" "lamb" world0 Hh Hkn He)))).
Defined.

Lemma fit_logs_loss_every_interval_witness :
  healthy false (learner [1; 2; 3; 4; 5] [] [] 2 2) false /\
  1 <= grad_accumulation_steps (learner [1; 2; 3; 4; 5] [] [] 2 2)
    <= len (train_dl (data (learner [1; 2; 3; 4; 5] [] [] 2 2))) /\
  1 <= 1 /\
  exists mean w' e,
    fit false (learner [1; 2; 3; 4; 5] [] [] 2 2) 1 0%R false
      "warmup_cosine" "lamb" world0
    = (Returns (2, mean), w', e) /\
    loss_scalars e = 1.
Proof.
  assert (Hh : healthy false (learner [1; 2; 3; 4; 5] [] [] 2 2) false)
    by (unfold healthy; cbn; repeat split; intros; (discriminate || lia)).
  assert (Hkn : 1 <= grad_accumulation_steps (learner [1; 2; 3; 4; 5] [] [] 2 2)
                <= len (train_dl (data (learner [1; 2; 3; 4; 5] [] [] 2 2))))
    by (vm_compute; split; discriminate).
  assert (He : 1 <= 1) by lia.
  exact (conj Hh (conj Hkn (conj He
    (fit_logs_loss_every_interval false (learner [1; 2; 3; 4; 5] [] [] 2 2)
       1 0%R false "warmup_cosine" "lamb" world0 Hh Hkn He)))).
Defined.

(** A model wrapped by an earlier [fit] is unwrapped and, without
    [multi_gpu], stays so; [max_steps = 10] over four batches sets
    [self.epochs] to 3. *)
Lemma fit_wraps_once_witness :
  grad_accumulation_steps (set_max_steps (learner [1; 2; 3; 4] [] [] 1 0) 10)
  <> 0 /\
  (0 < max_steps (set_max_steps (learner [1; 2; 3; 4] [] [] 1 0) 10) ->
   len (train_dl (data (set_max_steps (learner [1; 2; 3; 4] [] [] 1 0) 10)))
   <> 0) /\
  model_wrapped
    (fit false (set_max_steps (learner [1; 2; 3; 4] [] [] 1 0) 10) 1 0%R false
       "warmup_cosine" "lamb"
       {| model_wrapped := true; model_training := false;
          self_epochs := None; store := 0 |}).1.2
  = false /\
  self_epochs
    (fit false (set_max_steps (learner [1; 2; 3; 4] [] [] 1 0) 10) 1 0%R false
       "warmup_cosine" "lamb"
       {| model_wrapped := true; model_training := false;
          self_epochs := None; store := 0 |}).1.2
  = Some 3.
Proof.
  assert (Hk : grad_accumulation_steps
                 (set_max_steps (learner [1; 2; 3; 4] [] [] 1 0) 10) <> 0)
    by discriminate.
  assert (Hn : 0 < max_steps (set_max_steps (learner [1; 2; 3; 4] [] [] 1 0) 10) ->
               len (train_dl
                      (data (set_max_steps (learner [1; 2; 3; 4] [] [] 1 0) 10)))
               <> 0)
    by (intros _; discriminate).
  exact (conj Hk (conj Hn
    (fit_wraps_once false (set_max_steps (learner [1; 2; 3; 4] [] [] 1 0) 10)
       1 0%R false "warmup_cosine" "lamb"
       {| model_wrapped := true; model_training := false;
          self_epochs := None; store := 0 |} Hk Hn))).
Defined.

Lemma fit_leaves_mode_witness :
  healthy false (learner [1; 2] [3] [] 1 0) true /\
  1 <= grad_accumulation_steps (learner [1; 2] [3] [] 1 0)
    <= len (train_dl (data (learner [1; 2] [3] [] 1 0))) /\
  1 <= 1 /\
  exists result w' e,
    fit false (learner [1; 2] [3] [] 1 0) 1 0%R true "warmup_cosine" "lamb"
      world0
    = (Returns result, w', e) /\
    model_training w' = false.
Proof.
  assert (Hh : healthy false (learner [1; 2] [3] [] 1 0) true)
    by (unfold healthy; cbn; repeat split; intros; (discriminate || lia)).
  assert (Hkn : 1 <= grad_accumulation_steps (learner [1; 2] [3] [] 1 0)
                <= len (train_dl (data (learner [1; 2] [3] [] 1 0))))
    by (vm_compute; split; discriminate).
  assert (He : 1 <= 1) by lia.
  exact (conj Hh (conj Hkn (conj He
    (fit_leaves_mode false (learner [1; 2] [3] [] 1 0) 1 0%R true
       "warmup_cosine" "lamb" world0 Hh Hkn He)))).
Defined.

(** Three batches, accumulation factor two: one optimiser step, and the
    epoch average is the sum over the three batches divided by one. *)
Lemma epoch_average_loss_witness :
  healthy false (learner [1; 2; 3] [] [] 2 0) false /\
  1 <= grad_accumulation_steps (learner [1; 2; 3] [] [] 2 0)
    <= len (train_dl (data (learner [1; 2; 3] [] [] 2 0))) /\
  exists st' w' e,
    run_epoch false (learner [1; 2; 3] [] [] 2 0) false loop_start 0 world0
    = (Returns st', w', e) /\
    optimizer_steps e = 1 /\
    LoggerInfo (TrainLossAfterEpoch 1 (fdiv (cumulative_loss 2 e) (of_int 1)))
    ∈ e.
Proof.
  assert (Hh : healthy false (learner [1; 2; 3] [] [] 2 0) false)
    by (unfold healthy; cbn; repeat split; intros; (discriminate || lia)).
  assert (Hkn : 1 <= grad_accumulation_steps (learner [1; 2; 3] [] [] 2 0)
                <= len (train_dl (data (learner [1; 2; 3] [] [] 2 0))))
    by (vm_compute; split; discriminate).
  exact (conj Hh (conj Hkn
    (epoch_average_loss false (learner [1; 2; 3] [] [] 2 0) false loop_start 0
       world0 Hh Hkn))).
Defined.

End Checks.
